(** * pollination-dsl: packaging of plugins and recipes into the local
      Queenbee repository.

    A shallow embedding of [pollination_dsl/common.py] and
    [pollination_dsl/package.py].  Python strings are [string]s of 8-bit
    characters, dictionaries are [gmap]s, exceptions are values of [Exn]
    carried by a result type, and the mutable state the code touches (the
    file system under the home directory, the loaded modules with their shared
    [__pollination__] dictionaries, the warnings that were issued) is threaded
    explicitly through a state-and-exception monad. *)

From Stdlib Require Import ZArith Ascii String List Lia DecimalString DecimalPos DecimalN DecimalZ.
From stdpp Require Import base option strings gmap list.

Set Warnings "-register-all".
Open Scope string_scope.

(** ** Python string primitives *)

Module PyStr.

Definition code (c : ascii) : nat := nat_of_ascii c.

Definition is_upper (c : ascii) : bool :=
  (65 <=? code c)%nat && (code c <=? 90)%nat.

Definition lower_char (c : ascii) : ascii :=
  if is_upper c then ascii_of_nat (code c + 32) else c.

(** [str.lower] on the ASCII range. *)
Fixpoint lower (s : string) : string :=
  match s with
  | EmptyString => EmptyString
  | String c s' => String (lower_char c) (lower s')
  end.

(** The characters [str.strip] removes by default (ASCII range): tab, line
    feed, vertical tab, form feed, carriage return, the four separators
    0x1c-0x1f and the space. *)
Definition is_space (c : ascii) : bool :=
  ((9 <=? code c)%nat && (code c <=? 13)%nat)
  || ((28 <=? code c)%nat && (code c <=? 32)%nat).

Fixpoint lstrip (s : string) : string :=
  match s with
  | EmptyString => EmptyString
  | String c s' => if is_space c then lstrip s' else s
  end.

Fixpoint rstrip (s : string) : string :=
  match s with
  | EmptyString => EmptyString
  | String c s' =>
      match rstrip s' with
      | EmptyString => if is_space c then EmptyString else String c EmptyString
      | r => String c r
      end
  end.

(** [s.strip()] on text whose ends are ASCII.  Python strips the white space
    outside the ASCII range as well, which this model leaves in place. *)
Definition strip (s : string) : string := rstrip (lstrip s).

(** [s.startswith(p)] *)
Definition startswith (p s : string) : bool := String.prefix p s.

(** [s.split(sep)] for a non-empty separator: scans left to right and cuts at
    every non-overlapping occurrence.  [skip] counts the characters of a
    separator that was just matched and are still to be dropped; [cur] is the
    current piece, reversed. *)
Fixpoint split_go (sep : string) (skip : nat) (cur : string) (s : string)
  : list string :=
  match s with
  | EmptyString => [String.rev cur]
  | String c s' =>
      match skip with
      | S k => split_go sep k cur s'
      | O =>
          if startswith sep s
          then String.rev cur :: split_go sep (String.length sep - 1) EmptyString s'
          else split_go sep 0 (String c cur) s'
      end
  end.

Definition split (sep s : string) : list string := split_go sep 0 EmptyString s.

(** [s.replace(old, new)] for a non-empty [old]. *)
Fixpoint replace_go (old new : string) (skip : nat) (s : string) : string :=
  match s with
  | EmptyString => EmptyString
  | String c s' =>
      match skip with
      | S k => replace_go old new k s'
      | O =>
          if startswith old s
          then new ++ replace_go old new (String.length old - 1) s'
          else String c (replace_go old new 0 s')
      end
  end.

Definition replace (old new s : string) : string := replace_go old new 0 s.

(** [sep.join(l)] *)
Fixpoint join (sep : string) (l : list string) : string :=
  match l with
  | [] => EmptyString
  | [x] => x
  | x :: rest => x ++ sep ++ join sep rest
  end.

(** [sub in s] *)
Fixpoint contains (sub s : string) : bool :=
  startswith sub s ||
  match s with
  | EmptyString => false
  | String _ s' => contains sub s'
  end.

Definition digit_of (c : ascii) : option Z :=
  if (48 <=? code c)%nat && (code c <=? 57)%nat
  then Some (Z.of_nat (code c) - 48)%Z else None.

(** The digits of an integer literal as [int(...)] accepts them: decimal
    digits, with single underscores allowed between two digits. *)
Fixpoint parse_digits (acc : Z) (after_digit : bool) (s : string) : option Z :=
  match s with
  | EmptyString => if after_digit then Some acc else None
  | String c s' =>
      if Ascii.eqb c "_"
      then (if after_digit then parse_digits acc false s' else None)
      else match digit_of c with
           | Some d => parse_digits (10 * acc + d)%Z true s'
           | None => None
           end
  end.

(** [int(s)]: surrounding whitespace is ignored, one sign is allowed.
    [None] stands for the [ValueError] Python raises. *)
Definition int (s : string) : option Z :=
  match strip s with
  | String "-" r => Z.opp <$> parse_digits 0 false r
  | String "+" r => parse_digits 0 false r
  | t => parse_digits 0 false t
  end.

(** [str(n)] for an integer. *)
Definition str (n : Z) : string := NilEmpty.string_of_int (Z.to_int n).

End PyStr.


Definition nl : string := String (ascii_of_nat 10) EmptyString.

(** ** Exceptions and results *)

Inductive ExnKind :=
  | TypeError | ValueError | AssertionError | KeyError | AttributeError
  | FileNotFoundError | FileExistsError | NotADirectoryError | IsADirectoryError
  | ModuleNotFoundError | PackageNotFoundError | DistributionNotFound
  | ValidationError | LibraryError.

(** An exception object: its class, [str(error)], and the exception that was
    being handled when it was raised ([__context__]). *)
Inductive Exn := Exception (kind : ExnKind) (msg : string) (context : option Exn).

Definition exn_kind (e : Exn) : ExnKind := let 'Exception k _ _ := e in k.
Definition exn_str (e : Exn) : string := let 'Exception _ m _ := e in m.
Definition exn_context (e : Exn) : option Exn := let 'Exception _ _ c := e in c.

Definition is_kind (k : ExnKind) (e : Exn) : bool :=
  match k, exn_kind e with
  | TypeError, TypeError | ValueError, ValueError
  | AssertionError, AssertionError | KeyError, KeyError
  | AttributeError, AttributeError | FileNotFoundError, FileNotFoundError
  | FileExistsError, FileExistsError | NotADirectoryError, NotADirectoryError
  | IsADirectoryError, IsADirectoryError
  | ModuleNotFoundError, ModuleNotFoundError
  | PackageNotFoundError, PackageNotFoundError
  | DistributionNotFound, DistributionNotFound
  | ValidationError, ValidationError | LibraryError, LibraryError => true
  | _, _ => false
  end.

Inductive Result (A : Type) :=
  | Ok (a : A)
  | Raise (e : Exn).
Arguments Ok {A} a.
Arguments Raise {A} e.

Definition raise {A} (k : ExnKind) (msg : string) : Result A :=
  Raise (Exception k msg None).

#[global] Instance Result_ret : MRet Result := fun A a => Ok a.
#[global] Instance Result_bind : MBind Result := fun A B f m =>
  match m with
  | Ok a => f a
  | Raise e => Raise e
  end.
#[global] Instance Result_fmap : FMap Result := fun A B f m =>
  match m with
  | Ok a => Ok (f a)
  | Raise e => Raise e
  end.

(** [try: body except Exception as error: handler(error)] *)
Definition try_except {A} (body : Result A) (handler : Exn -> Result A) : Result A :=
  match body with
  | Ok a => Ok a
  | Raise error => handler error
  end.

(** An exception raised inside an [except] block: the exception being handled
    becomes its context. *)
Definition raise_from {A} (k : ExnKind) (msg : string) (handled : Exn) : Result A :=
  Raise (Exception k msg (Some handled)).

Fixpoint mapR {A B} (f : A -> Result B) (l : list A) : Result (list B) :=
  match l with
  | [] => Ok []
  | x :: rest => y ← f x; ys ← mapR f rest; Ok (y :: ys)
  end.

(** ** Python values *)

(** Plain data as it sits in the dictionaries of the code. *)
Inductive PyData :=
  | DNone
  | DStr (s : string)
  | DList (l : list PyData)
  | DDict (d : list (string * PyData)).

(** A Queenbee DAG: its name and the rest of its definition. *)
Record QbDAG := { dag_name : string; dag_body : string }.

(** An instance of a [DAG] class of the DSL, as [_load_recipe] reads it: its
    [queenbee] property and the three lists of its [_dependencies]. *)
Inductive DslDAG :=
  mkDslDAG (queenbee : QbDAG)
           (deps_dag : list DslDAG)
           (deps_plugin deps_recipe : list (gmap string PyData)).

Definition queenbee (d : DslDAG) : QbDAG := let 'mkDslDAG q _ _ _ := d in q.
Definition deps_dag (d : DslDAG) : list DslDAG := let 'mkDslDAG _ l _ _ := d in l.
Definition deps_plugin (d : DslDAG) : list (gmap string PyData) :=
  let 'mkDslDAG _ _ l _ := d in l.
Definition deps_recipe (d : DslDAG) : list (gmap string PyData) :=
  let 'mkDslDAG _ _ _ l := d in l.

(** What calling a callable does: it returns an object ([None] here stands for
    any falsy return value) or raises. *)
Inductive Callable :=
  | Returns (r : option DslDAG)
  | Raises (e : Exn).

Inductive PyVal :=
  | VData (d : PyData)
  | VCallable (c : Callable).

Definition type_name (v : PyVal) : string :=
  match v with
  | VData DNone => "NoneType"
  | VData (DStr _) => "str"
  | VData (DList _) => "list"
  | VData (DDict _) => "dict"
  | VCallable _ => "type"
  end.

(** [v()] *)
Definition call (v : PyVal) : Result (option DslDAG) :=
  match v with
  | VCallable (Returns r) => Ok r
  | VCallable (Raises e) => Raise e
  | VData _ => raise TypeError ("'" ++ type_name v ++ "' object is not callable")
  end.

(** [d[key]] *)
Definition getitem {V} (d : gmap string V) (key : string) : Result V :=
  match d !! key with
  | Some v => Ok v
  | None => raise KeyError ("'" ++ key ++ "'")
  end.

(** ** Package metadata ([email.message.Message]) *)

Record Message := { headers : list (string * string); payload : string }.

(** Header names compare without regard to case. *)
Definition header_is (name : string) (h : string * string) : bool :=
  String.eqb (PyStr.lower (fst h)) (PyStr.lower name).

(** [msg.get_all(name)] *)
Definition Message_get_all (msg : Message) (name : string) : option (list string) :=
  match List.filter (header_is name) (headers msg) with
  | [] => None
  | l => Some (List.map snd l)
  end.

(** [msg.get(name)] *)
Definition Message_get (msg : Message) (name : string) : option string :=
  match List.filter (header_is name) (headers msg) with
  | [] => None
  | h :: _ => Some (snd h)
  end.

(** A requirement as [pkg_resources.parse_requirements] yields it. *)
Record Requirement := { project_name : string; specifier : string }.

(** An installed distribution: the parsed lines of its [requires.txt], when it
    has that file.  A file that [parse_requirements] rejects is not
    modelled. *)
Record Distribution := { requires_txt : option (list Requirement) }.

(** A function of a plugin, translated to Queenbee. *)
Record QbFunction := { function_name : string; function_body : string }.

(** The Python installation the code runs in. *)
Record Host := {
  (** [pathlib.Path.home()] *)
  home : list string;
  (** what importing a module defines: [None] when there is no such module,
      otherwise the [__pollination__] dictionary of its [__init__.py], if any *)
  installed : string -> option (option (gmap string PyVal));
  (** [importlib_metadata.metadata] *)
  metadata : string -> option Message;
  (** [pkg_resources.get_distribution] *)
  get_distribution : string -> option Distribution;
  (** the Queenbee functions found by scanning the submodules of a plugin
      package for attributes decorated as functions *)
  plugin_functions : string -> Result (list QbFunction)
}.

(** ** The mutable state *)

(** A path is the list of its segments below the root, innermost first, so
    that the parent of a path is its tail. *)
Abbreviation Path := (list string).

Definition child (p : Path) (name : string) : Path := name :: p.
Infix "//" := child (at level 40, left associativity).

(** [p.as_posix()] *)
Definition as_posix (p : Path) : string := "/" ++ PyStr.join "/" (List.rev p).

(** [p.as_uri()], for the absolute paths of this model and without the
    percent-encoding of unusual characters: it is the URI of [pathlib] for a
    path whose segments are made of letters, digits and the marks [_.-~]. *)
Definition as_uri (p : Path) : string := "file://" ++ as_posix p.

Inductive Node :=
  | Dir
  | File (content : string).

Record World := {
  (** the file system: what is at each path below the root *)
  fs : gmap (list string) Node;
  (** [sys.modules]: the modules imported so far, each with its
      [__pollination__] dictionary if it has one; every reference to the
      dictionary of a module is a reference to this one object *)
  sys_modules : gmap string (option (gmap string PyVal));
  (** the warnings issued so far, oldest first *)
  warnings : list string
}.

Definition set_fs (f : gmap (list string) Node) (w : World) : World :=
  {| fs := f; sys_modules := sys_modules w; warnings := warnings w |}.
Definition set_sys_modules (m : gmap string (option (gmap string PyVal))) (w : World) : World :=
  {| fs := fs w; sys_modules := m; warnings := warnings w |}.
Definition warn (msg : string) (w : World) : World :=
  {| fs := fs w; sys_modules := sys_modules w; warnings := warnings w ++ [msg] |}.

(** Computations that read and change the state and may raise; the state
    changes made before an exception stay. *)
Definition M (A : Type) : Type := World -> Result A * World.

#[global] Instance M_ret : MRet M := fun A a w => (Ok a, w).
#[global] Instance M_bind : MBind M := fun A B f m w =>
  match m w with
  | (Ok a, w') => f a w'
  | (Raise e, w') => (Raise e, w')
  end.
#[global] Instance M_fmap : FMap M := fun A B f m w =>
  match m w with
  | (Ok a, w') => (Ok (f a), w')
  | (Raise e, w') => (Raise e, w')
  end.

Definition lift {A} (r : Result A) : M A := fun w => (r, w).
Definition gets {A} (f : World -> A) : M A := fun w => (Ok (f w), w).

(** An operation on the file system alone. *)
Definition fs_op (op : gmap (list string) Node -> Result (gmap (list string) Node)) : M unit :=
  fun w =>
    match op (fs w) with
    | Ok f => (Ok tt, set_fs f w)
    | Raise e => (Raise e, w)
    end.

(** [module.__pollination__] *)
Definition get_pollination (module : string) : M (gmap string PyVal) := fun w =>
  match sys_modules w !! module with
  | Some (Some qb_info) => (Ok qb_info, w)
  | _ => (raise AttributeError
            ("module '" ++ module ++ "' has no attribute '__pollination__'"), w)
  end.

(** A change made through a reference to the dictionary of a module. *)
Definition set_pollination (module : string) (qb_info : gmap string PyVal) : M unit :=
  fun w => (Ok tt, set_sys_modules (<[module := Some qb_info]> (sys_modules w)) w).

(** ** The file system operations the code uses *)

Definition node_at (f : gmap (list string) Node) (p : Path) : option Node :=
  match p with
  | [] => Some Dir
  | _ => f !! p
  end.

(** [p.exists()] *)
Definition path_exists (f : gmap (list string) Node) (p : Path) : bool :=
  match node_at f p with
  | Some _ => true
  | None => false
  end.

(** [p.is_dir()] *)
Definition is_dir (f : gmap (list string) Node) (p : Path) : bool :=
  match node_at f p with
  | Some Dir => true
  | _ => false
  end.

(** [os.mkdir(p)] *)
Definition os_mkdir (p : Path) (f : gmap (list string) Node)
  : Result (gmap (list string) Node) :=
  match node_at f p with
  | Some _ => raise FileExistsError (as_posix p)
  | None =>
      match node_at f (tail p) with
      | Some Dir => Ok (<[p := Dir]> f)
      | Some (File _) => raise NotADirectoryError (as_posix p)
      | None => raise FileNotFoundError (as_posix p)
      end
  end.

(** [p.mkdir(parents=False, exist_ok=exist_ok)] *)
Definition mkdir_here (exist_ok : bool) (p : Path) (f : gmap (list string) Node)
  : Result (gmap (list string) Node) :=
  match os_mkdir p f with
  | Ok f' => Ok f'
  | Raise e =>
      if is_kind FileNotFoundError e then Raise e
      else if exist_ok && is_dir f p then Ok f else Raise e
  end.

(** [p.mkdir(parents=True, exist_ok=True)]: when the parent is missing it is
    made first, in the same way, and the directory is made again. *)
Fixpoint mkdir_parents (p : Path) (f : gmap (list string) Node)
  : Result (gmap (list string) Node) :=
  match os_mkdir p f with
  | Ok f' => Ok f'
  | Raise e =>
      if is_kind FileNotFoundError e then
        match p with
        | [] => Raise e
        | _ :: parent => f1 ← mkdir_parents parent f; mkdir_here true p f1
        end
      else if is_dir f p then Ok f else Raise e
  end.

(** Opening [p] for writing and writing [content]: the file is made or
    replaced. *)
Definition write_file (p : Path) (content : string) (f : gmap (list string) Node)
  : Result (gmap (list string) Node) :=
  match node_at f p with
  | Some Dir => raise IsADirectoryError (as_posix p)
  | _ =>
      match node_at f (tail p) with
      | Some Dir => Ok (<[p := File content]> f)
      | Some (File _) => raise NotADirectoryError (as_posix p)
      | None => raise FileNotFoundError (as_posix p)
      end
  end.

(** ** Queenbee

    The schema classes of the Queenbee library are records here.  Building one
    ([parse_obj], a constructor call) runs the validation of the library,
    which either accepts the value as it was given or raises. *)

Record MetaData := { meta_info : gmap string PyVal }.
Record PluginConfig := { config_obj : PyVal }.

Record Plugin := {
  plugin_config : PluginConfig;
  plugin_metadata : MetaData;
  functions : list QbFunction
}.

Inductive DependencyKind := kind_plugin | kind_recipe.

Record Dependency := {
  kind : DependencyKind;
  name : string;
  tag : string;
  source : string
}.

Record Recipe := {
  metadata_of : MetaData;
  dependencies : list Dependency;
  flow : list QbDAG
}.

Record RepositoryReference := { ref_name : string; ref_path : string }.
Record Config := { repositories : list RepositoryReference }.

(** A recipe with its dependencies inlined. *)
Record BakedRecipe := {
  baked_recipe : Recipe;
  templates : list string
}.

(** What [load] returns. *)
Inductive QbObject :=
  | IsPlugin (p : Plugin)
  | IsRecipe (r : Recipe)
  | IsBakedRecipe (b : BakedRecipe).

(** The handle [package_resource] returns: [url] is the file name of the
    artifact. *)
Record PackageVersion := { url : string; digest : string }.

(** Modelled from the spec: [RepositoryIndex] is a class of the Queenbee
    library, which is not among the sources.  The index is the manifest of the
    stored artifacts: for each of the two stores, the artifact files it
    lists. *)
Record RepositoryIndex := {
  index_plugin : gset string;
  index_recipe : gset string
}.

Class Queenbee := {
  (** validation of [PluginConfig.parse_obj] *)
  PluginConfig_check : PyVal -> option Exn;
  (** validation of [MetaData.parse_obj] *)
  MetaData_check : gmap string PyVal -> option Exn;
  (** validation of [Plugin(...)] *)
  Plugin_check : Plugin -> option Exn;
  (** validation of [Recipe(...)] *)
  Recipe_check : Recipe -> option Exn;
  (** [BakedRecipe.from_recipe] *)
  BakedRecipe_from_recipe : Recipe -> Config -> Result BakedRecipe;
  (** [PackageVersion.package_resource]: the handle and the bytes of the
      artifact *)
  PackageVersion_package_resource : QbObject -> string -> Result (PackageVersion * string);
  (** [RepositoryIndex.to_json] writes this text *)
  RepositoryIndex_json : RepositoryIndex -> nat -> string
}.

Definition checked {A} (check : A -> option Exn) (a : A) : Result A :=
  match check a with
  | None => Ok a
  | Some e => Raise e
  end.

Definition PluginConfig_parse_obj `{Queenbee} (obj : PyVal) : Result PluginConfig :=
  checked (fun c => PluginConfig_check (config_obj c)) {| config_obj := obj |}.

Definition MetaData_parse_obj `{Queenbee} (obj : gmap string PyVal) : Result MetaData :=
  checked (fun m => MetaData_check (meta_info m)) {| meta_info := obj |}.

(** Modelled from the spec: the scan of one store of the repository, which
    the Queenbee library does and the sources do not contain.  It finds the
    artifact files directly inside the store. *)
Definition listdir (f : gmap (list string) Node) (store : Path) : gset string :=
  list_to_set
    (omap (fun e : list string * Node =>
             match e with
             | (file_name :: folder, File _) =>
                 if decide (folder = store) then Some file_name else None
             | _ => None
             end)
          (map_to_list f)).

(** Modelled from the spec: [RepositoryIndex.from_folder] is part of the
    Queenbee library, which is not among the sources.  It scans the physical
    contents of both stores and regenerates the index from scratch. *)
Definition RepositoryIndex_from_folder (folder_path : Path) (f : gmap (list string) Node)
  : RepositoryIndex :=
  {| index_plugin := listdir f (folder_path // "plugins");
     index_recipe := listdir f (folder_path // "recipes") |}.

(** [index.to_json(path, indent=indent)] *)
Definition RepositoryIndex_to_json `{Queenbee} (index : RepositoryIndex) (p : Path) (indent : nat)
  : M unit :=
  fs_op (write_file p (RepositoryIndex_json index indent)).

(** ** common.py *)

(** [try: body except Exception as error: handler(error)], with state. *)
Definition try_catch {A} (body : M A) (handler : Exn -> M A) : M A := fun w =>
  match body w with
  | (Ok a, w') => (Ok a, w')
  | (Raise error, w') => handler error w'
  end.

(** An exception that leaves an [except] block gets the exception that was
    being handled as its context, unless it already carries one. *)
Definition in_handler {A} (handled : Exn) (r : Result A) : Result A :=
  match r with
  | Raise (Exception k m None) => Raise (Exception k m (Some handled))
  | _ => r
  end.

(** [importlib.import_module(name)]: a module that was imported before is
    returned as it is now; otherwise its [__init__.py] runs.  Of a dotted name
    only the module itself is recorded, not the package around it that Python
    imports with it; and the errors that Python raises for an empty name and
    for a name that starts with a dot are not modelled. *)
Definition importlib_import_module (h : Host) (name : string) : M string := fun w =>
  match sys_modules w !! name with
  | Some _ => (Ok name, w)
  | None =>
      match installed h name with
      | Some init => (Ok name, set_sys_modules (<[name := init]> (sys_modules w)) w)
      | None => (raise ModuleNotFoundError ("No module named '" ++ name ++ "'"), w)
      end
  end.

Definition import_module (h : Host) (name : string) : M string :=
  let package_name := PyStr.replace "-" "_" name in
  let err_msg :=
    "No module named '" ++ package_name ++ "'. Did you forget to install the module?" ++ nl
    ++ "You can use `pip install` command to install the package from a local "
    ++ "repository or from PyPI." in
  try_catch (importlib_import_module h package_name) (fun e1 =>
    let package_name_segments := PyStr.split "_" package_name in
    if (length package_name_segments =? 1)%nat
    then lift (raise_from ModuleNotFoundError err_msg e1)
    else
      let _namespace := hd "" package_name_segments in
      let _name := PyStr.join "_" (tail package_name_segments) in
      try_catch (importlib_import_module h (_namespace ++ "." ++ _name))
                (fun e2 => lift (raise_from ModuleNotFoundError err_msg e2))).

Definition strip_comparators (version : string) : string :=
  PyStr.replace "<" "" (PyStr.replace ">" "" (PyStr.replace "=" "" version)).

(** The loop over the [Requires-Dist] entries of the metadata. *)
Fixpoint requirements_from_metadata (req_dists : list string)
    (requirements : gmap string string) : Result (gmap string string) :=
  match req_dists with
  | [] => Ok requirements
  | package :: rest =>
      match PyStr.split " (" package with
      | [name; version] =>
          let version :=
            PyStr.strip (PyStr.replace ")" "" (strip_comparators version)) in
          requirements_from_metadata rest (<[name := version]> requirements)
      | [_] => raise ValueError "not enough values to unpack (expected 2, got 1)"
      | _ => raise ValueError "too many values to unpack (expected 2)"
      end
  end.

(** The loop over the parsed lines of [requires.txt]. *)
Definition requirements_from_requires (req : list Requirement)
    (requirements : gmap string string) : gmap string string :=
  fold_left (fun acc package =>
               <[project_name package := strip_comparators (specifier package)]> acc)
            req requirements.

Definition get_requirement_version (h : Host) (package_name dependency_name : string)
  : Result string :=
  let fixed_name := PyStr.replace "pollination." "pollination_" package_name in
  let dependency_name := PyStr.replace "_" "-" dependency_name in
  dist ← match get_distribution h fixed_name with
         | Some d => Ok d
         | None => raise DistributionNotFound fixed_name
         end;
  requirements ←
    match requires_txt dist with
    | None =>
        in_handler (Exception FileNotFoundError "requires.txt" None)
          (package_data ← match metadata h fixed_name with
                          | Some pd => Ok pd
                          | None => raise PackageNotFoundError fixed_name
                          end;
           let req_dists := default [] (Message_get_all package_data "Requires-Dist") in
           requirements_from_metadata req_dists ∅)
    | Some req => Ok (requirements_from_requires req ∅)
    end;
  match requirements !! dependency_name with
  | Some version => Ok version
  | None =>
      raise AssertionError
        (dependency_name ++ " is not a requirement for " ++ package_name ++ ".")
  end.

Definition get_docker_image_from_dependency (h : Host) (package dependency owner : string)
  : M string :=
  try_catch
    (image_version ← lift (get_requirement_version h package dependency);
     mret ("ladybugtools/" ++ dependency ++ ":" ++ image_version))
    (fun error =>
       if is_kind FileNotFoundError error || is_kind AssertionError error
       then fun w =>
         (Ok ("ladybugtools/" ++ dependency ++ ":latest"),
          warn ("Failed to pinpoint the version for " ++ dependency
                ++ " as a dependency for " ++ package
                ++ ". Will set the docker version to latest." ++ nl ++ exn_str error) w)
       else lift (Raise error)).

Definition none_has_no {A} (attr : string) : Result A :=
  raise AttributeError ("'NoneType' object has no attribute '" ++ attr ++ "'").

(** [re.sub('^        ', '', line)] *)
Definition dedent8 (line : string) : string :=
  if PyStr.startswith "        " line
  then String.substring 8 (String.length line - 8) line
  else line.

Definition _get_package_readme (h : Host) (package_name : string) : Result string :=
  package_data ← match metadata h (PyStr.replace "-" "_" package_name) with
                 | Some pd => Ok pd
                 | None => raise PackageNotFoundError package_name
                 end;
  let long_description := payload package_data in
  match PyStr.strip long_description with
  | EmptyString =>
      match Message_get package_data "Description" with
      | None => none_has_no "split"
      | Some content => Ok (PyStr.join nl (List.map dedent8 (PyStr.split nl content)))
      end
  | _ => Ok long_description
  end.

Definition opt_str (o : option string) : PyData :=
  match o with
  | Some s => DStr s
  | None => DNone
  end.

Definition _get_package_license (package_data : Message) : Result PyData :=
  let license_info := Message_get package_data "License" in
  '(license, link) ←
    match license_info with
    | None | Some EmptyString => Ok (DNone, DNone)
    | Some license_info =>
        if PyStr.contains "," license_info then
          match List.map PyStr.strip (PyStr.split "," license_info) with
          | [license; link] => Ok (DStr license, DStr link)
          | _ => raise ValueError "too many values to unpack (expected 2)"
          end
        else Ok (DStr (PyStr.strip license_info), DNone)
    end;
  Ok (DDict [("name", license); ("url", link)]).

Definition _get_package_keywords (package_data : Message) : PyData :=
  match Message_get package_data "Keyword" with
  | None => DNone
  | Some EmptyString => DStr EmptyString
  | Some keywords => DList (List.map (fun key => DStr (PyStr.strip key)) (PyStr.split "," keywords))
  end.

Fixpoint icon_of (urls : list string) : Result PyData :=
  match urls with
  | [] => Ok DNone
  | url :: rest =>
      match PyStr.split "," url with
      | [key; value] =>
          if String.eqb key "icon" then Ok (DStr (PyStr.strip value)) else icon_of rest
      | [_] => raise ValueError "not enough values to unpack (expected 2, got 1)"
      | _ => raise ValueError "too many values to unpack (expected 2)"
      end
  end.

Definition _get_package_icon (package_data : Message) : Result PyData :=
  match Message_get_all package_data "Project-URL" with
  | None => raise TypeError "'NoneType' object is not iterable"
  | Some urls => icon_of urls
  end.

Definition _get_package_maintainers (package_data : Message) : PyData :=
  let maintainer := Message_get package_data "Maintainer" in
  let maintainer_email := Message_get package_data "Maintainer-email" in
  match maintainer with
  | None | Some EmptyString => DList []
  | Some maintainer =>
      let maintainers := List.map PyStr.strip (PyStr.split "," maintainer) in
      match maintainer_email with
      | None | Some EmptyString =>
          DList (List.map (fun name => DDict [("name", DStr name); ("email", DNone)])
                          maintainers)
      | Some maintainer_email =>
          let emails := List.map PyStr.strip (PyStr.split "," maintainer_email) in
          DList (List.map (fun ne : string * string =>
                             DDict [("name", DStr (fst ne)); ("email", DStr (snd ne))])
                          (List.combine maintainers emails))
      end
  end.

Definition _get_package_version (package_data : Message) : Result string :=
  match Message_get package_data "Version" with
  | None => none_has_no "split"
  | Some version =>
      let xyz := PyStr.split "." version in
      if (length xyz <=? 3)%nat then Ok version
      else
        match firstn 3 xyz with
        | [x; y; z] =>
            match PyStr.int z with
            | Some n => Ok (x ++ "." ++ y ++ "." ++ PyStr.str (n - 1))
            | None =>
                raise ValueError ("invalid literal for int() with base 10: '" ++ z ++ "'")
            end
        | _ => raise ValueError "not enough values to unpack (expected 3)"
        end
  end.

(** The dictionary [_get_package_data] builds, in the order of its keys. *)
Definition _get_package_data (h : Host) (package_name : string)
  : Result (list (string * PyData)) :=
  package_data ← match metadata h package_name with
                 | Some pd => Ok pd
                 | None => raise PackageNotFoundError package_name
                 end;
  name ← match Message_get package_data "Name" with
         | Some n => Ok (PyStr.replace "pollination-" "" n)
         | None => none_has_no "replace"
         end;
  tag ← _get_package_version package_data;
  license ← _get_package_license package_data;
  icon ← _get_package_icon package_data;
  Ok [ ("name", DStr name);
       ("description", opt_str (Message_get package_data "Summary"));
       ("home", opt_str (Message_get package_data "Home-page"));
       ("tag", DStr tag);
       ("keywords", _get_package_keywords package_data);
       ("maintainers", _get_package_maintainers package_data);
       ("license", license);
       ("icon", icon) ].

(** [d.pop(key)] *)
Definition dict_pop {V} (key : string) (d : gmap string V) : Result (gmap string V) :=
  match d !! key with
  | Some _ => Ok (delete key d)
  | None => raise KeyError ("'" ++ key ++ "'")
  end.

(** One round of the loop of [_get_meta_data] over the package data. *)
Definition update_info (qb_info : gmap string PyVal) (kv : string * PyData)
  : gmap string PyVal :=
  match snd kv with
  | DNone => qb_info
  | v =>
      if String.eqb (fst kv) "name" && bool_decide (is_Some (qb_info !! fst kv))
      then qb_info
      else <[fst kv := VData v]> qb_info
  end.

Definition _get_meta_data `{Queenbee} (h : Host) (module package_type : string)
  : M MetaData :=
  qb_info ← get_pollination module;
  package_data ← lift (_get_package_data h module);
  popped ← lift (dict_pop (if String.eqb package_type "plugin"
                            then "config" else "entry_point") qb_info);
  _ ← set_pollination module popped;
  let updated := fold_left update_info package_data popped in
  _ ← set_pollination module updated;
  lift (MetaData_parse_obj updated).

(** ** package.py *)

Definition repository_path (h : Host) : Path :=
  List.rev (home h) // ".queenbee" // "pollination-dsl".

Definition _init_repo `{Queenbee} (h : Host) : M Path :=
  let path := repository_path h in
  _ ← fs_op (mkdir_parents path);
  let index_file := path // "index.json" in
  let plugins_folder := path // "plugins" in
  let recipes_folder := path // "recipes" in
  _ ← fs_op (mkdir_here true plugins_folder);
  _ ← fs_op (mkdir_here true recipes_folder);
  index_exists ← gets (fun w => path_exists (fs w) index_file);
  _ ← (if negb index_exists then
         index ← gets (fun w => RepositoryIndex_from_folder path (fs w));
         RepositoryIndex_to_json index index_file 2
       else mret tt);
  mret path.

Definition _load_plugin `{Queenbee} (h : Host) (module : string) : M Plugin :=
  qb_info ← get_pollination module;
  config_value ← lift (getitem qb_info "config");
  config ← lift (PluginConfig_parse_obj config_value);
  metadata ← _get_meta_data h module "plugin";
  functions ← lift (plugin_functions h module);
  lift (checked Plugin_check
          {| plugin_config := config; plugin_metadata := metadata; functions := functions |}).

(** [d[key]] passed to a field that takes a string. *)
Definition str_field (d : gmap string PyData) (key : string) : Result string :=
  v ← getitem d key;
  match v with
  | DStr s => Ok s
  | _ => raise ValidationError ("str type expected: " ++ key)
  end.

Definition make_dependency (k : DependencyKind) (source : string) (package : gmap string PyData)
  : Result Dependency :=
  n ← str_field package "name";
  t ← str_field package "tag";
  Ok {| kind := k; name := n; tag := t; source := source |}.

Definition rename (new_name : string) (dag : QbDAG) : QbDAG :=
  {| dag_name := new_name; dag_body := dag_body dag |}.

Definition _load_recipe `{Queenbee} (h : Host) (module : string) (baked : bool)
  : M QbObject :=
  qb_info ← get_pollination module;
  let package_name := module in
  main_dag ← lift (call (default (VData DNone) (qb_info !! "entry_point")));
  main_dag ← lift (match main_dag with
                   | Some dag => Ok dag
                   | None =>
                       raise AssertionError
                         (package_name
                          ++ " __pollination__ info is missing the enetry_point key.")
                   end);
  metadata ← _get_meta_data h module "recipe";
  let qb_dag := rename "main" (queenbee main_dag) in
  let dags := qb_dag :: List.map queenbee (deps_dag main_dag) in
  repo ← _init_repo h;
  plugins ← lift (mapR (make_dependency kind_plugin (as_uri repo)) (deps_plugin main_dag));
  recipes ← lift (mapR (make_dependency kind_recipe (as_uri repo)) (deps_recipe main_dag));
  recipe ← lift (checked Recipe_check
                   {| metadata_of := metadata;
                      dependencies := plugins ++ recipes;
                      flow := dags |});
  if baked then
    let rf := {| ref_name := "pollination-dsl"; ref_path := "file:///" ++ as_posix repo |} in
    let config := {| repositories := [rf] |} in
    IsBakedRecipe <$> lift (BakedRecipe_from_recipe recipe config)
  else mret (IsRecipe recipe).

Definition load `{Queenbee} (h : Host) (package_name : string) (baked : bool)
  : M QbObject :=
  module ← import_module h package_name;
  qb_info ← try_catch (get_pollination module)
              (fun _ => lift (raise AssertionError
                                "Failed to find __pollination__ info in __init__.py"));
  if bool_decide (is_Some (qb_info !! "config"))
  then IsPlugin <$> _load_plugin h module
  else _load_recipe h module baked.

(** A baked recipe is a recipe as well: [BakedRecipe] is a subclass of
    [Recipe]. *)
Definition qb_type_of (qb_obj : QbObject) : string :=
  match qb_obj with
  | IsRecipe _ | IsBakedRecipe _ => "recipe"
  | IsPlugin _ => "plugin"
  end.

Definition package `{Queenbee} (h : Host) (package_name : string) (readme : option string)
  : M unit :=
  repository_path ← _init_repo h;
  let index_path := repository_path // "index.json" in
  qb_obj ← load h package_name false;
  let qb_type := qb_type_of qb_obj in
  '(plugin_version, file_object) ←
    lift (try_except
            (r ← _get_package_readme h package_name;
             PackageVersion_package_resource qb_obj r)
            (fun error =>
               raise_from ValueError
                 ("Failed to package " ++ package_name ++ " " ++ qb_type ++ nl ++ " "
                  ++ exn_str error) error));
  let file_path := repository_path // (qb_type ++ "s") // url plugin_version in
  _ ← fs_op (write_file file_path file_object);
  repo_index ← gets (fun w => RepositoryIndex_from_folder repository_path (fs w));
  RepositoryIndex_to_json repo_index index_path 2.

(** The [try] block of [package] alone: the artifact the loaded object is
    serialized into, or the error [package] raises when that fails. *)
Definition serialized `{Queenbee} (h : Host) (package_name : string) (qb_obj : QbObject)
  : Result (PackageVersion * string) :=
  try_except
    (r ← _get_package_readme h package_name;
     PackageVersion_package_resource qb_obj r)
    (fun error =>
       raise_from ValueError
         ("Failed to package " ++ package_name ++ " " ++ qb_type_of qb_obj ++ nl ++ " "
          ++ exn_str error) error).

(** ** The dependency collector *)

(** Modelled from the spec: the [_dependencies] property of a DSL [DAG], which
    [_load_recipe] reads, is defined in [pollination_dsl/dag.py], and that file
    is not among the sources.  A reference to an external package: its name
    and the version its own metadata declares. *)
Record PackageRef := { package_ref_name : string; package_ref_version : string }.

(** Modelled from the spec: a step of a workflow graph uses a function of a
    plugin package, or is a nested sub-graph, which has an identity, belongs
    to a package and has steps of its own. *)
Inductive Step :=
  | FunctionStep (owner : PackageRef)
  | SubGraphStep (id : nat) (owner : PackageRef) (dag : QbDAG) (steps : list Step).

(** Modelled from the spec: what the collector returns, the nested graphs in
    the order of their discovery and the plugin and recipe packages referred
    to. *)
Record Collected := {
  dags : list (nat * QbDAG);
  plugins : list PackageRef;
  recipes : list PackageRef
}.

(** Modelled from the spec: two references are the same when their names are;
    a second reference to a name is taken as satisfied and adds nothing. *)
Definition add_reference (p : PackageRef) (l : list PackageRef) : list PackageRef :=
  if existsb (fun q => String.eqb (package_ref_name q) (package_ref_name p)) l
  then l else l ++ [p].

(** Modelled from the spec: the depth-first walk of the collector over one
    step.  A step that uses a function of another package records a plugin
    dependency on that package; a step that is a sub-graph of another package
    records a recipe dependency on it and is not entered; a sub-graph of the
    package itself is collected, once, and entered. *)
Fixpoint collect_step (current : string) (s : Step) (acc : Collected) : Collected :=
  match s with
  | FunctionStep owner =>
      if String.eqb (package_ref_name owner) current then acc
      else {| dags := dags acc;
              plugins := add_reference owner (plugins acc);
              recipes := recipes acc |}
  | SubGraphStep id owner dag steps =>
      if negb (String.eqb (package_ref_name owner) current)
      then {| dags := dags acc;
              plugins := plugins acc;
              recipes := add_reference owner (recipes acc) |}
      else if existsb (fun d => Nat.eqb (fst d) id) (dags acc) then acc
      else fold_left (fun a t => collect_step current t a) steps
                     {| dags := dags acc ++ [(id, dag)];
                        plugins := plugins acc;
                        recipes := recipes acc |}
  end.

(** Modelled from the spec: an entry graph, with the package it belongs to,
    its own definition and its steps. *)
Record EntryGraph := {
  entry_package : string;
  entry_dag : QbDAG;
  entry_steps : list Step
}.

(** Modelled from the spec: [collect] walks the steps of the entry graph,
    starting from nothing. *)
Definition collect (g : EntryGraph) : Collected :=
  fold_left (fun a t => collect_step (entry_package g) t a) (entry_steps g)
            {| dags := []; plugins := []; recipes := [] |}.

(** Modelled from the spec: the package information a dependency is recorded
    with, its name and its version tag. *)
Definition package_info (p : PackageRef) : gmap string PyData :=
  {[ "name" := DStr (package_ref_name p); "tag" := DStr (package_ref_version p) ]}.

(** Modelled from the spec: the DSL object of an entry graph as
    [_load_recipe] sees it, with [_dependencies] being what the collector
    returns for the graph. *)
Definition dsl_dag_of (g : EntryGraph) : DslDAG :=
  let c := collect g in
  mkDslDAG (entry_dag g)
           (List.map (fun d => mkDslDAG (snd d) [] [] []) (dags c))
           (List.map package_info (plugins c))
           (List.map package_info (recipes c)).

(** No two collected references of one kind have the same name. *)
Definition names_unique (c : Collected) : Prop :=
  NoDup (List.map package_ref_name (plugins c))
  /\ NoDup (List.map package_ref_name (recipes c)).

(** What makes two dependencies of a recipe the same dependency. *)
Definition identity (d : Dependency) : DependencyKind * string := (kind d, name d).

(** The keys of the dictionary [_get_package_data] returns. *)
Definition package_data_keys : list string :=
  ["name"; "description"; "home"; "tag"; "keywords"; "maintainers"; "license"; "icon"].

(** ** Reading a version the way the specification words it *)

Fixpoint all_digits (s : string) : bool :=
  match s with
  | EmptyString => true
  | String c s' =>
      match PyStr.digit_of c with
      | Some _ => all_digits s'
      | None => false
      end
  end.

Definition is_number (s : string) : bool :=
  match s with
  | EmptyString => false
  | _ => all_digits s
  end.

(** A semantic version of three components: three decimal numbers separated
    by dots. *)
Definition semantic_version (v : string) : bool :=
  match PyStr.split "." v with
  | [x; y; z] => is_number x && is_number y && is_number z
  | _ => false
  end.

(** The repository of the installation is set up: its folder, both stores
    and the index file are in place. *)
Definition initialised (h : Host) (f : gmap (list string) Node) : Prop :=
  is_dir f (repository_path h) = true
  /\ is_dir f (repository_path h // "plugins") = true
  /\ is_dir f (repository_path h // "recipes") = true
  /\ path_exists f (repository_path h // "index.json") = true.

(** No regular file sits where the repository needs a folder. *)
Definition way_is_clear (h : Host) (f : gmap (list string) Node) : Prop :=
  forall q c,
    q `suffix_of` repository_path h
    \/ q = repository_path h // "plugins"
    \/ q = repository_path h // "recipes" ->
    node_at f q <> Some (File c).

(** [f'] has everything [f] has, and directories where [f] had nothing. *)
Definition grows (f f' : gmap (list string) Node) : Prop :=
  forall q, node_at f' q = node_at f q
            \/ (node_at f q = None /\ node_at f' q = Some Dir).

(** A computation that leaves the file system of a repository that is set
    up as it is, whether it returns or raises. *)
Definition keeps_repository (h : Host) {A} (m : M A) : Prop :=
  forall w r w', initialised h (fs w) -> m w = (r, w') -> fs w' = fs w.

(** ** A sample installation *)

(** The metadata of a package of which only the version is of interest. *)
Definition metadata_with_version (version : string) : Message :=
  {| headers := [("Name", "weather-plugin"); ("Version", version)];
     payload := "" |}.

Definition render_index (index : RepositoryIndex) (indent : nat) : string :=
  PyStr.join "," (elements (index_plugin index)) ++ ";"
  ++ PyStr.join "," (elements (index_recipe index)).

Definition field_of (m : MetaData) (key : string) : string :=
  match meta_info m !! key with
  | Some (VData (DStr s)) => s
  | _ => ""
  end.

Definition metadata_of_object (o : QbObject) : MetaData :=
  match o with
  | IsPlugin p => plugin_metadata p
  | IsRecipe r => metadata_of r
  | IsBakedRecipe b => metadata_of (baked_recipe b)
  end.

Definition artifact_name (o : QbObject) : string :=
  field_of (metadata_of_object o) "name" ++ "-"
  ++ field_of (metadata_of_object o) "tag" ++ ".tgz".

(** A Queenbee that accepts every value and packs every object. *)
Definition qb_accepting : Queenbee :=
  {| PluginConfig_check := fun _ => None;
     MetaData_check := fun _ => None;
     Plugin_check := fun _ => None;
     Recipe_check := fun _ => None;
     BakedRecipe_from_recipe := fun r _ => Ok {| baked_recipe := r; templates := [] |};
     PackageVersion_package_resource := fun o readme =>
       Ok ({| url := artifact_name o; digest := "" |}, "readme:" ++ readme);
     RepositoryIndex_json := render_index |}.

(** A Queenbee whose serialization of an object fails. *)
Definition qb_failing : Queenbee :=
  {| PluginConfig_check := fun _ => None;
     MetaData_check := fun _ => None;
     Plugin_check := fun _ => None;
     Recipe_check := fun _ => None;
     BakedRecipe_from_recipe := fun r _ => Ok {| baked_recipe := r; templates := [] |};
     PackageVersion_package_resource := fun _ _ => raise LibraryError "cannot serialize";
     RepositoryIndex_json := render_index |}.

Definition radiance : PackageRef :=
  {| package_ref_name := "radiance"; package_ref_version := "0.5.0" |}.
Definition daylight_ref : PackageRef :=
  {| package_ref_name := "daylight"; package_ref_version := "1.0.0" |}.

(** The entry graph of the recipe "daylight": it uses the plugin "radiance"
    directly and again inside its own sub-graph "post-process". *)
Definition daylight_graph : EntryGraph :=
  {| entry_package := "daylight";
     entry_dag := {| dag_name := "daylight-entry"; dag_body := "steps" |};
     entry_steps :=
       [ FunctionStep radiance;
         SubGraphStep 1 daylight_ref
           {| dag_name := "post-process"; dag_body := "more steps" |}
           [ FunctionStep radiance ] ] |}.

Definition plugin_info : gmap string PyVal :=
  {[ "config" := VData (DDict [("docker", DStr "image")]) ]}.

Definition recipe_info : gmap string PyVal :=
  {[ "entry_point" := VCallable (Returns (Some (dsl_dag_of daylight_graph))) ]}.

(** A recipe package whose entry point returns nothing. *)
Definition hollow_info : gmap string PyVal :=
  {[ "entry_point" := VCallable (Returns None) ]}.

Definition sample_metadata (name version : string) : Message :=
  {| headers := [ ("Name", name); ("Version", version);
                  ("Requires-Dist", "honeybee-radiance (==0.5.2)");
                  ("Project-URL", "icon, https://example.com/icon.png") ];
     payload := "About " ++ name |}.

(** An installation with a plugin package, a recipe package, a recipe package
    without an entry point ("bare") and one whose entry point returns nothing
    ("hollow"). *)
Definition sample_host : Host :=
  {| home := ["home"; "user"];
     installed := fun module =>
       if String.eqb module "weather_plugin" then Some (Some plugin_info)
       else if String.eqb module "daylight" then Some (Some recipe_info)
       else if String.eqb module "bare" then Some (Some ∅)
       else if String.eqb module "hollow" then Some (Some hollow_info)
       else None;
     metadata := fun package =>
       if String.eqb package "weather_plugin"
       then Some (sample_metadata "weather-plugin" "1.2.3.4")
       else if String.eqb package "daylight"
       then Some (sample_metadata "daylight" "1.0.0")
       else None;
     get_distribution := fun package =>
       if String.eqb package "weather_plugin"
       then Some {| requires_txt :=
                      Some [ {| project_name := "honeybee-radiance";
                                specifier := "==0.5.2" |} ] |}
       else if String.eqb package "daylight"
       then Some {| requires_txt := None |}
       else None;
     plugin_functions := fun _ =>
       Ok [ {| function_name := "forecast"; function_body := "run" |} ] |}.

(** An installation whose metadata lists a requirement without a version in
    parentheses. *)
Definition unpinned_host : Host :=
  {| home := ["home"; "user"];
     installed := fun _ => None;
     metadata := fun _ =>
       Some {| headers := [ ("Name", "weather-plugin"); ("Version", "1.0.0");
                            ("Requires-Dist", "honeybee-radiance") ];
               payload := "" |};
     get_distribution := fun _ => Some {| requires_txt := None |};
     plugin_functions := fun _ => Ok [] |}.

Definition fresh_world : World :=
  {| fs := ∅; sys_modules := ∅; warnings := [] |}.

(** A repository that holds one plugin artifact and has lost its index. *)
Definition unindexed_world : World :=
  {| fs := {[ repository_path sample_host := Dir;
              repository_path sample_host // "plugins" := Dir;
              repository_path sample_host // "plugins" // "a-1.0.0.tgz" := File "bytes" ]};
     sys_modules := ∅;
     warnings := [] |}.

(** A process in which one module was imported and nothing else happened. *)
Definition imported (module : string) (qb_info : gmap string PyVal) : World :=
  {| fs := ∅; sys_modules := {[ module := Some qb_info ]}; warnings := [] |}.

(** An installation whose [requires.txt] lists a requirement without a
    version. *)
Definition unversioned_host : Host :=
  {| home := ["home"; "user"];
     installed := fun _ => None;
     metadata := fun _ => None;
     get_distribution := fun _ =>
       Some {| requires_txt :=
                 Some [ {| project_name := "honeybee-radiance"; specifier := "" |} ] |};
     plugin_functions := fun _ => Ok [] |}.

(** ** The rest of common.py *)

(** One element of the list [camel_to_snake] joins: an upper-case character
    becomes a hyphen and the character in lower case. *)
Definition snake_piece (x : ascii) : string :=
  if PyStr.is_upper x
  then String "-" (String (PyStr.lower_char x) EmptyString)
  else String x EmptyString.

(** [camel_to_snake(name)], on the ASCII range.  [None] stands for the
    [IndexError] that [name[0]] raises on the empty name. *)
Definition camel_to_snake (name : string) : option string :=
  match name with
  | EmptyString => None
  | String c _ =>
      Some (String (PyStr.lower_char c) EmptyString
            ++ PyStr.join "" (tail (List.map snake_piece (list_ascii_of_string name))))
  end.

Definition _get_package_owner (h : Host) (package_name : string) : Result string :=
  package_data ← match metadata h (PyStr.replace "-" "_" package_name) with
                 | Some pd => Ok pd
                 | None => raise PackageNotFoundError package_name
                 end;
  match Message_get package_data "Author" with
  | None | Some EmptyString =>
      raise AssertionError
        "You must set the author of the package in setup.py to Pollination account owner"
  | Some owner =>
      let owner := PyStr.strip owner in
      if (length (PyStr.split "," owner) =? 1)%nat then Ok owner
      else raise AssertionError
             ("A Pollination package can only have one author. Use maintainer field for "
              ++ "providing multiple maintainers.")
  end.

(** The part of an instance of a DSL class ([Function] or [DAG]) that
    [_BaseClass._package] reads and writes: the module its class is defined
    in, and the cache, which holds a reference to the [__pollination__]
    dictionary of a module (the module is named here, the dictionary is the
    one in [sys_modules]). *)
Record DslObject := {
  __module__ : string;
  _cached_package : option string
}.

(** [_BaseClass._python_package] *)
Definition _python_package (self : DslObject) : string :=
  let module := __module__ self in
  if PyStr.startswith "pollination" module
  then PyStr.join "." (firstn 2 (PyStr.split "." module))
  else hd "" (PyStr.split "." module).

(** The truth value of the dictionary a cache refers to. *)
Definition cached_is_true (cached : option string) (w : World) : bool :=
  match cached with
  | Some module =>
      match sys_modules w !! module with
      | Some (Some d) => negb (bool_decide (d = ∅))
      | _ => false
      end
  | None => false
  end.

(** [_BaseClass._package]: the value is the reference to the dictionary,
    returned with the instance as the call leaves it. *)
Definition _package (h : Host) (self : DslObject) : M (string * DslObject) :=
  is_cached ← gets (cached_is_true (_cached_package self));
  if is_cached : bool
  then mret (M := M) (default "" (_cached_package self), self)
  else
    module ← import_module h (_python_package self);
    pollination_data ←
      try_catch (get_pollination module)
        (fun _ => lift (raise AssertionError
                          "Failed to find __pollination__ info in __init__.py"));
    package_data ← lift (_get_package_data h module);
    _ ← set_pollination module
          (fold_left (fun (d : gmap string PyVal) (kv : string * PyData) =>
                        <[fst kv := VData (snd kv)]> d)
                     package_data pollination_data);
    mret (M := M)
         (module, {| __module__ := __module__ self; _cached_package := Some module |}).

(** How often a character occurs in a string. *)
Fixpoint count_char (c : ascii) (s : string) : nat :=
  match s with
  | EmptyString => 0
  | String a s' => (if Ascii.eqb a c then 1 else 0) + count_char c s'
  end.

(** Whether a string has an upper-case character. *)
Fixpoint has_upper (s : string) : bool :=
  match s with
  | EmptyString => false
  | String a s' => PyStr.is_upper a || has_upper s'
  end.

(** A version text without any of the comparison characters of a version
    specifier. *)
Definition comparator_free (version : string) : Prop :=
  count_char "=" version = 0
  /\ count_char "<" version = 0
  /\ count_char ">" version = 0.

(** An installation whose [requires.txt] lists one requirement twice. *)
Definition twice_listed_host : Host :=
  {| home := ["home"; "user"];
     installed := fun _ => None;
     metadata := fun _ => None;
     get_distribution := fun _ =>
       Some {| requires_txt :=
                 Some [ {| project_name := "honeybee-radiance"; specifier := "==0.5.2" |};
                        {| project_name := "queenbee"; specifier := ">=1.0" |};
                        {| project_name := "honeybee-radiance"; specifier := "==0.6.0" |} ] |};
     plugin_functions := fun _ => Ok [] |}.


(** The metadata of a package that has its readme in the Description header
    and more than one maintainer. *)
Definition described_metadata : Message :=
  {| headers :=
       [ ("Name", "pollination-honeybee-radiance"); ("Version", "0.5.2");
         ("Author", " ladybug-tools ");
         ("License", "PolyForm Shield, https://polyformproject.org/licenses/shield");
         ("Maintainer", "ada, grace, edsger");
         ("Maintainer-email", "ada@example.com, grace@example.com");
         ("Project-URL", "docs, https://example.com/docs");
         ("Project-URL", "icon, https://example.com/icon.png");
         ("Description",
          "Title" ++ nl ++ "        indented" ++ nl ++ "  kept") ];
     payload := " " |}.

Definition described_host : Host :=
  {| home := ["home"; "user"];
     installed := fun _ => None;
     metadata := fun _ => Some described_metadata;
     get_distribution := fun _ => None;
     plugin_functions := fun _ => Ok [] |}.

(** How many upper-case characters a string has. *)
Fixpoint count_upper (s : string) : nat :=
  match s with
  | EmptyString => 0
  | String a s' => (if PyStr.is_upper a then 1 else 0) + count_upper s'
  end.

(** A computation that leaves the file system as it is, whether it returns
    or raises. *)
Definition leaves_files {A} (m : M A) : Prop :=
  forall w r w', m w = (r, w') -> fs w' = fs w.

(** A dependency made from one entry of the dependency lists of an entry
    graph: it has the kind of the list, the name and the tag of the entry,
    and the given source. *)
Definition dependency_of (source_uri : string)
    (info : DependencyKind * gmap string PyData) (d : Dependency) : Prop :=
  kind d = fst info
  /\ snd info !! "name" = Some (DStr (name d))
  /\ snd info !! "tag" = Some (DStr (tag d))
  /\ source d = source_uri.

(** Whether a run returned a value that passes a test. *)
Definition gives {A} (test : A -> bool) (r : Result A * World) : bool :=
  match fst r with
  | Ok a => test a
  | Raise _ => false
  end.

Definition is_plugin (o : QbObject) : bool :=
  match o with IsPlugin _ => true | _ => false end.

Definition is_baked (o : QbObject) : bool :=
  match o with IsBakedRecipe _ => true | _ => false end.

(** A Queenbee whose validation of the metadata of a package fails. *)
Definition qb_strict : Queenbee :=
  {| PluginConfig_check := fun _ => None;
     MetaData_check := fun _ => Some (Exception ValidationError "1 validation error" None);
     Plugin_check := fun _ => None;
     Recipe_check := fun _ => None;
     BakedRecipe_from_recipe := fun r _ => Ok {| baked_recipe := r; templates := [] |};
     PackageVersion_package_resource := fun o readme =>
       Ok ({| url := artifact_name o; digest := "" |}, "readme:" ++ readme);
     RepositoryIndex_json := render_index |}.

(** ** Text that Python and the string model treat alike

    Splitting, replacing, joining and testing a prefix work on the strings of
    this model as they do in Python on the same text.  [PyStr.strip] removes
    the ASCII white space, and Python's [str.strip] removes other white space
    as well, so that the two agree on text that is ASCII at its ends. *)

(** Whether every character of a string is in the ASCII range. *)
Fixpoint ascii_only (s : string) : bool :=
  match s with
  | EmptyString => true
  | String c s' => (PyStr.code c <? 128)%nat && ascii_only s'
  end.

(** Whether a string has an ASCII character that is not white space: such a
    string is not blank for Python either. *)
Fixpoint has_ascii_text (s : string) : bool :=
  match s with
  | EmptyString => false
  | String c s' =>
      ((PyStr.code c <? 128)%nat && negb (PyStr.is_space c)) || has_ascii_text s'
  end.

(** Whether a string is empty or made of ASCII white space only: such a
    string is blank for Python as well. *)
Fixpoint ascii_blank (s : string) : bool :=
  match s with
  | EmptyString => true
  | String c s' => PyStr.is_space c && ascii_blank s'
  end.

(** The characters that [Path.as_uri] does not percent-encode: the ASCII
    letters and digits and the four marks of [urllib.parse.quote]. *)
Definition unreserved (c : ascii) : bool :=
  let n := PyStr.code c in
  ((65 <=? n) && (n <=? 90))%nat || ((97 <=? n) && (n <=? 122))%nat
  || ((48 <=? n) && (n <=? 57))%nat
  || Ascii.eqb c "_" || Ascii.eqb c "." || Ascii.eqb c "-" || Ascii.eqb c "~".

Fixpoint all_unreserved (s : string) : bool :=
  match s with
  | EmptyString => true
  | String c s' => unreserved c && all_unreserved s'
  end.

(** A segment of a path that [pathlib] keeps as it is and [as_uri] writes as
    it is. *)
Definition plain_segment (s : string) : bool :=
  negb (String.eqb s "") && negb (String.eqb s ".") && all_unreserved s.

(** A home directory on whose repository path [as_uri] of this model is
    [Path.as_uri]. *)
Definition plain_path (segments : list string) : bool := forallb plain_segment segments.

(** * Properties *)

(** ** Strings *)

Example split_version : PyStr.split "." "1.2.3.4" = ["1"; "2"; "3"; "4"].
Proof. reflexivity. Qed.

Example split_requirement :
  PyStr.split " (" "honeybee-radiance (==0.5.2)" = ["honeybee-radiance"; "==0.5.2)"].
Proof. reflexivity. Qed.

Example replace_namespace :
  PyStr.replace "pollination." "pollination_" "pollination.honeybee_radiance"
  = "pollination_honeybee_radiance".
Proof. reflexivity. Qed.

Example int_of_text :
  PyStr.int " -1_0 " = Some (-10)%Z /\ PyStr.int "1__0" = None /\ PyStr.int "dev4" = None.
Proof. repeat split; reflexivity. Qed.

Example strip_text : PyStr.strip "  a b  " = "a b".
Proof. reflexivity. Qed.

Lemma str_app_nil_l (t : string) : "" ++ t = t.
Proof. reflexivity. Qed.

Lemma str_app_cons (c : ascii) (s t : string) : String c s ++ t = String c (s ++ t).
Proof. reflexivity. Qed.

Lemma str_app_nil_r (s : string) : s ++ "" = s.
Proof. induction s as [|c s IH]; [done|]. by rewrite str_app_cons, IH. Qed.

Lemma str_app_assoc (s t u : string) : (s ++ t) ++ u = s ++ (t ++ u).
Proof. induction s as [|c s IH]; [done|]. by rewrite !str_app_cons, IH. Qed.

Lemma rev_app_spec (s t : string) : String.rev_app s t = String.rev s ++ t.
Proof.
  unfold String.rev. revert t.
  induction s as [|c s IH]; intros t; simpl; [done|].
  rewrite (IH (String c t)), (IH (String c EmptyString)).
  by rewrite str_app_assoc.
Qed.

Lemma rev_rev_app (s t : string) : String.rev (String.rev_app s t) = String.rev t ++ s.
Proof.
  revert t. induction s as [|c s IH]; intros t; simpl.
  - by rewrite str_app_nil_r.
  - rewrite IH. unfold String.rev at 1. simpl.
    by rewrite rev_app_spec, str_app_assoc.
Qed.

Lemma startswith_dot (c : ascii) (s : string) :
  PyStr.startswith "." (String c s) = Ascii.eqb c ".".
Proof.
  unfold PyStr.startswith.
  change (String.prefix "." (String c s))
    with (if ascii_dec "." c then String.prefix "" s else false).
  destruct (ascii_dec "." c) as [<-|Hne].
  - by destruct s.
  - symmetry. apply Ascii.eqb_neq. congruence.
Qed.

Lemma contains_dot_cons (c : ascii) (s : string) :
  PyStr.contains "." (String c s) = false ->
  Ascii.eqb c "." = false /\ PyStr.contains "." s = false.
Proof.
  change (PyStr.contains "." (String c s))
    with (PyStr.startswith "." (String c s) || PyStr.contains "." s).
  intros Hc. apply orb_false_iff in Hc as [H1 H2].
  by rewrite startswith_dot in H1.
Qed.

(** Splitting at dots cuts off a first piece that has no dot. *)
Lemma split_go_dot (x rest cur : string) :
  PyStr.contains "." x = false ->
  PyStr.split_go "." 0 cur (x ++ String "." rest)
  = (String.rev cur ++ x) :: PyStr.split "." rest.
Proof.
  revert cur. induction x as [|c x IH]; intros cur Hx.
  - rewrite str_app_nil_l, str_app_nil_r.
    cbn [PyStr.split_go]. by rewrite startswith_dot.
  - apply contains_dot_cons in Hx as [Hc Hx].
    rewrite str_app_cons.
    cbn [PyStr.split_go]. rewrite startswith_dot, Hc, (IH _ Hx).
    f_equal. unfold String.rev. simpl.
    by rewrite rev_app_spec, str_app_assoc.
Qed.

Lemma split_dot (x rest : string) :
  PyStr.contains "." x = false ->
  PyStr.split "." (x ++ "." ++ rest) = x :: PyStr.split "." rest.
Proof.
  intros Hx. unfold PyStr.split.
  change ("." ++ rest) with (String "." rest).
  by rewrite (split_go_dot x rest "" Hx).
Qed.

Lemma split_go_nonempty (sep s cur : string) (skip : nat) :
  PyStr.split_go sep skip cur s <> [].
Proof.
  revert skip cur. induction s as [|c s IH]; intros skip cur.
  - discriminate.
  - cbn [PyStr.split_go]. destruct skip; [|apply IH].
    destruct (PyStr.startswith sep (String c s)); [discriminate|apply IH].
Qed.

(** ** Printing and reading integers *)

Lemma lstrip_digits (d : Decimal.uint) :
  PyStr.lstrip (NilEmpty.string_of_uint d) = NilEmpty.string_of_uint d.
Proof. by destruct d. Qed.

Lemma rstrip_digits (d : Decimal.uint) :
  PyStr.rstrip (NilEmpty.string_of_uint d) = NilEmpty.string_of_uint d.
Proof.
  induction d as [|d IH|d IH|d IH|d IH|d IH|d IH|d IH|d IH|d IH|d IH];
    [done|cbn [NilEmpty.string_of_uint PyStr.rstrip]; rewrite IH;
          by destruct (NilEmpty.string_of_uint d)..].
Qed.

Lemma strip_digits (d : Decimal.uint) :
  PyStr.strip (NilEmpty.string_of_uint d) = NilEmpty.string_of_uint d.
Proof. unfold PyStr.strip. by rewrite lstrip_digits, rstrip_digits. Qed.

Lemma strip_minus_digits (d : Decimal.uint) :
  PyStr.strip (String "-" (NilEmpty.string_of_uint d))
  = String "-" (NilEmpty.string_of_uint d).
Proof.
  unfold PyStr.strip.
  change (PyStr.lstrip (String "-" (NilEmpty.string_of_uint d)))
    with (String "-" (NilEmpty.string_of_uint d)).
  cbn [PyStr.rstrip]. rewrite rstrip_digits.
  by destruct (NilEmpty.string_of_uint d).
Qed.

Lemma parse_digits_step (c : ascii) (k acc : Z) (b : bool) (s : string) :
  Ascii.eqb c "_" = false ->
  PyStr.digit_of c = Some k ->
  PyStr.parse_digits acc b (String c s) = PyStr.parse_digits (10 * acc + k) true s.
Proof. intros Hc Hk. cbn [PyStr.parse_digits]. by rewrite Hc, Hk. Qed.

Lemma parse_digits_acc (l : Decimal.uint) (p : positive) :
  PyStr.parse_digits (Z.pos p) true (NilEmpty.string_of_uint l)
  = Some (Z.pos (Pos.of_uint_acc l p)).
Proof.
  revert p.
  induction l as [|l IH|l IH|l IH|l IH|l IH|l IH|l IH|l IH|l IH|l IH]; intros p;
    [done|cbn [NilEmpty.string_of_uint Pos.of_uint_acc];
          erewrite parse_digits_step by reflexivity;
          rewrite <- IH; f_equal;
          match goal with
          | |- context [Z.of_nat ?n] =>
              let v := eval vm_compute in (Z.of_nat n) in change (Z.of_nat n) with v
          end; lia..].
Qed.

Lemma parse_digits_zero (l : Decimal.uint) :
  PyStr.parse_digits 0 true (NilEmpty.string_of_uint l)
  = Some (Z.of_N (Pos.of_uint l)).
Proof.
  induction l as [|l IH|l IH|l IH|l IH|l IH|l IH|l IH|l IH|l IH|l IH];
    [done|exact IH|exact (parse_digits_acc l 1)
     |exact (parse_digits_acc l 2)|exact (parse_digits_acc l 3)
     |exact (parse_digits_acc l 4)|exact (parse_digits_acc l 5)
     |exact (parse_digits_acc l 6)|exact (parse_digits_acc l 7)
     |exact (parse_digits_acc l 8)|exact (parse_digits_acc l 9)].
Qed.

Lemma parse_digits_uint (d : Decimal.uint) :
  d <> Decimal.Nil ->
  PyStr.parse_digits 0 false (NilEmpty.string_of_uint d)
  = Some (Z.of_N (Pos.of_uint d)).
Proof.
  destruct d as [|l|l|l|l|l|l|l|l|l|l]; intros Hd;
    [done|exact (parse_digits_zero l)|exact (parse_digits_acc l 1)
     |exact (parse_digits_acc l 2)|exact (parse_digits_acc l 3)
     |exact (parse_digits_acc l 4)|exact (parse_digits_acc l 5)
     |exact (parse_digits_acc l 6)|exact (parse_digits_acc l 7)
     |exact (parse_digits_acc l 8)|exact (parse_digits_acc l 9)].
Qed.

Lemma int_digits (d : Decimal.uint) :
  d <> Decimal.Nil ->
  PyStr.int (NilEmpty.string_of_uint d) = Some (Z.of_N (Pos.of_uint d)).
Proof.
  intros Hd. unfold PyStr.int. rewrite strip_digits.
  rewrite <- (parse_digits_uint d Hd).
  by destruct d.
Qed.

(** Reading back a printed integer gives the integer. *)
Lemma int_str (n : Z) : PyStr.int (PyStr.str n) = Some n.
Proof.
  unfold PyStr.str. destruct n as [|p|p]; [done| |].
  - cbn [Z.to_int NilEmpty.string_of_int].
    rewrite int_digits by apply DecimalPos.Unsigned.to_uint_nonnil.
    by rewrite DecimalPos.Unsigned.of_to.
  - cbn [Z.to_int NilEmpty.string_of_int].
    unfold PyStr.int. rewrite strip_minus_digits.
    rewrite parse_digits_uint by apply DecimalPos.Unsigned.to_uint_nonnil.
    by rewrite DecimalPos.Unsigned.of_to.
Qed.

(** ** The version of a package *)

Lemma digits_no_dot (d : Decimal.uint) :
  PyStr.contains "." (NilEmpty.string_of_uint d) = false.
Proof.
  induction d as [|d IH|d IH|d IH|d IH|d IH|d IH|d IH|d IH|d IH|d IH];
    [done|cbn [NilEmpty.string_of_uint];
          match goal with
          | |- PyStr.contains "." (String ?c ?s) = false =>
              change (PyStr.contains "." (String c s))
                with (PyStr.startswith "." (String c s) || PyStr.contains "." s)
          end; by rewrite startswith_dot, IH..].
Qed.

Lemma str_no_dot (n : Z) : PyStr.contains "." (PyStr.str n) = false.
Proof.
  unfold PyStr.str. destruct n as [|p|p]; [done|apply digits_no_dot|].
  cbn [Z.to_int NilEmpty.string_of_int].
  match goal with
  | |- PyStr.contains "." (String ?c ?s) = false =>
      change (PyStr.contains "." (String c s))
        with (PyStr.startswith "." (String c s) || PyStr.contains "." s)
  end.
  by rewrite startswith_dot, digits_no_dot.
Qed.

Lemma length_gt_3 {A} (a b c : A) (l : list A) :
  l <> [] -> (length (a :: b :: c :: l) <=? 3)%nat = false.
Proof. intros Hl. destruct l; [done|]. apply Nat.leb_gt. simpl. lia. Qed.

Lemma split_go_no_dot (s cur : string) :
  PyStr.contains "." s = false ->
  PyStr.split_go "." 0 cur s = [String.rev cur ++ s].
Proof.
  revert cur. induction s as [|c s IH]; intros cur Hs.
  - cbn [PyStr.split_go]. by rewrite str_app_nil_r.
  - apply contains_dot_cons in Hs as [Hc Hs].
    cbn [PyStr.split_go]. rewrite startswith_dot, Hc, (IH _ Hs).
    unfold String.rev. simpl. by rewrite rev_app_spec, str_app_assoc.
Qed.

Lemma split_no_dot (s : string) :
  PyStr.contains "." s = false -> PyStr.split "." s = [s].
Proof. intros Hs. unfold PyStr.split. by rewrite (split_go_no_dot s "" Hs). Qed.

Lemma all_digits_no_dot (s : string) :
  all_digits s = true -> PyStr.contains "." s = false.
Proof.
  induction s as [|c s IH]; [done|]. cbn [all_digits].
  destruct (PyStr.digit_of c) as [d|] eqn:Hd; [|done]. intros Hs.
  change (PyStr.contains "." (String c s))
    with (PyStr.startswith "." (String c s) || PyStr.contains "." s).
  rewrite startswith_dot, (IH Hs), orb_false_r.
  apply Ascii.eqb_neq. by intros ->.
Qed.

Lemma is_number_no_dot (s : string) : is_number s = true -> PyStr.contains "." s = false.
Proof. destruct s; [done|]. apply all_digits_no_dot. Qed.

Lemma all_digits_uint (d : Decimal.uint) : all_digits (NilEmpty.string_of_uint d) = true.
Proof. induction d; done. Qed.

Lemma is_number_str (n : Z) : (0 <= n)%Z -> is_number (PyStr.str n) = true.
Proof.
  unfold PyStr.str. destruct n as [|p|p]; [done| |lia]. intros _.
  cbn [Z.to_int NilEmpty.string_of_int].
  pose proof (all_digits_uint (Pos.to_uint p)) as Hd.
  pose proof (DecimalPos.Unsigned.to_uint_nonnil p) as Hn.
  by destruct (Pos.to_uint p).
Qed.

(** The version of a development release: the fourth piece and what follows
    are dropped and the third piece is read as an integer and decremented. *)
Lemma _get_package_version_dev (package_data : Message) (x y suffix : string) (z : Z) :
  Message_get package_data "Version"
  = Some (x ++ "." ++ y ++ "." ++ PyStr.str z ++ "." ++ suffix) ->
  PyStr.contains "." x = false ->
  PyStr.contains "." y = false ->
  _get_package_version package_data = Ok (x ++ "." ++ y ++ "." ++ PyStr.str (z - 1)).
Proof.
  intros Hv Hx Hy. unfold _get_package_version. rewrite Hv.
  rewrite (split_dot x _ Hx), (split_dot y _ Hy), (split_dot _ suffix (str_no_dot z)).
  rewrite length_gt_3 by apply split_go_nonempty.
  cbn [firstn]. by rewrite int_str.
Qed.

(** C5, as amended: a version of at most three dot-separated pieces is
    returned as it is; a version [x.y.z.suffix] of more pieces, with numbers
    [x], [y] and [z >= 1], is normalized to [x.y.(z-1)], which is a semantic
    version of three components. *)
Theorem package_version_normalization (package_data : Message) (version : string) :
  Message_get package_data "Version" = Some version ->
  ((length (PyStr.split "." version) <= 3)%nat ->
   _get_package_version package_data = Ok version)
  /\ (forall (x y suffix : string) (z : Z),
        is_number x = true ->
        is_number y = true ->
        (1 <= z)%Z ->
        version = x ++ "." ++ y ++ "." ++ PyStr.str z ++ "." ++ suffix ->
        _get_package_version package_data
        = Ok (x ++ "." ++ y ++ "." ++ PyStr.str (z - 1))
        /\ semantic_version (x ++ "." ++ y ++ "." ++ PyStr.str (z - 1)) = true).
Proof.
  intros Hv. split.
  - intros Hlen. unfold _get_package_version. rewrite Hv.
    apply Nat.leb_le in Hlen. by rewrite Hlen.
  - intros x y suffix z Hx Hy Hz ->. split.
    + by apply (_get_package_version_dev _ x y suffix z Hv); apply is_number_no_dot.
    + unfold semantic_version.
      rewrite (split_dot x _ (is_number_no_dot _ Hx)).
      rewrite (split_dot y _ (is_number_no_dot _ Hy)).
      rewrite (split_no_dot _ (str_no_dot (z - 1))).
      rewrite Hx, Hy. apply is_number_str. lia.
Qed.

Lemma package_version_normalization_witness :
  Message_get (metadata_with_version "1.2.3.4") "Version" = Some "1.2.3.4"
  /\ _get_package_version (metadata_with_version "1.2.3.4") = Ok "1.2.2"
  /\ semantic_version "1.2.2" = true.
Proof.
  split; [reflexivity|].
  apply (proj2 (package_version_normalization
                  (metadata_with_version "1.2.3.4") "1.2.3.4" eq_refl)
               "1" "2" "4" 3%Z); [reflexivity|reflexivity|lia|reflexivity].
Defined.

(** Not every version comes out as a semantic version of three components:
    a version of two components is returned as it is. *)
Lemma package_version_not_always_semantic :
  ~ (forall version v,
       _get_package_version (metadata_with_version version) = Ok v ->
       semantic_version v = true).
Proof. intros Hall. by specialize (Hall "1.2" "1.2" eq_refl). Qed.

Example dev_version_of_patch_zero :
  _get_package_version (metadata_with_version "1.2.0.dev4") = Ok "1.2.-1".
Proof. reflexivity. Qed.

Example prerelease_of_three_components :
  _get_package_version (metadata_with_version "1.2.3rc1") = Ok "1.2.3rc1".
Proof. reflexivity. Qed.

(** ** The file system *)

Lemma grows_refl f : grows f f.
Proof. intros q. by left. Qed.

Lemma grows_trans f1 f2 f3 : grows f1 f2 -> grows f2 f3 -> grows f1 f3.
Proof.
  intros H12 H23 q. destruct (H12 q) as [E12|[N1 D2]], (H23 q) as [E23|[N2 D3]].
  - left. congruence.
  - right. split; congruence.
  - right. split; congruence.
  - congruence.
Qed.

Lemma grows_keeps f f' q n : grows f f' -> node_at f q = Some n -> node_at f' q = Some n.
Proof. intros Hg Hq. destruct (Hg q) as [E|[N _]]; congruence. Qed.

Lemma grows_is_dir f f' q : grows f f' -> is_dir f q = true -> is_dir f' q = true.
Proof.
  unfold is_dir. intros Hg Hq. destruct (node_at f q) as [[|c]|] eqn:E; try done.
  by rewrite (grows_keeps _ _ _ _ Hg E).
Qed.

Lemma grows_file f f' q c :
  grows f f' -> node_at f' q = Some (File c) <-> node_at f q = Some (File c).
Proof.
  intros Hg. destruct (Hg q) as [E|[N D]]; [by rewrite E|].
  rewrite N, D. split; discriminate.
Qed.

Lemma node_at_insert (p q : Path) (n : Node) f :
  p <> [] ->
  node_at (<[p := n]> f) q = if decide (p = q) then Some n else node_at f q.
Proof.
  intros Hp. destruct q as [|s q].
  - by rewrite decide_False.
  - unfold node_at. apply lookup_insert.
Qed.

Lemma os_mkdir_ok p f f' :
  os_mkdir p f = Ok f' -> p <> [] /\ node_at f p = None /\ f' = <[p := Dir]> f.
Proof.
  unfold os_mkdir. destruct (node_at f p) eqn:Ep; [done|].
  destruct (node_at f (tail p)) as [[|c]|]; try done.
  intros [= <-]. repeat split. by intros ->.
Qed.

Lemma grows_insert_dir p f : p <> [] -> node_at f p = None -> grows f (<[p := Dir]> f).
Proof.
  intros Hp Hn q. rewrite node_at_insert by done.
  destruct (decide (p = q)) as [<-|]; [by right|by left].
Qed.

Lemma is_dir_insert_dir p f : p <> [] -> is_dir (<[p := Dir]> f) p = true.
Proof. intros Hp. unfold is_dir. by rewrite node_at_insert, decide_True. Qed.

Lemma mkdir_here_ok p f f' :
  mkdir_here true p f = Ok f' -> grows f f' /\ is_dir f' p = true.
Proof.
  unfold mkdir_here. destruct (os_mkdir p f) as [g|e] eqn:E.
  - intros [= <-]. apply os_mkdir_ok in E as (Hp & Hn & ->).
    split; [by apply grows_insert_dir|by apply is_dir_insert_dir].
  - destruct (is_kind FileNotFoundError e); [done|].
    cbn [andb]. destruct (is_dir f p) eqn:Ed; [|done].
    intros [= <-]. split; [apply grows_refl|done].
Qed.

Lemma mkdir_parents_ok p f f' :
  mkdir_parents p f = Ok f' -> grows f f' /\ is_dir f' p = true.
Proof.
  revert f f'. induction p as [|s p IH]; intros f f'.
  - intros [= <-]. split; [apply grows_refl|done].
  - cbn [mkdir_parents]. destruct (os_mkdir (s :: p) f) as [g|e] eqn:E.
    + intros [= <-]. apply os_mkdir_ok in E as (Hp & Hn & ->).
      split; [by apply grows_insert_dir|by apply is_dir_insert_dir].
    + destruct (is_kind FileNotFoundError e).
      * destruct (mkdir_parents p f) as [f1|e1] eqn:E1; [|done].
        cbn. intros H2. apply mkdir_here_ok in H2 as [Hg Hd].
        split; [|done]. eapply grows_trans; [|done]. by apply (IH f f1).
      * destruct (is_dir f (s :: p)) eqn:Ed; [|done].
        intros [= <-]. split; [apply grows_refl|done].
Qed.

(** Making a directory that is there already changes nothing. *)
Lemma mkdir_here_again p f : is_dir f p = true -> mkdir_here true p f = Ok f.
Proof.
  unfold mkdir_here, os_mkdir, is_dir. intros Hd.
  by destruct (node_at f p) as [[|c]|] eqn:E.
Qed.

Lemma mkdir_parents_again p f : is_dir f p = true -> mkdir_parents p f = Ok f.
Proof.
  intros Hd. destruct p as [|s p]; [done|].
  cbn [mkdir_parents]. unfold os_mkdir. unfold is_dir in Hd.
  destruct (node_at f (s :: p)) as [[|c]|] eqn:E; try done.
  cbn. unfold is_dir. by rewrite E.
Qed.

Lemma write_file_ok p c f f' :
  write_file p c f = Ok f' -> p <> [] /\ f' = <[p := File c]> f.
Proof.
  unfold write_file. intros Hw. split.
  - intros ->. done.
  - destruct (node_at f p) as [[|c']|]; [done| |];
      destruct (node_at f (tail p)) as [[|c'']|]; by simplify_eq.
Qed.

Lemma mkdir_here_other b p f f' q :
  mkdir_here b p f = Ok f' -> q <> p -> node_at f' q = node_at f q.
Proof.
  unfold mkdir_here. destruct (os_mkdir p f) as [g|e] eqn:E.
  - intros [= <-] Hq. apply os_mkdir_ok in E as (Hp & Hn & ->).
    rewrite node_at_insert by done. by rewrite decide_False.
  - destruct (is_kind FileNotFoundError e); [done|].
    destruct (b && is_dir f p); [|done]. by intros [= <-].
Qed.

(** Making a directory with its parents touches the path and the paths above
    it only. *)
Lemma mkdir_parents_other p f f' q :
  mkdir_parents p f = Ok f' -> ~ q `suffix_of` p -> node_at f' q = node_at f q.
Proof.
  revert f f'. induction p as [|s p IH]; intros f f'.
  - by intros [= <-].
  - intros Hm Hq.
    assert (q <> s :: p) as Hne by (intros ->; by apply Hq).
    assert (~ q `suffix_of` p) as Hq' by (intros Hs; by apply Hq, suffix_cons_r).
    cbn [mkdir_parents] in Hm. destruct (os_mkdir (s :: p) f) as [g|e] eqn:E.
    + injection Hm as <-. apply os_mkdir_ok in E as (Hp & Hn & ->).
      rewrite node_at_insert by done. by rewrite decide_False.
    + destruct (is_kind FileNotFoundError e).
      * destruct (mkdir_parents p f) as [f1|e1] eqn:E1; [|done].
        cbn in Hm. rewrite (mkdir_here_other _ _ _ _ _ Hm Hne). by apply IH.
      * destruct (is_dir f (s :: p)); [|done]. by injection Hm as <-.
Qed.

Lemma not_suffix_child (p : Path) (s : string) : ~ (s :: p) `suffix_of` p.
Proof. intros Hs. apply suffix_length in Hs. simpl in Hs. lia. Qed.

Lemma elem_of_listdir f store file_name :
  file_name ∈ listdir f store <-> exists c, f !! (file_name :: store) = Some (File c).
Proof.
  unfold listdir. rewrite elem_of_list_to_set, list_elem_of_omap. split.
  - intros [[q n] [Hin Hq]]. apply elem_of_map_to_list in Hin.
    destruct q as [|x folder]; [done|]. destruct n as [|c]; [done|].
    case_decide; simplify_eq. by exists c.
  - intros [c Hc]. exists (file_name :: store, File c).
    split; [by apply elem_of_map_to_list|]. by rewrite decide_True.
Qed.

(** The listing of a store depends on the files in it only. *)
Lemma listdir_ext f f' store :
  (forall file_name c,
     f' !! (file_name :: store) = Some (File c) <-> f !! (file_name :: store) = Some (File c)) ->
  listdir f' store = listdir f store.
Proof.
  intros Hf. apply set_eq. intros x. rewrite !elem_of_listdir.
  split; intros [c Hc]; exists c; by apply Hf.
Qed.

Lemma listdir_grows f f' store : grows f f' -> listdir f' store = listdir f store.
Proof.
  intros Hg. apply listdir_ext. intros x c.
  apply (grows_file f f' (x :: store) c Hg).
Qed.

Lemma listdir_insert_other f store q n :
  tail q <> store -> listdir (<[q := n]> f) store = listdir f store.
Proof.
  intros Hq. apply listdir_ext. intros x c.
  rewrite lookup_insert_ne; [done|]. by intros ->.
Qed.

Lemma from_folder_grows folder f f' :
  grows f f' -> RepositoryIndex_from_folder folder f' = RepositoryIndex_from_folder folder f.
Proof. intros Hg. unfold RepositoryIndex_from_folder. by rewrite !(listdir_grows f f'). Qed.

Lemma mkdir_here_returns p f :
  is_dir f (tail p) = true ->
  (forall c, node_at f p <> Some (File c)) ->
  exists f', mkdir_here true p f = Ok f'.
Proof.
  unfold mkdir_here, os_mkdir, is_dir. intros Hparent Hp.
  destruct (node_at f p) as [[|c]|] eqn:E.
  - by exists f.
  - by destruct (Hp c).
  - destruct (node_at f (tail p)) as [[|c]|]; try done. by eexists.
Qed.

Lemma mkdir_parents_returns p f :
  (forall q c, q `suffix_of` p -> node_at f q <> Some (File c)) ->
  exists f', mkdir_parents p f = Ok f'.
Proof.
  revert f. induction p as [|s p IH]; intros f Hclear.
  - by exists f.
  - cbn [mkdir_parents]. unfold os_mkdir.
    destruct (node_at f (s :: p)) as [[|c]|] eqn:E.
    + exists f. cbn. unfold is_dir. by rewrite E.
    + by destruct (Hclear (s :: p) c).
    + cbn [tail]. destruct (node_at f p) as [[|c]|] eqn:Ep.
      * by eexists.
      * destruct (Hclear p c); [by apply suffix_cons_r|done].
      * cbn. destruct (IH f) as [f1 H1].
        { intros q c Hq. by apply Hclear, suffix_cons_r. }
        rewrite H1. cbn. apply mkdir_here_returns.
        -- by apply mkdir_parents_ok in H1 as [_ ?].
        -- intros c. rewrite (mkdir_parents_other _ _ _ _ H1 (not_suffix_child p s)).
           by rewrite E.
Qed.

(** ** Initialising the repository *)

Section Repository.
Context `{qb : Queenbee} (h : Host).

Local Abbreviation repo := (repository_path h).
Local Abbreviation index_file := (repository_path h // "index.json").

Lemma set_fs_same w : set_fs (fs w) w = w.
Proof. by destruct w. Qed.

Lemma fs_op_ok op w w' :
  fs_op op w = (Ok tt, w') ->
  exists f, op (fs w) = Ok f /\ w' = set_fs f w.
Proof.
  unfold fs_op. destruct (op (fs w)) as [f|e]; [|done].
  intros [= <-]. by exists f.
Qed.

(** What a run of [_init_repo] that returns has done. *)
Lemma _init_repo_inv w p w1 :
  _init_repo h w = (Ok p, w1) ->
  p = repo /\ sys_modules w1 = sys_modules w /\ warnings w1 = warnings w
  /\ exists f3,
       grows (fs w) f3
       /\ node_at f3 index_file = node_at (fs w) index_file
       /\ is_dir f3 repo = true
       /\ is_dir f3 (repo // "plugins") = true
       /\ is_dir f3 (repo // "recipes") = true
       /\ ((path_exists f3 index_file = true /\ fs w1 = f3)
           \/ (path_exists f3 index_file = false
               /\ fs w1 = <[index_file :=
                              File (RepositoryIndex_json
                                      (RepositoryIndex_from_folder repo f3) 2)]> f3)).
Proof.
  unfold _init_repo, mbind, M_bind, mret, M_ret, gets, RepositoryIndex_to_json.
  destruct (fs_op (mkdir_parents repo) w) as [[[]|e1] w_1] eqn:E1; [|done].
  destruct (fs_op (mkdir_here true (repo // "plugins")) w_1) as [[[]|e2] w_2] eqn:E2; [|done].
  destruct (fs_op (mkdir_here true (repo // "recipes")) w_2) as [[[]|e3] w_3] eqn:E3; [|done].
  apply fs_op_ok in E1 as (f1 & H1 & ->), E2 as (f2 & H2 & ->), E3 as (f3 & H3 & ->).
  cbn [fs set_fs] in *.
  assert (Hidx : node_at f3 index_file = node_at (fs w) index_file).
  { rewrite (mkdir_here_other _ _ _ _ index_file H3) by done.
    rewrite (mkdir_here_other _ _ _ _ index_file H2) by done.
    apply (mkdir_parents_other _ _ _ _ H1), not_suffix_child. }
  apply mkdir_parents_ok in H1 as [G1 D1].
  apply mkdir_here_ok in H2 as [G2 D2].
  apply mkdir_here_ok in H3 as [G3 D3].
  assert (Hgrow : grows (fs w) f3) by eauto using grows_trans.
  assert (Hrepo : is_dir f3 repo = true) by eauto using grows_is_dir.
  assert (Hplug : is_dir f3 (repo // "plugins") = true) by eauto using grows_is_dir.
  destruct (path_exists f3 index_file) eqn:Ex; cbn [negb].
  - intros [= <- <-]. repeat split; try done.
    exists f3. repeat split; try done. by left.
  - match goal with
    | |- context [fs_op ?op ?w0] =>
        destruct (fs_op op w0) as [[[]|e4] w_4] eqn:E4; [|done]
    end.
    apply fs_op_ok in E4 as (f4 & H4 & ->). cbn [fs set_fs] in *.
    apply write_file_ok in H4 as [_ ->].
    intros [= <- <-]. repeat split; try done.
    exists f3. repeat split; try done. by right.
Qed.

(** On a repository that is set up, [_init_repo] changes nothing. *)
Lemma _init_repo_again w :
  is_dir (fs w) repo = true ->
  is_dir (fs w) (repo // "plugins") = true ->
  is_dir (fs w) (repo // "recipes") = true ->
  path_exists (fs w) index_file = true ->
  _init_repo h w = (Ok repo, w).
Proof.
  intros Hrepo Hplug Hrec Hidx.
  unfold _init_repo, mbind, M_bind, mret, M_ret, gets, fs_op.
  rewrite (mkdir_parents_again _ _ Hrepo), set_fs_same.
  rewrite (mkdir_here_again _ _ Hplug), set_fs_same.
  rewrite (mkdir_here_again _ _ Hrec), set_fs_same.
  by rewrite Hidx.
Qed.

Lemma is_dir_insert_other f p q n :
  q <> [] -> q <> p -> is_dir (<[q := n]> f) p = is_dir f p.
Proof. intros Hq Hne. unfold is_dir. by rewrite node_at_insert, decide_False. Qed.

(** What [_init_repo] leaves behind, and that running it again changes
    nothing. *)
Lemma _init_repo_effect w p w1 :
  _init_repo h w = (Ok p, w1) ->
  p = repo
  /\ is_dir (fs w1) repo = true
  /\ is_dir (fs w1) (repo // "plugins") = true
  /\ is_dir (fs w1) (repo // "recipes") = true
  /\ path_exists (fs w1) index_file = true
  /\ (forall node, fs w !! index_file = Some node -> fs w1 !! index_file = Some node)
  /\ (fs w !! index_file = None ->
      fs w1 !! index_file
      = Some (File (RepositoryIndex_json (RepositoryIndex_from_folder repo (fs w)) 2)))
  /\ (forall q c, q <> index_file ->
        node_at (fs w1) q = Some (File c) <-> node_at (fs w) q = Some (File c))
  /\ _init_repo h w1 = (Ok p, w1).
Proof.
  intros Hinit.
  apply _init_repo_inv in Hinit
    as (-> & Hmod & Hwarn & f3 & Hg & Hi & Hrepo & Hplug & Hrec & Hcase).
  change (node_at f3 index_file) with (f3 !! index_file) in Hi.
  change (node_at (fs w) index_file) with (fs w !! index_file) in Hi.
  unfold path_exists in Hcase.
  change (node_at f3 index_file) with (f3 !! index_file) in Hcase.
  destruct Hcase as [[Hex Hfs]|[Hex Hfs]]; rewrite Hfs.
  - assert (path_exists f3 index_file = true) as Hex' by done.
    split_and!; try done.
    + intros node Hn. by rewrite Hi.
    + intros Hn. rewrite Hi, Hn in Hex. done.
    + intros q c _. by apply grows_file.
    + apply _init_repo_again; by rewrite Hfs.
  - assert (f3 !! index_file = None) as Hnone by (by destruct (f3 !! index_file)).
    set (content := RepositoryIndex_json (RepositoryIndex_from_folder repo f3) 2) in *.
    assert (forall q, q <> index_file ->
                      node_at (<[index_file := File content]> f3) q = node_at f3 q) as Hother.
    { intros q Hq. rewrite node_at_insert by done. by rewrite decide_False. }
    split_and!; try done.
    + by rewrite is_dir_insert_other.
    + by rewrite is_dir_insert_other.
    + by rewrite is_dir_insert_other.
    + unfold path_exists. by rewrite node_at_insert, decide_True.
    + intros node Hn. rewrite Hi, Hn in Hnone. done.
    + intros _. rewrite lookup_insert_eq. unfold content.
      by rewrite (from_folder_grows _ _ _ Hg).
    + intros q c Hq. rewrite Hother by done. by apply grows_file.
    + apply _init_repo_again; rewrite Hfs.
      * by rewrite is_dir_insert_other.
      * by rewrite is_dir_insert_other.
      * by rewrite is_dir_insert_other.
      * unfold path_exists. by rewrite node_at_insert, decide_True.
Qed.

(** [_init_repo] returns whenever no regular file is in the way. *)
Lemma _init_repo_returns w :
  way_is_clear h (fs w) -> exists w1, _init_repo h w = (Ok repo, w1).
Proof.
  intros Hclear.
  destruct (mkdir_parents_returns repo (fs w)) as [f1 H1].
  { intros q c Hq. apply Hclear. by left. }
  destruct (mkdir_here_returns (repo // "plugins") f1) as [f2 H2].
  { by apply mkdir_parents_ok in H1 as [_ ?]. }
  { intros c. unfold child.
    rewrite (mkdir_parents_other _ _ _ _ H1 (not_suffix_child repo "plugins")).
    apply Hclear. right. by left. }
  destruct (mkdir_here_returns (repo // "recipes") f2) as [f3 H3].
  { apply mkdir_parents_ok in H1 as [_ ?]. apply mkdir_here_ok in H2 as [? _].
    by eapply grows_is_dir. }
  { intros c. rewrite (mkdir_here_other _ _ _ _ (repo // "recipes") H2) by done.
    unfold child.
    rewrite (mkdir_parents_other _ _ _ _ H1 (not_suffix_child repo "recipes")).
    apply Hclear. right. by right. }
  assert (is_dir f3 repo = true) as Hrepo.
  { apply mkdir_parents_ok in H1 as [_ ?]. apply mkdir_here_ok in H2 as [? _].
    apply mkdir_here_ok in H3 as [? _]. eauto using grows_is_dir. }
  unfold _init_repo, mbind, M_bind, mret, M_ret, gets, RepositoryIndex_to_json, fs_op.
  rewrite H1. cbn [fs set_fs]. rewrite H2. cbn [fs set_fs]. rewrite H3. cbn [fs set_fs].
  destruct (path_exists f3 index_file) eqn:Ex; cbn [negb]; [eexists; reflexivity|].
  cbn beta. cbn [fs set_fs]. unfold write_file. unfold path_exists in Ex.
  destruct (node_at f3 index_file) eqn:En; [done|].
  unfold child, is_dir in *. cbn [tail].
  destruct (node_at f3 repo) as [[|c]|]; try done. eexists; reflexivity.
Qed.

Lemma fresh_way_is_clear : way_is_clear h ∅.
Proof.
  intros q c _. destruct q as [|s q]; [done|].
  unfold node_at. by rewrite lookup_empty.
Qed.

(** C8, as amended: [_init_repo] returns whenever no regular file is in the
    way, and a run that returns leaves the repository folder, both stores and
    the index file in place; an index file that was there is kept as it was;
    an index file is written only when there was none, and it is then the
    index of what the stores hold at that moment (empty when they hold
    nothing); no other file is changed; a second run changes nothing and
    returns the same path. *)
Theorem init_repo_idempotent w :
  (way_is_clear h (fs w) -> exists w1, _init_repo h w = (Ok repo, w1))
  /\ forall p w1,
       _init_repo h w = (Ok p, w1) ->
       p = repo
       /\ initialised h (fs w1)
       /\ (forall node, fs w !! index_file = Some node -> fs w1 !! index_file = Some node)
       /\ (fs w !! index_file = None ->
           fs w1 !! index_file
           = Some (File (RepositoryIndex_json (RepositoryIndex_from_folder repo (fs w)) 2)))
       /\ (forall q c, q <> index_file ->
             node_at (fs w1) q = Some (File c) <-> node_at (fs w) q = Some (File c))
       /\ _init_repo h w1 = (Ok p, w1).
Proof.
  split; [apply _init_repo_returns|].
  intros p w1 Hinit.
  apply _init_repo_effect in Hinit as (? & ? & ? & ? & ? & ? & ? & ? & ?).
  by split_and!.
Qed.

End Repository.

(** ** What loading a package does to the repository *)

Section Loading.
Context `{qb : Queenbee} (h : Host).

Local Abbreviation repo := (repository_path h).
Local Abbreviation index_file := (repository_path h // "index.json").

Lemma keeps_lift {A} (r : Result A) : keeps_repository h (lift r).
Proof. by intros w r' w' _ [= _ <-]. Qed.

Lemma keeps_ret {A} (a : A) : keeps_repository h (mret (M := M) a).
Proof. by intros w r' w' _ [= _ <-]. Qed.

Lemma keeps_bind {A B} (m : M A) (k : A -> M B) :
  keeps_repository h m -> (forall a, keeps_repository h (k a)) ->
  keeps_repository h (m ≫= k).
Proof.
  intros Hm Hk w r w' Hi. unfold mbind, M_bind.
  destruct (m w) as [[a|e] w1] eqn:E.
  - intros Hka. rewrite <- (Hm _ _ _ Hi E). apply (Hk a w1 r w'); [|done].
    by rewrite (Hm _ _ _ Hi E).
  - intros [= _ <-]. by apply (Hm _ _ _ Hi E).
Qed.

Lemma keeps_fmap {A B} (f : A -> B) (m : M A) :
  keeps_repository h m -> keeps_repository h (f <$> m).
Proof.
  intros Hm w r w' Hi. unfold fmap, M_fmap.
  destruct (m w) as [[a|e] w1] eqn:E; intros [= _ <-]; by apply (Hm _ _ _ Hi E).
Qed.

Lemma keeps_try_catch {A} (m : M A) (handler : Exn -> M A) :
  keeps_repository h m -> (forall e, keeps_repository h (handler e)) ->
  keeps_repository h (try_catch m handler).
Proof.
  intros Hm Hk w r w' Hi. unfold try_catch.
  destruct (m w) as [[a|e] w1] eqn:E.
  - intros [= _ <-]. by apply (Hm _ _ _ Hi E).
  - intros Hka. rewrite <- (Hm _ _ _ Hi E). apply (Hk e w1 r w'); [|done].
    by rewrite (Hm _ _ _ Hi E).
Qed.

Lemma keeps_get_pollination module : keeps_repository h (get_pollination module).
Proof.
  intros w r w' _. unfold get_pollination.
  destruct (sys_modules w !! module) as [[d|]|]; by intros [= _ <-].
Qed.

Lemma keeps_set_pollination module d : keeps_repository h (set_pollination module d).
Proof. by intros w r w' _ [= _ <-]. Qed.

Lemma keeps_importlib name : keeps_repository h (importlib_import_module h name).
Proof.
  intros w r w' _. unfold importlib_import_module.
  destruct (sys_modules w !! name); [by intros [= _ <-]|].
  destruct (installed h name); by intros [= _ <-].
Qed.

Lemma keeps_import_module name : keeps_repository h (import_module h name).
Proof.
  unfold import_module. apply keeps_try_catch; [apply keeps_importlib|].
  intros e1. case_match; [apply keeps_lift|].
  apply keeps_try_catch; [apply keeps_importlib|]. intros e2. apply keeps_lift.
Qed.

Lemma keeps__get_meta_data module package_type :
  keeps_repository h (_get_meta_data h module package_type).
Proof.
  unfold _get_meta_data.
  apply keeps_bind; [apply keeps_get_pollination|]; intros qb_info.
  apply keeps_bind; [apply keeps_lift|]; intros package_data.
  apply keeps_bind; [apply keeps_lift|]; intros popped.
  apply keeps_bind; [apply keeps_set_pollination|]; intros _.
  apply keeps_bind; [apply keeps_set_pollination|]; intros _.
  apply keeps_lift.
Qed.

Lemma keeps__init_repo : keeps_repository h (_init_repo h).
Proof.
  intros w r w' (Hrepo & Hplug & Hrec & Hidx).
  rewrite (_init_repo_again h w Hrepo Hplug Hrec Hidx). by intros [= _ <-].
Qed.

Lemma keeps__load_plugin module : keeps_repository h (_load_plugin h module).
Proof.
  unfold _load_plugin.
  apply keeps_bind; [apply keeps_get_pollination|]; intros qb_info.
  apply keeps_bind; [apply keeps_lift|]; intros config_value.
  apply keeps_bind; [apply keeps_lift|]; intros config.
  apply keeps_bind; [apply keeps__get_meta_data|]; intros metadata.
  apply keeps_bind; [apply keeps_lift|]; intros functions.
  apply keeps_lift.
Qed.

Lemma keeps__load_recipe module baked : keeps_repository h (_load_recipe h module baked).
Proof.
  unfold _load_recipe.
  apply keeps_bind; [apply keeps_get_pollination|]; intros qb_info.
  apply keeps_bind; [apply keeps_lift|]; intros called.
  apply keeps_bind; [apply keeps_lift|]; intros main_dag.
  apply keeps_bind; [apply keeps__get_meta_data|]; intros metadata.
  apply keeps_bind; [apply keeps__init_repo|]; intros repo'.
  apply keeps_bind; [apply keeps_lift|]; intros plugins.
  apply keeps_bind; [apply keeps_lift|]; intros recipes.
  apply keeps_bind; [apply keeps_lift|]; intros recipe.
  destruct baked; [apply keeps_fmap, keeps_lift|apply keeps_ret].
Qed.

(** Loading a package leaves a repository that is set up as it is. *)
Lemma keeps_load package_name baked : keeps_repository h (load h package_name baked).
Proof.
  unfold load.
  apply keeps_bind; [apply keeps_import_module|]; intros module.
  apply keeps_bind.
  { apply keeps_try_catch; [apply keeps_get_pollination|]. intros e. apply keeps_lift. }
  intros qb_info. case_match; [apply keeps_fmap, keeps__load_plugin|apply keeps__load_recipe].
Qed.

End Loading.

(** ** Blank text *)

Lemma lstrip_keeps_text (s : string) :
  has_ascii_text s = true -> has_ascii_text (PyStr.lstrip s) = true.
Proof.
  induction s as [|a s IH]; [done|]. cbn [PyStr.lstrip].
  destruct (PyStr.is_space a) eqn:Ha; [|done].
  cbn [has_ascii_text]. rewrite Ha, andb_false_r. exact IH.
Qed.

Lemma rstrip_of_text (s : string) :
  has_ascii_text s = true -> PyStr.rstrip s <> "".
Proof.
  induction s as [|a s IH]; [done|]. cbn [PyStr.rstrip has_ascii_text]. intros Ht.
  destruct (PyStr.rstrip s) as [|b r] eqn:E; [|done].
  destruct (PyStr.is_space a) eqn:Ha; [|done].
  rewrite andb_false_r in Ht. by destruct (IH Ht).
Qed.

(** Text with an ASCII character that is not white space is not blank. *)
Lemma strip_of_text (s : string) : has_ascii_text s = true -> PyStr.strip s <> "".
Proof. intros Ht. unfold PyStr.strip. by apply rstrip_of_text, lstrip_keeps_text. Qed.

(** Text of ASCII white space only is blank. *)
Lemma strip_of_blank (s : string) : ascii_blank s = true -> PyStr.strip s = "".
Proof.
  intros Hb. unfold PyStr.strip.
  assert (PyStr.lstrip s = "") as ->; [|done].
  induction s as [|a s IH]; [done|]. cbn [ascii_blank] in Hb.
  apply andb_true_iff in Hb as [Ha Hb]. cbn [PyStr.lstrip]. rewrite Ha. by apply IH.
Qed.

(** ** Packaging *)

Section Packaging.
Context `{qb : Queenbee} (h : Host).

Local Abbreviation repo := (repository_path h).
Local Abbreviation index_file := (repository_path h // "index.json").

(** [package] after the repository was set up and the package loaded. *)
Lemma package_after_load package_name readme w p w1 qb_obj w2 :
  _init_repo h w = (Ok p, w1) ->
  load h package_name false w1 = (Ok qb_obj, w2) ->
  package h package_name readme w =
  match serialized h package_name qb_obj with
  | Raise e => (Raise e, w2)
  | Ok (plugin_version, file_object) =>
      match write_file (repo // (qb_type_of qb_obj ++ "s") // url plugin_version)
                       file_object (fs w2) with
      | Raise e => (Raise e, w2)
      | Ok f4 =>
          match write_file index_file
                  (RepositoryIndex_json (RepositoryIndex_from_folder repo f4) 2) f4 with
          | Raise e => (Raise e, set_fs f4 w2)
          | Ok f5 => (Ok tt, set_fs f5 (set_fs f4 w2))
          end
      end
  end.
Proof.
  intros Hinit Hload.
  assert (p = repo) as -> by (by apply _init_repo_inv in Hinit as [? _]).
  unfold package, mbind at 1, M_bind at 1. rewrite Hinit.
  unfold mbind at 1, M_bind at 1. rewrite Hload.
  unfold mbind at 1, M_bind at 1, lift. fold (serialized h package_name qb_obj).
  destruct (serialized h package_name qb_obj) as [[plugin_version file_object]|e]; [|done].
  unfold mbind, M_bind, fs_op, gets, RepositoryIndex_to_json, fs_op.
  destruct (write_file _ file_object (fs w2)) as [f4|e]; [|done].
  cbn [fs set_fs]. by destruct (write_file index_file _ f4).
Qed.

(** A run of [package] that returns went through all of its steps. *)
Lemma package_ok_inv package_name readme w w' :
  package h package_name readme w = (Ok tt, w') ->
  exists w1 qb_obj w2 r plugin_version file_object,
    _init_repo h w = (Ok repo, w1)
    /\ load h package_name false w1 = (Ok qb_obj, w2)
    /\ _get_package_readme h package_name = Ok r
    /\ PackageVersion_package_resource qb_obj r = Ok (plugin_version, file_object)
    /\ let file_path := repo // (qb_type_of qb_obj ++ "s") // url plugin_version in
       let f4 := <[file_path := File file_object]> (fs w2) in
       fs w' = <[index_file :=
                   File (RepositoryIndex_json (RepositoryIndex_from_folder repo f4) 2)]> f4.
Proof.
  intros Hp.
  destruct (_init_repo h w) as [[p|e] w1] eqn:Hinit.
  2: { unfold package, mbind, M_bind in Hp. by rewrite Hinit in Hp. }
  destruct (load h package_name false w1) as [[qb_obj|e] w2] eqn:Hload.
  2: { unfold package, mbind at 1, M_bind at 1 in Hp. rewrite Hinit in Hp.
       unfold mbind at 1, M_bind at 1 in Hp. by rewrite Hload in Hp. }
  rewrite (package_after_load _ _ _ _ _ _ _ Hinit Hload) in Hp.
  assert (p = repo) as -> by (by apply _init_repo_inv in Hinit as [? _]).
  unfold serialized, try_except in Hp.
  destruct (_get_package_readme h package_name) as [r|e] eqn:Hr; [|done].
  unfold mbind, Result_bind in Hp.
  destruct (PackageVersion_package_resource qb_obj r)
    as [[plugin_version file_object]|e] eqn:Hs; [|done].
  destruct (write_file _ file_object (fs w2)) as [f4|e] eqn:H4; [|done].
  destruct (write_file index_file _ f4) as [f5|e] eqn:H5; [|done].
  apply write_file_ok in H4 as [_ ->]. apply write_file_ok in H5 as [_ ->].
  injection Hp as <-.
  by exists w1, qb_obj, w2, r, plugin_version, file_object.
Qed.

Lemma list_ne_cons {A} (x : A) (l : list A) : l <> x :: l.
Proof. intros Hl. apply (f_equal length) in Hl. simpl in Hl. lia. Qed.

Lemma from_folder_insert_index f content :
  RepositoryIndex_from_folder repo (<[index_file := File content]> f)
  = RepositoryIndex_from_folder repo f.
Proof.
  unfold RepositoryIndex_from_folder.
  rewrite !listdir_insert_other; [done|apply list_ne_cons..].
Qed.

(** C1: when [package] returns, the index file holds the index of exactly the
    artifact files that are in the two stores: every file of a store is
    listed and everything listed is a file of the store. *)
Theorem package_index_enumerates package_name readme w w' :
  package h package_name readme w = (Ok tt, w') ->
  exists index,
    fs w' !! index_file = Some (File (RepositoryIndex_json index 2))
    /\ index = RepositoryIndex_from_folder repo (fs w')
    /\ (forall file_name,
          file_name ∈ index_plugin index
          <-> exists c, fs w' !! (repo // "plugins" // file_name) = Some (File c))
    /\ (forall file_name,
          file_name ∈ index_recipe index
          <-> exists c, fs w' !! (repo // "recipes" // file_name) = Some (File c)).
Proof.
  intros Hp.
  apply package_ok_inv in Hp
    as (w1 & qb_obj & w2 & r & plugin_version & file_object & _ & _ & _ & _ & Hfs).
  cbn zeta in Hfs. exists (RepositoryIndex_from_folder repo (fs w')).
  split_and!; [|done|intros x; apply elem_of_listdir..].
  rewrite Hfs at 2. rewrite from_folder_insert_index.
  rewrite Hfs. apply lookup_insert_eq.
Qed.

(** C2, as amended: when the package loads and its serialization fails,
    [package] raises a [ValueError] that carries the cause, and the file
    system is what setting up the repository at the start of the call left:
    no artifact file is added or changed, an index file that was there is
    kept, and a repository that was set up before the call is unchanged. *)
Theorem package_serialization_failure package_name readme w p w1 qb_obj w2 error :
  _init_repo h w = (Ok p, w1) ->
  load h package_name false w1 = (Ok qb_obj, w2) ->
  (r ← _get_package_readme h package_name;
   PackageVersion_package_resource qb_obj r) = Raise error ->
  package h package_name readme w
  = (Raise (Exception ValueError
              ("Failed to package " ++ package_name ++ " " ++ qb_type_of qb_obj ++ nl
               ++ " " ++ exn_str error)
              (Some error)), w2)
  /\ fs w2 = fs w1
  /\ (forall q c, q <> index_file ->
        node_at (fs w2) q = Some (File c) <-> node_at (fs w) q = Some (File c))
  /\ (forall node, fs w !! index_file = Some node -> fs w2 !! index_file = Some node)
  /\ (initialised h (fs w) -> fs w2 = fs w).
Proof.
  intros Hinit Hload Hfail.
  rewrite (package_after_load _ readme _ _ _ _ _ Hinit Hload).
  unfold serialized. rewrite Hfail. cbn [try_except]. unfold raise_from.
  pose proof (_init_repo_effect h _ _ _ Hinit)
    as (-> & Hrepo & Hplug & Hrec & Hidx & Hkeep & _ & Hfiles & _).
  assert (fs w2 = fs w1) as Hsame by (by apply (keeps_load h _ _ _ _ _) in Hload).
  rewrite Hsame. split_and!; try done.
  intros (Hr & Hpl & Hrc & Hix).
  rewrite (_init_repo_again h w Hr Hpl Hrc Hix) in Hinit. by injection Hinit as <-.
Qed.

(** C9: the [readme] argument of [package] has no effect at all, and the
    artifact that a run of [package] stores is the one serialized from the
    object that [load] returned and the readme of the installed package
    itself: the payload of its metadata, or else the lines of its
    Description header, each without an indentation of eight spaces.  The
    payload is taken whenever it has an ASCII character that is not white
    space, and the Description whenever the payload is empty or ASCII white
    space only. *)
Theorem package_ignores_readme package_name readme w :
  package h package_name readme w = package h package_name None w
  /\ forall w',
       package h package_name readme w = (Ok tt, w') ->
       exists w1 qb_obj w2 package_data r plugin_version file_object,
         _init_repo h w = (Ok repo, w1)
         /\ load h package_name false w1 = (Ok qb_obj, w2)
         /\ metadata h (PyStr.replace "-" "_" package_name) = Some package_data
         /\ (r = payload package_data
             \/ exists content,
                  Message_get package_data "Description" = Some content
                  /\ r = PyStr.join nl (List.map dedent8 (PyStr.split nl content)))
         /\ (has_ascii_text (payload package_data) = true -> r = payload package_data)
         /\ (ascii_blank (payload package_data) = true ->
             exists content,
               Message_get package_data "Description" = Some content
               /\ r = PyStr.join nl (List.map dedent8 (PyStr.split nl content)))
         /\ _get_package_readme h package_name = Ok r
         /\ PackageVersion_package_resource qb_obj r = Ok (plugin_version, file_object)
         /\ fs w' !! (repo // (qb_type_of qb_obj ++ "s") // url plugin_version)
            = Some (File file_object).
Proof.
  split; [done|]. intros w' Hp.
  apply package_ok_inv in Hp
    as (w1 & qb_obj & w2 & r & plugin_version & file_object
        & Hinit & Hload & Hr & Hs & Hfs).
  assert (fs w' !! (repo // (qb_type_of qb_obj ++ "s") // url plugin_version)
          = Some (File file_object)) as Hstored.
  { rewrite Hfs. cbn zeta. rewrite lookup_insert_ne.
    - apply lookup_insert_eq.
    - unfold child. intros Habs. apply (f_equal length) in Habs. simpl in Habs. lia. }
  pose proof Hr as Hreadme. unfold _get_package_readme in Hr.
  destruct (metadata h (PyStr.replace "-" "_" package_name)) as [package_data|] eqn:Hm;
    [|done].
  cbn [mbind Result_bind] in Hr.
  exists w1, qb_obj, w2, package_data, r, plugin_version, file_object.
  destruct (PyStr.strip (payload package_data)) as [|c rest] eqn:Hstrip.
  - destruct (Message_get package_data "Description") as [content|] eqn:Hc; [|done].
    injection Hr as <-. split_and!; try done.
    + right. by exists content.
    + intros Htext. by destruct (strip_of_text _ Htext).
    + intros _. by exists content.
  - injection Hr as <-. split_and!; try done.
    + by left.
    + intros Hblank. by rewrite (strip_of_blank _ Hblank) in Hstrip.
Qed.

End Packaging.

(** ** Assembling a recipe *)

Section Assembly.
Context `{qb : Queenbee} (h : Host).

Local Abbreviation repo := (repository_path h).

Lemma bind_ok_inv {A B} (m : M A) (k : A -> M B) w b w' :
  (m ≫= k) w = (Ok b, w') ->
  exists a w1, m w = (Ok a, w1) /\ k a w1 = (Ok b, w').
Proof.
  unfold mbind, M_bind. destruct (m w) as [[a|e] w1]; [|done].
  intros Hk. by exists a, w1.
Qed.

Lemma lift_ok_inv {A} (r : Result A) w a w' :
  lift r w = (Ok a, w') -> r = Ok a /\ w' = w.
Proof. by intros [= -> <-]. Qed.

Lemma get_pollination_inv module w qb_info w' :
  get_pollination module w = (Ok qb_info, w') ->
  sys_modules w !! module = Some (Some qb_info) /\ w' = w.
Proof.
  unfold get_pollination. destruct (sys_modules w !! module) as [[d|]|]; try done.
  by intros [= <- <-].
Qed.

Lemma checked_inv {A} (check : A -> option Exn) (a b : A) :
  checked check a = Ok b -> b = a /\ check a = None.
Proof. unfold checked. destruct (check a); [done|]. by intros [= <-]. Qed.

(** What a run of [_load_recipe] that returns has built. *)
Lemma _load_recipe_inv module baked w obj w' :
  _load_recipe h module baked w = (Ok obj, w') ->
  exists qb_info entry main_dag metadata plugins recipes,
    sys_modules w !! module = Some (Some qb_info)
    /\ qb_info !! "entry_point" = Some entry
    /\ call entry = Ok (Some main_dag)
    /\ mapR (make_dependency kind_plugin (as_uri repo)) (deps_plugin main_dag) = Ok plugins
    /\ mapR (make_dependency kind_recipe (as_uri repo)) (deps_recipe main_dag) = Ok recipes
    /\ let recipe :=
         {| metadata_of := metadata;
            dependencies := plugins ++ recipes;
            flow := rename "main" (queenbee main_dag)
                    :: List.map queenbee (deps_dag main_dag) |} in
       Recipe_check recipe = None
       /\ (if baked
           then exists b config,
                  BakedRecipe_from_recipe recipe config = Ok b /\ obj = IsBakedRecipe b
           else obj = IsRecipe recipe).
Proof.
  unfold _load_recipe. intros Hl.
  apply bind_ok_inv in Hl as (qb_info & w1 & Hq & Hl).
  apply get_pollination_inv in Hq as [Hq ->].
  apply bind_ok_inv in Hl as (called & w2 & Hc & Hl).
  apply lift_ok_inv in Hc as [Hc ->].
  apply bind_ok_inv in Hl as (main_dag & w3 & Hm & Hl).
  apply lift_ok_inv in Hm as [Hm ->].
  destruct called as [dag|]; [|done]. injection Hm as ->.
  destruct (qb_info !! "entry_point") as [entry|] eqn:He; [|done].
  cbn [default] in Hc.
  apply bind_ok_inv in Hl as (metadata & w4 & _ & Hl).
  apply bind_ok_inv in Hl as (repo' & w5 & Hi & Hl).
  apply _init_repo_inv in Hi as [-> _].
  apply bind_ok_inv in Hl as (plugins & w6 & Hp & Hl).
  apply lift_ok_inv in Hp as [Hp ->].
  apply bind_ok_inv in Hl as (recipes & w7 & Hr & Hl).
  apply lift_ok_inv in Hr as [Hr ->].
  apply bind_ok_inv in Hl as (recipe & w8 & Hk & Hl).
  apply lift_ok_inv in Hk as [Hk ->].
  apply checked_inv in Hk as [-> Hk].
  exists qb_info, entry, main_dag, metadata, plugins, recipes.
  split_and!; try done.
  destruct baked.
  - unfold fmap, M_fmap, lift in Hl.
    destruct (BakedRecipe_from_recipe _ _) as [b|e] eqn:Hb; [|done].
    injection Hl as <- <-. by eexists _, _.
  - by injection Hl as <- <-.
Qed.

(** C3: in the recipe [_load_recipe] builds, the first graph of [flow] is the
    entry graph under the name "main", and the graphs after it are the
    collected nested graphs in the order they were collected. *)
Theorem recipe_flow_main_first module baked w obj w' :
  _load_recipe h module baked w = (Ok obj, w') ->
  exists qb_info entry main_dag recipe,
    sys_modules w !! module = Some (Some qb_info)
    /\ qb_info !! "entry_point" = Some entry
    /\ call entry = Ok (Some main_dag)
    /\ (exists first,
          flow recipe = first :: List.map queenbee (deps_dag main_dag)
          /\ dag_name first = "main"
          /\ dag_body first = dag_body (queenbee main_dag))
    /\ (baked = false -> obj = IsRecipe recipe)
    /\ (baked = true ->
        exists b config,
          BakedRecipe_from_recipe recipe config = Ok b /\ obj = IsBakedRecipe b).
Proof.
  intros Hl. apply _load_recipe_inv in Hl
    as (qb_info & entry & main_dag & metadata & plugins & recipes
        & Hq & He & Hc & _ & _ & Hobj).
  cbn zeta in Hobj. destruct Hobj as [_ Hobj].
  exists qb_info, entry, main_dag,
    {| metadata_of := metadata;
       dependencies := plugins ++ recipes;
       flow := rename "main" (queenbee main_dag)
               :: List.map queenbee (deps_dag main_dag) |}.
  split_and!; try done.
  - by eexists.
  - by intros ->.
  - by intros ->.
Qed.

(** What [_load_recipe] does without an entry point to call. *)
Lemma _load_recipe_no_entry_point module baked w qb_info :
  sys_modules w !! module = Some (Some qb_info) ->
  (qb_info !! "entry_point" = None ->
   _load_recipe h module baked w
   = (raise TypeError "'NoneType' object is not callable", w))
  /\ (qb_info !! "entry_point" = Some (VCallable (Returns None)) ->
      _load_recipe h module baked w
      = (raise AssertionError
           (module ++ " __pollination__ info is missing the enetry_point key."), w)).
Proof.
  intros Hq. unfold _load_recipe, mbind, M_bind, get_pollination, lift.
  rewrite Hq. split; intros He; by rewrite He.
Qed.

(** C4, on the code: a recipe package whose [__pollination__] has no
    'entry_point' key makes [_load_recipe] raise the [TypeError] of calling
    [None], which says nothing about an entry point; the assertion that names
    the missing key is reached only when the entry point is there and returns
    nothing. *)
Theorem recipe_without_entry_point module baked w qb_info :
  sys_modules w !! module = Some (Some qb_info) ->
  (qb_info !! "entry_point" = None ->
   exists e,
     _load_recipe h module baked w = (Raise e, w)
     /\ exn_kind e = TypeError
     /\ exn_str e = "'NoneType' object is not callable"
     /\ PyStr.contains "entry" (exn_str e) = false)
  /\ (qb_info !! "entry_point" = Some (VCallable (Returns None)) ->
      _load_recipe h module baked w
      = (raise AssertionError
           (module ++ " __pollination__ info is missing the enetry_point key."), w)).
Proof.
  intros Hq. destruct (_load_recipe_no_entry_point module baked w qb_info Hq) as [H1 H2].
  split; [|done]. intros He. eexists. by split; [apply H1|].
Qed.

End Assembly.

(** ** The docker image of a dependency *)

Lemma requirements_from_requires_other (req : list Requirement)
    (acc : gmap string string) (k : string) :
  k ∉ List.map project_name req ->
  requirements_from_requires req acc !! k = acc !! k.
Proof.
  unfold requirements_from_requires. revert acc.
  induction req as [|r req IH]; intros acc Hk; [done|].
  cbn [fold_left]. cbn [List.map] in Hk. apply not_elem_of_cons in Hk as [Hne Hk].
  rewrite (IH _ Hk). by rewrite lookup_insert_ne.
Qed.

(** When [get_requirement_version] finds a version, the image is pinned to it
    and nothing is warned; when it fails with an [AssertionError] or a
    [FileNotFoundError], the image gets the tag "latest" and one warning is
    issued; and that is what happens when the [requires.txt] of the package
    can be read and does not list the dependency. *)
Lemma docker_image_cases (h : Host) (package dependency owner : string)
    (w : World) :
  (forall version,
     get_requirement_version h package dependency = Ok version ->
     get_docker_image_from_dependency h package dependency owner w
     = (Ok ("ladybugtools/" ++ dependency ++ ":" ++ version), w))
  /\ (forall error,
        get_requirement_version h package dependency = Raise error ->
        exn_kind error = AssertionError \/ exn_kind error = FileNotFoundError ->
        exists warning,
          get_docker_image_from_dependency h package dependency owner w
          = (Ok ("ladybugtools/" ++ dependency ++ ":latest"), warn warning w))
  /\ (forall dist req,
        get_distribution h (PyStr.replace "pollination." "pollination_" package) = Some dist ->
        requires_txt dist = Some req ->
        PyStr.replace "_" "-" dependency ∉ List.map project_name req ->
        exists warning,
          get_docker_image_from_dependency h package dependency owner w
          = (Ok ("ladybugtools/" ++ dependency ++ ":latest"), warn warning w)).
Proof.
  assert (forall error,
            get_requirement_version h package dependency = Raise error ->
            exn_kind error = AssertionError \/ exn_kind error = FileNotFoundError ->
            exists warning,
              get_docker_image_from_dependency h package dependency owner w
              = (Ok ("ladybugtools/" ++ dependency ++ ":latest"), warn warning w)) as Hfall.
  { intros error He Hk.
    unfold get_docker_image_from_dependency, try_catch, mbind, M_bind, lift.
    rewrite He. unfold is_kind.
    destruct Hk as [-> | ->]; cbn [orb]; by eexists. }
  split_and!; [|exact Hfall|].
  - intros version Hv.
    unfold get_docker_image_from_dependency, try_catch, mbind, M_bind, lift.
    by rewrite Hv.
  - intros dist req Hd Hr Hnot.
    eapply Hfall.
    + unfold get_requirement_version. rewrite Hd. cbn [mbind Result_bind]. rewrite Hr.
      cbn [mbind Result_bind].
      rewrite (requirements_from_requires_other _ _ _ Hnot), lookup_empty.
      reflexivity.
    + by left.
Qed.

Example docker_image_pinned_and_latest :
  get_requirement_version sample_host "weather_plugin" "honeybee_radiance" = Ok "0.5.2"
  /\ get_docker_image_from_dependency sample_host "weather_plugin" "honeybee_radiance"
       "ladybug-tools" fresh_world
     = (Ok "ladybugtools/honeybee_radiance:0.5.2", fresh_world)
  /\ exists warning,
       get_docker_image_from_dependency sample_host "weather_plugin" "numpy"
         "ladybug-tools" fresh_world
       = (Ok "ladybugtools/numpy:latest", warn warning fresh_world).
Proof.
  split; [vm_compute; reflexivity|]. split.
  - apply (proj1 (docker_image_cases sample_host "weather_plugin"
                    "honeybee_radiance" "ladybug-tools" fresh_world) "0.5.2").
    vm_compute; reflexivity.
  - eapply (proj2 (proj2 (docker_image_cases sample_host "weather_plugin"
                            "numpy" "ladybug-tools" fresh_world))).
    + vm_compute; reflexivity.
    + reflexivity.
    + vm_compute. intros Hin. apply list_elem_of_In in Hin. by destruct Hin.
Qed.

(** C7, on the code: for a package without [requires.txt] whose metadata
    lists a requirement without a version in parentheses, no version can be
    pinned, and yet the image is not set to "latest": the [ValueError] of the
    unpacking is none of the two errors that are caught and leaves
    [get_docker_image_from_dependency], with no warning issued. *)
Theorem unpinned_requirement_is_not_latest :
  get_requirement_version unpinned_host "weather_plugin" "honeybee_radiance"
  = Raise (Exception ValueError "not enough values to unpack (expected 2, got 1)"
             (Some (Exception FileNotFoundError "requires.txt" None)))
  /\ get_docker_image_from_dependency unpinned_host "weather_plugin" "honeybee_radiance"
       "ladybug-tools" fresh_world
     = (Raise (Exception ValueError "not enough values to unpack (expected 2, got 1)"
                 (Some (Exception FileNotFoundError "requires.txt" None))),
        fresh_world).
Proof. split; vm_compute; reflexivity. Qed.

Example requirement_without_version :
  get_docker_image_from_dependency unversioned_host "weather_plugin" "honeybee_radiance"
    "ladybug-tools" fresh_world
  = (Ok "ladybugtools/honeybee_radiance:", fresh_world).
Proof. vm_compute. reflexivity. Qed.

(** ** The dependencies of a recipe *)

Lemma add_reference_unique (p : PackageRef) (l : list PackageRef) :
  NoDup (List.map package_ref_name l) ->
  NoDup (List.map package_ref_name (add_reference p l)).
Proof.
  intros Hl. unfold add_reference.
  destruct (existsb _ l) eqn:E; [done|].
  rewrite List.map_app. apply NoDup_app. split_and!; [done| |apply NoDup_singleton].
  intros x Hx Hp. cbn in Hp. apply list_elem_of_singleton in Hp as ->.
  apply list_elem_of_In, in_map_iff in Hx as (q & Hq & Hin).
  assert (existsb (fun q => String.eqb (package_ref_name q) (package_ref_name p)) l = true)
    as Habs; [|congruence].
  apply existsb_exists. exists q. split; [done|]. by apply String.eqb_eq.
Qed.

(** The walk over a step keeps every property of the collection that adding
    a reference and adding a graph keep. *)
Lemma collect_step_invariant (P : Collected -> Prop) (current : string) :
  (forall acc p, P acc ->
     P {| dags := dags acc; plugins := add_reference p (plugins acc);
          recipes := recipes acc |}) ->
  (forall acc p, P acc ->
     P {| dags := dags acc; plugins := plugins acc;
          recipes := add_reference p (recipes acc) |}) ->
  (forall acc d, P acc ->
     P {| dags := dags acc ++ [d]; plugins := plugins acc; recipes := recipes acc |}) ->
  forall s acc, P acc -> P (collect_step current s acc).
Proof.
  intros Hplugin Hrecipe Hdag.
  fix IH 1. intros [owner|id owner dag steps] acc Hacc; cbn [collect_step].
  - destruct (String.eqb _ current); [done|by apply Hplugin].
  - destruct (negb _); [by apply Hrecipe|].
    destruct (existsb _ (dags acc)); [done|].
    generalize (Hdag acc (id, dag) Hacc).
    generalize {| dags := dags acc ++ [(id, dag)];
                  plugins := plugins acc; recipes := recipes acc |}.
    induction steps as [|t steps IHsteps]; intros a Ha; [done|].
    cbn [fold_left]. apply IHsteps. by apply IH.
Qed.

Lemma collect_unique (g : EntryGraph) : names_unique (collect g).
Proof.
  unfold collect.
  assert (names_unique {| dags := []; plugins := []; recipes := [] |}) as Hstart.
  { split; apply NoDup_nil_2. }
  revert Hstart. generalize {| dags := []; plugins := []; recipes := [] |}.
  induction (entry_steps g) as [|t steps IH]; intros a Ha; [done|].
  cbn [fold_left]. apply IH. apply collect_step_invariant; try done.
  - intros acc p [Hp Hr]. split; [by apply add_reference_unique|done].
  - intros acc p [Hp Hr]. split; [done|by apply add_reference_unique].
Qed.

Lemma make_dependency_package_info (k : DependencyKind) (source : string) (p : PackageRef) :
  make_dependency k source (package_info p)
  = Ok {| kind := k; name := package_ref_name p; tag := package_ref_version p;
          source := source |}.
Proof.
  unfold make_dependency, str_field, getitem, package_info.
  rewrite lookup_insert_eq. cbn [mbind Result_bind].
  rewrite lookup_insert_ne by done. by rewrite lookup_singleton_eq.
Qed.

Lemma mapR_package_info (k : DependencyKind) (source : string) (l : list PackageRef) :
  mapR (make_dependency k source) (List.map package_info l)
  = Ok (List.map (fun p => {| kind := k; name := package_ref_name p;
                              tag := package_ref_version p; source := source |}) l).
Proof.
  induction l as [|p l IH]; [done|].
  cbn [List.map mapR]. rewrite make_dependency_package_info. cbn [mbind Result_bind].
  by rewrite IH.
Qed.

Lemma identities_of_kind (k : DependencyKind) (source : string) (l : list PackageRef) :
  List.map identity
    (List.map (fun p => {| kind := k; name := package_ref_name p;
                           tag := package_ref_version p; source := source |}) l)
  = List.map (pair k) (List.map package_ref_name l).
Proof. rewrite !List.map_map. by apply List.map_ext. Qed.

Lemma NoDup_pair {A B} (a : A) (l : list B) : NoDup l -> NoDup (List.map (pair a) l).
Proof.
  intros Hl. change (List.map (pair a) l) with (pair a <$> l).
  apply NoDup_fmap_2; [|done]. by intros x y [= ->].
Qed.

Section Dependencies.
Context `{qb : Queenbee} (h : Host).

(** C6: the recipe assembled from an entry graph has no two dependencies
    with the same kind and name; its dependencies are the collected plugin
    packages followed by the collected recipe packages, one entry for each
    name. *)
Theorem recipe_dependencies_unique module baked w obj w' (g : EntryGraph) qb_info :
  sys_modules w !! module = Some (Some qb_info) ->
  qb_info !! "entry_point" = Some (VCallable (Returns (Some (dsl_dag_of g)))) ->
  _load_recipe h module baked w = (Ok obj, w') ->
  exists recipe,
    NoDup (List.map identity (dependencies recipe))
    /\ List.map identity (dependencies recipe)
       = (List.map (pair kind_plugin) (List.map package_ref_name (plugins (collect g)))
          ++ List.map (pair kind_recipe)
               (List.map package_ref_name (recipes (collect g))))%list
    /\ (baked = false -> obj = IsRecipe recipe)
    /\ (baked = true ->
        exists b config,
          BakedRecipe_from_recipe recipe config = Ok b /\ obj = IsBakedRecipe b).
Proof.
  intros Hq He Hl. apply _load_recipe_inv in Hl
    as (qb_info' & entry & main_dag & metadata & deps_p & deps_r
        & Hq' & He' & Hc & Hp & Hr & Hobj).
  rewrite Hq in Hq'. injection Hq' as <-.
  rewrite He in He'. injection He' as <-.
  cbn [call] in Hc. injection Hc as <-.
  cbn [dsl_dag_of deps_plugin deps_recipe] in Hp, Hr.
  rewrite mapR_package_info in Hp, Hr. injection Hp as <-. injection Hr as <-.
  cbn zeta in Hobj. destruct Hobj as [_ Hobj].
  match type of Hobj with
  | context [BakedRecipe_from_recipe ?recipe] => exists recipe
  end.
  cbn [dependencies]. rewrite List.map_app, !identities_of_kind.
  destruct (collect_unique g) as [Hup Hur].
  split_and!; try done.
  - apply NoDup_app. split_and!; [by apply NoDup_pair| |by apply NoDup_pair].
    intros [k n] Hin1 Hin2.
    apply list_elem_of_In, in_map_iff in Hin1 as (? & [= <- _] & _).
    by apply list_elem_of_In, in_map_iff in Hin2 as (? & [= ?] & _).
  - intros ->. exact Hobj.
  - intros ->. exact Hobj.
Qed.

End Dependencies.

(** ** The shared [__pollination__] dictionary *)

Section Pollination.
Context `{qb : Queenbee} (h : Host).

Lemma _get_package_data_keys package_name package_data :
  _get_package_data h package_name = Ok package_data ->
  List.map fst package_data = package_data_keys.
Proof.
  unfold _get_package_data.
  destruct (metadata h package_name) as [pd|]; [|done]. cbn [mbind Result_bind].
  destruct (Message_get pd "Name"); [|done]. cbn [mbind Result_bind].
  destruct (_get_package_version pd); [|done]. cbn [mbind Result_bind].
  destruct (_get_package_license pd); [|done]. cbn [mbind Result_bind].
  destruct (_get_package_icon pd); [|done]. cbn [mbind Result_bind].
  by intros [= <-].
Qed.

Lemma config_not_data_key : "config" ∉ package_data_keys.
Proof. apply (bool_decide_unpack _). by vm_compute. Qed.

Lemma entry_point_not_data_key : "entry_point" ∉ package_data_keys.
Proof. apply (bool_decide_unpack _). by vm_compute. Qed.

Lemma update_info_other (d : gmap string PyVal) (kv : string * PyData) (k : string) :
  fst kv <> k -> update_info d kv !! k = d !! k.
Proof.
  intros Hk. unfold update_info.
  destruct (snd kv); try done;
    (destruct (_ && _); [done|by rewrite lookup_insert_ne]).
Qed.

Lemma fold_update_info_other (items : list (string * PyData)) (d : gmap string PyVal)
    (k : string) :
  k ∉ List.map fst items -> fold_left update_info items d !! k = d !! k.
Proof.
  revert d. induction items as [|kv items IH]; intros d Hk; [done|].
  cbn [fold_left]. cbn [List.map] in Hk. apply not_elem_of_cons in Hk as [Hne Hk].
  rewrite (IH _ Hk). by apply update_info_other.
Qed.

(** What a run of [_get_meta_data] that returns has done to the dictionary of
    the module: the key of the package type is gone, and apart from the keys
    of the package data nothing else has changed. *)
Lemma _get_meta_data_inv module package_type w metadata w' :
  _get_meta_data h module package_type w = (Ok metadata, w') ->
  let key := if String.eqb package_type "plugin" then "config" else "entry_point" in
  exists qb_info updated,
    sys_modules w !! module = Some (Some qb_info)
    /\ is_Some (qb_info !! key)
    /\ sys_modules w' = <[module := Some updated]> (sys_modules w)
    /\ fs w' = fs w
    /\ meta_info metadata = updated
    /\ forall k, k ∉ package_data_keys -> updated !! k = delete key qb_info !! k.
Proof.
  unfold _get_meta_data. intros Hm. cbv zeta.
  set (key := if String.eqb package_type "plugin" then "config" else "entry_point") in *.
  apply bind_ok_inv in Hm as (qb_info & w1 & Hq & Hm).
  apply get_pollination_inv in Hq as [Hq ->].
  apply bind_ok_inv in Hm as (package_data & w2 & Hd & Hm).
  apply lift_ok_inv in Hd as [Hd ->].
  apply bind_ok_inv in Hm as (popped & w3 & Hp & Hm).
  apply lift_ok_inv in Hp as [Hp ->].
  unfold dict_pop in Hp.
  destruct (qb_info !! key) as [v|] eqn:Hkey; [|done]. injection Hp as <-.
  apply bind_ok_inv in Hm as ([] & w4 & H4 & Hm). injection H4 as <-.
  apply bind_ok_inv in Hm as ([] & w5 & H5 & Hm). injection H5 as <-.
  apply lift_ok_inv in Hm as [Hm ->].
  unfold MetaData_parse_obj in Hm. apply checked_inv in Hm as [-> _].
  exists qb_info, (fold_left update_info package_data (delete key qb_info)).
  split_and!; try done.
  - cbn [sys_modules set_sys_modules]. apply insert_insert_eq.
  - intros k Hk. apply fold_update_info_other.
    by rewrite (_get_package_data_keys _ _ Hd).
Qed.

Lemma _load_plugin_inv module w plugin w' :
  _load_plugin h module w = (Ok plugin, w') ->
  exists qb_info updated,
    sys_modules w !! module = Some (Some qb_info)
    /\ sys_modules w' = <[module := Some updated]> (sys_modules w)
    /\ updated !! "config" = None
    /\ updated !! "entry_point" = qb_info !! "entry_point".
Proof.
  unfold _load_plugin. intros Hl.
  apply bind_ok_inv in Hl as (qb_info & w1 & Hq & Hl).
  apply get_pollination_inv in Hq as [Hq ->].
  apply bind_ok_inv in Hl as (config_value & w2 & Hc & Hl).
  apply lift_ok_inv in Hc as [_ ->].
  apply bind_ok_inv in Hl as (config & w3 & Hc & Hl).
  apply lift_ok_inv in Hc as [_ ->].
  apply bind_ok_inv in Hl as (metadata & w4 & Hm & Hl).
  apply _get_meta_data_inv in Hm as (qb_info' & updated & Hq' & _ & Hs & _ & _ & Hu).
  cbn in Hu.
  apply bind_ok_inv in Hl as (fns & w5 & Hf & Hl).
  apply lift_ok_inv in Hf as [_ ->].
  apply lift_ok_inv in Hl as [_ ->].
  rewrite Hq in Hq'. injection Hq' as <-.
  exists qb_info, updated. split_and!; try done.
  - rewrite Hu; [apply lookup_delete_eq|apply config_not_data_key].
  - rewrite Hu; [by rewrite lookup_delete_ne|apply entry_point_not_data_key].
Qed.

Lemma _load_recipe_modules module baked w obj w' :
  _load_recipe h module baked w = (Ok obj, w') ->
  exists qb_info updated,
    sys_modules w !! module = Some (Some qb_info)
    /\ sys_modules w' = <[module := Some updated]> (sys_modules w)
    /\ updated !! "entry_point" = None
    /\ updated !! "config" = qb_info !! "config"
    /\ (forall p, obj <> IsPlugin p).
Proof.
  intros Hl.
  assert (forall p, obj <> IsPlugin p) as Hobj.
  { apply _load_recipe_inv in Hl as (? & ? & ? & ? & ? & ? & _ & _ & _ & _ & _ & _ & Ho).
    intros p ->. destruct baked; [by destruct Ho as (? & ? & _ & ?)|done]. }
  unfold _load_recipe in Hl.
  apply bind_ok_inv in Hl as (qb_info & w1 & Hq & Hl).
  apply get_pollination_inv in Hq as [Hq ->].
  apply bind_ok_inv in Hl as (called & w2 & Hc & Hl).
  apply lift_ok_inv in Hc as [_ ->].
  apply bind_ok_inv in Hl as (main_dag & w3 & Hm & Hl).
  apply lift_ok_inv in Hm as [_ ->].
  apply bind_ok_inv in Hl as (metadata & w4 & Hm & Hl).
  apply _get_meta_data_inv in Hm as (qb_info' & updated & Hq' & _ & Hs & _ & _ & Hu).
  cbn in Hu. rewrite Hq in Hq'. injection Hq' as <-.
  apply bind_ok_inv in Hl as (repo' & w5 & Hi & Hl).
  apply _init_repo_inv in Hi as (_ & Hs5 & _).
  apply bind_ok_inv in Hl as (plugins & w6 & Hp & Hl).
  apply lift_ok_inv in Hp as [_ ->].
  apply bind_ok_inv in Hl as (recipes & w7 & Hr & Hl).
  apply lift_ok_inv in Hr as [_ ->].
  apply bind_ok_inv in Hl as (recipe & w8 & Hk & Hl).
  apply lift_ok_inv in Hk as [_ ->].
  assert (w' = w5) as ->.
  { destruct baked.
    - unfold fmap, M_fmap, lift in Hl.
      destruct (BakedRecipe_from_recipe _ _); by simplify_eq.
    - by injection Hl as _ <-. }
  exists qb_info, updated. rewrite Hs5. split_and!; try done.
  - rewrite Hu; [apply lookup_delete_eq|apply entry_point_not_data_key].
  - rewrite Hu; [by rewrite lookup_delete_ne|apply config_not_data_key].
Qed.

Lemma importlib_ok_inv name w module w0 :
  importlib_import_module h name w = (Ok module, w0) ->
  module = name
  /\ is_Some (sys_modules w0 !! name)
  /\ forall k, k <> name -> sys_modules w0 !! k = sys_modules w !! k.
Proof.
  unfold importlib_import_module.
  destruct (sys_modules w !! name) as [d|] eqn:E.
  - intros [= <- <-]. by rewrite E.
  - destruct (installed h name) as [init|]; [|done].
    intros [= <- <-]. cbn [sys_modules set_sys_modules].
    split_and!; [done|by rewrite lookup_insert_eq|].
    intros k Hk. by rewrite lookup_insert_ne.
Qed.

Lemma importlib_raise_inv name w e w0 :
  importlib_import_module h name w = (Raise e, w0) ->
  w0 = w /\ sys_modules w !! name = None /\ installed h name = None.
Proof.
  unfold importlib_import_module.
  destruct (sys_modules w !! name) as [d|] eqn:E; [done|].
  destruct (installed h name) as [init|]; [done|]. by intros [= _ <-].
Qed.

Lemma importlib_present name w :
  is_Some (sys_modules w !! name) -> importlib_import_module h name w = (Ok name, w).
Proof. intros [d Hd]. unfold importlib_import_module. by rewrite Hd. Qed.

Lemma import_module_inv name w module w0 :
  import_module h name w = (Ok module, w0) ->
  is_Some (sys_modules w0 !! module)
  /\ forall k, k <> module -> sys_modules w0 !! k = sys_modules w !! k.
Proof.
  unfold import_module, try_catch.
  destruct (importlib_import_module h _ w) as [[m|e1] w1] eqn:E1.
  - intros [= <- <-]. by apply importlib_ok_inv in E1 as (-> & ? & ?).
  - apply importlib_raise_inv in E1 as (-> & _ & _).
    destruct (length _ =? 1)%nat; [done|].
    destruct (importlib_import_module h _ w) as [[m|e2] w2] eqn:E2; [|done].
    intros [= <- <-]. by apply importlib_ok_inv in E2 as (-> & ? & ?).
Qed.

(** A module that was imported is found again, whatever happened to its
    dictionary in between. *)
Lemma import_module_again name w module w0 w' :
  import_module h name w = (Ok module, w0) ->
  is_Some (sys_modules w' !! module) ->
  (forall k, k <> module -> sys_modules w' !! k = sys_modules w !! k) ->
  import_module h name w' = (Ok module, w').
Proof.
  unfold import_module, try_catch. intros Himp Hin Hout.
  destruct (importlib_import_module h _ w) as [[m|e1] w1] eqn:E1.
  - injection Himp as <- <-. apply importlib_ok_inv in E1 as (-> & _ & _).
    by rewrite importlib_present.
  - apply importlib_raise_inv in E1 as (-> & Hnone & Hinst).
    destruct (length _ =? 1)%nat eqn:Elen; [done|].
    destruct (importlib_import_module h _ w) as [[m|e2] w2] eqn:E2; [|done].
    injection Himp as <- <-. apply importlib_ok_inv in E2 as (Hm & _ & _).
    set (package_name := PyStr.replace "-" "_" name) in *.
    destruct (decide (package_name = m)) as [Heq|Hne].
    + rewrite importlib_present; [by rewrite Heq|]. by rewrite Heq.
    + assert (importlib_import_module h package_name w'
              = (raise ModuleNotFoundError ("No module named '" ++ package_name ++ "'"), w'))
        as ->.
      { unfold importlib_import_module. rewrite (Hout _ Hne), Hnone. by rewrite Hinst. }
      unfold raise. rewrite <- Hm. by rewrite importlib_present.
Qed.

Lemma get_pollination_present module w qb_info :
  sys_modules w !! module = Some (Some qb_info) ->
  get_pollination module w = (Ok qb_info, w).
Proof. intros Hq. unfold get_pollination. by rewrite Hq. Qed.

(** A second [load] of a package whose module is imported already. *)
Lemma load_again name w module w0 w' qb_info baked :
  import_module h name w = (Ok module, w0) ->
  sys_modules w' !! module = Some (Some qb_info) ->
  (forall k, k <> module -> sys_modules w' !! k = sys_modules w !! k) ->
  load h name baked w'
  = if bool_decide (is_Some (qb_info !! "config"))
    then (IsPlugin <$> _load_plugin h module) w'
    else _load_recipe h module baked w'.
Proof.
  intros Himp Hq Hout. unfold load, mbind at 1, M_bind at 1.
  rewrite (import_module_again _ _ _ _ _ Himp); [|by rewrite Hq|done].
  unfold mbind, M_bind, try_catch. rewrite (get_pollination_present _ _ _ Hq).
  by destruct (bool_decide _).
Qed.

(** C10: loading a package pops the key of its type from the shared
    [__pollination__] dictionary of its module.  After a plugin package was
    loaded, the dictionary has no 'config' key, and every later [load] of the
    package in the same process takes the recipe branch; after a recipe
    package was loaded, the dictionary has no 'entry_point' key (and still no
    'config' key), so that every later [load] stops at the call of the
    missing entry point. *)
Theorem load_consumes_pollination package_name baked w obj w' :
  load h package_name baked w = (Ok obj, w') ->
  exists module qb_info',
    sys_modules w' !! module = Some (Some qb_info')
    /\ match obj with
       | IsPlugin _ =>
           qb_info' !! "config" = None
           /\ forall baked',
                load h package_name baked' w' = _load_recipe h module baked' w'
       | _ =>
           qb_info' !! "entry_point" = None
           /\ qb_info' !! "config" = None
           /\ forall baked',
                load h package_name baked' w'
                = (raise TypeError "'NoneType' object is not callable", w')
       end.
Proof.
  unfold load at 1. intros Hl.
  apply bind_ok_inv in Hl as (module & w0 & Himp & Hl).
  pose proof (import_module_inv _ _ _ _ Himp) as [_ Hout0].
  apply bind_ok_inv in Hl as (qb_info & w1 & Hq & Hl).
  unfold try_catch in Hq.
  destruct (get_pollination module w0) as [[d|e] w1'] eqn:Hg; [|done].
  injection Hq as -> ->. apply get_pollination_inv in Hg as [Hq ->].
  exists module. case_bool_decide as Hconfig.
  - unfold fmap, M_fmap in Hl.
    destruct (_load_plugin h module w0) as [[plugin|e] w2] eqn:Hp; [|done].
    injection Hl as <- <-.
    apply _load_plugin_inv in Hp as (qb_info0 & updated & Hq0 & Hs & Hc & _).
    exists updated. rewrite Hs, lookup_insert_eq. split_and!; try done.
    intros baked'.
    rewrite (load_again _ _ _ _ w2 updated baked' Himp).
    + rewrite Hc. by rewrite bool_decide_false by (by intros [? ?]).
    + by rewrite Hs, lookup_insert_eq.
    + intros k Hk. rewrite Hs, lookup_insert_ne by done. by apply Hout0.
  - pose proof (_load_recipe_modules _ _ _ _ _ Hl)
      as (qb_info0 & updated & Hq0 & Hs & He & Hc & Hnp).
    rewrite Hq in Hq0. injection Hq0 as <-.
    assert (updated !! "config" = None) as Hc'.
    { rewrite Hc. by destruct (qb_info !! "config") eqn:E; [destruct Hconfig; eauto|]. }
    assert (sys_modules w' !! module = Some (Some updated)) as Hq'
        by (by rewrite Hs, lookup_insert_eq).
    assert (forall baked',
              load h package_name baked' w'
              = (raise TypeError "'NoneType' object is not callable", w')) as Hagain.
    { intros baked'.
      rewrite (load_again _ _ _ _ w' updated baked' Himp Hq').
      - rewrite Hc'. rewrite bool_decide_false by (by intros [? ?]).
        by apply (proj1 (_load_recipe_no_entry_point h module baked' w' updated Hq')).
      - intros k Hk. rewrite Hs, lookup_insert_ne by done. by apply Hout0. }
    exists updated. destruct obj as [p|r|b]; [by destruct (Hnp p)|done..].
Qed.

End Pollination.

(** ** The properties on the sample installation *)

Lemma init_repo_idempotent_witness :
  let w1 := snd (@_init_repo qb_accepting sample_host fresh_world) in
  way_is_clear sample_host (fs fresh_world)
  /\ @_init_repo qb_accepting sample_host fresh_world
     = (Ok (repository_path sample_host), w1)
  /\ initialised sample_host (fs w1)
  /\ @_init_repo qb_accepting sample_host w1 = (Ok (repository_path sample_host), w1).
Proof.
  intros w1.
  assert (@_init_repo qb_accepting sample_host fresh_world
          = (Ok (repository_path sample_host), w1)) as H0 by (vm_compute; reflexivity).
  split; [apply fresh_way_is_clear|]. split; [exact H0|].
  destruct (proj2 (@init_repo_idempotent qb_accepting sample_host fresh_world) _ _ H0)
    as (_ & Hi & _ & _ & _ & Hagain).
  by split.
Defined.

(** In a repository that holds an artifact and has no index file,
    [_init_repo] writes an index that is not the empty one. *)
Lemma init_repo_index_not_empty :
  exists w1 content,
    @_init_repo qb_accepting sample_host unindexed_world
    = (Ok (repository_path sample_host), w1)
    /\ fs unindexed_world !! (repository_path sample_host // "index.json") = None
    /\ fs w1 !! (repository_path sample_host // "index.json") = Some (File content)
    /\ content
       <> @RepositoryIndex_json qb_accepting {| index_plugin := ∅; index_recipe := ∅ |} 2.
Proof.
  eexists _, _. split; [vm_compute; reflexivity|].
  split; [vm_compute; reflexivity|].
  split; [vm_compute; reflexivity|].
  vm_compute. discriminate.
Qed.

Lemma package_index_enumerates_witness :
  let w' := snd (@package qb_accepting sample_host "weather-plugin" None fresh_world) in
  @package qb_accepting sample_host "weather-plugin" None fresh_world = (Ok tt, w')
  /\ fs w' !! (repository_path sample_host // "index.json")
     = Some (File "weather-plugin-1.2.2.tgz;").
Proof.
  intros w'.
  assert (@package qb_accepting sample_host "weather-plugin" None fresh_world = (Ok tt, w'))
    as H0 by (vm_compute; reflexivity).
  split; [exact H0|].
  destruct (@package_index_enumerates qb_accepting sample_host _ _ _ _ H0)
    as (index & Hf & -> & _).
  rewrite Hf. vm_compute. reflexivity.
Defined.

Lemma package_serialization_failure_witness :
  let w1 := snd (@_init_repo qb_failing sample_host fresh_world) in
  let w2 := snd (@load qb_failing sample_host "daylight" false w1) in
  exists qb_obj msg,
    @load qb_failing sample_host "daylight" false w1 = (Ok qb_obj, w2)
    /\ @package qb_failing sample_host "daylight" (Some "a readme") fresh_world
       = (Raise (Exception ValueError msg
                   (Some (Exception LibraryError "cannot serialize" None))), w2)
    /\ fs w2 = fs w1.
Proof.
  intros w1 w2.
  assert (@_init_repo qb_failing sample_host fresh_world
          = (Ok (repository_path sample_host), w1)) as H0 by (vm_compute; reflexivity).
  assert (exists o, @load qb_failing sample_host "daylight" false w1 = (Ok o, w2))
    as [o H1] by (eexists; vm_compute; reflexivity).
  destruct (@package_serialization_failure qb_failing sample_host "daylight"
              (Some "a readme") fresh_world _ w1 o w2
              (Exception LibraryError "cannot serialize" None) H0 H1)
    as (Hp & Hfs & _); [vm_compute; reflexivity|].
  exists o. eexists. split; [exact H1|]. split; [exact Hp|exact Hfs].
Defined.

(** A failing serialization on a machine without a repository leaves the
    repository set up behind: the file system is not what it was. *)
Lemma package_failure_changes_fresh_repository :
  exists msg w',
    @package qb_failing sample_host "daylight" None fresh_world
    = (Raise (Exception ValueError msg
                (Some (Exception LibraryError "cannot serialize" None))), w')
    /\ fs w' <> fs fresh_world.
Proof.
  eexists _, _. split; [vm_compute; reflexivity|].
  intros Habs.
  apply (f_equal (fun f => f !! (repository_path sample_host // "index.json"))) in Habs.
  vm_compute in Habs. discriminate.
Qed.

Lemma package_ignores_readme_witness :
  let w' := snd (@package qb_accepting sample_host "weather-plugin"
                          (Some "a readme of the caller") fresh_world) in
  @package qb_accepting sample_host "weather-plugin"
           (Some "a readme of the caller") fresh_world = (Ok tt, w')
  /\ exists qb_obj plugin_version file_object,
       @PackageVersion_package_resource qb_accepting qb_obj "About weather-plugin"
       = Ok (plugin_version, file_object)
       /\ fs w' !! (repository_path sample_host // (qb_type_of qb_obj ++ "s")
                    // url plugin_version)
          = Some (File file_object).
Proof.
  intros w'.
  assert (@package qb_accepting sample_host "weather-plugin"
                   (Some "a readme of the caller") fresh_world = (Ok tt, w'))
    as H0 by (vm_compute; reflexivity).
  split; [exact H0|].
  destruct (proj2 (@package_ignores_readme qb_accepting sample_host "weather-plugin"
                     (Some "a readme of the caller") fresh_world) w' H0)
    as (w1 & qb_obj & w2 & package_data & r & plugin_version & file_object
        & _ & _ & Hm & _ & Htext & _ & _ & Hs & Hstored).
  assert (metadata sample_host (PyStr.replace "-" "_" "weather-plugin")
          = Some (sample_metadata "weather-plugin" "1.2.3.4")) as Hm'
      by (vm_compute; reflexivity).
  rewrite Hm' in Hm. injection Hm as <-.
  rewrite (Htext eq_refl) in Hs.
  exists qb_obj, plugin_version, file_object. split; [exact Hs|exact Hstored].
Defined.

Example stored_readme_is_of_the_package :
  fs (snd (@package qb_accepting sample_host "weather-plugin"
                    (Some "a readme of the caller") fresh_world))
  !! (repository_path sample_host // "plugins" // "weather-plugin-1.2.2.tgz")
  = Some (File "readme:About weather-plugin").
Proof. vm_compute. reflexivity. Qed.

Lemma recipe_flow_main_first_witness :
  exists obj w',
    @_load_recipe qb_accepting sample_host "daylight" false (imported "daylight" recipe_info)
    = (Ok obj, w')
    /\ exists qb_info entry main_dag recipe,
         sys_modules (imported "daylight" recipe_info) !! "daylight" = Some (Some qb_info)
         /\ qb_info !! "entry_point" = Some entry
         /\ call entry = Ok (Some main_dag)
         /\ (exists first,
               flow recipe = first :: List.map queenbee (deps_dag main_dag)
               /\ dag_name first = "main"
               /\ dag_body first = dag_body (queenbee main_dag))
         /\ (false = false -> obj = IsRecipe recipe)
         /\ (false = true ->
             exists b config,
               @BakedRecipe_from_recipe qb_accepting recipe config = Ok b
               /\ obj = IsBakedRecipe b).
Proof.
  eexists _, _. split; [vm_compute; reflexivity|].
  eapply (@recipe_flow_main_first qb_accepting sample_host "daylight" false
            (imported "daylight" recipe_info)).
  vm_compute. reflexivity.
Defined.

Example daylight_flow :
  match fst (@load qb_accepting sample_host "daylight" false fresh_world) with
  | Ok (IsRecipe recipe) => List.map dag_name (flow recipe) = ["main"; "post-process"]
  | _ => False
  end.
Proof. vm_compute. reflexivity. Qed.

Lemma recipe_without_entry_point_witness :
  sys_modules (imported "bare" ∅) !! "bare" = Some (Some ∅)
  /\ exists e,
       @_load_recipe qb_accepting sample_host "bare" false (imported "bare" ∅)
       = (Raise e, imported "bare" ∅)
       /\ exn_kind e = TypeError
       /\ exn_str e = "'NoneType' object is not callable"
       /\ PyStr.contains "entry" (exn_str e) = false.
Proof.
  split; [vm_compute; reflexivity|].
  apply (proj1 (@recipe_without_entry_point qb_accepting sample_host "bare" false
                  (imported "bare" ∅) ∅ eq_refl)).
  reflexivity.
Defined.

Example load_bare_package :
  fst (@load qb_accepting sample_host "bare" false fresh_world)
  = raise TypeError "'NoneType' object is not callable".
Proof. vm_compute. reflexivity. Qed.

Example load_hollow_package :
  fst (@load qb_accepting sample_host "hollow" false fresh_world)
  = raise AssertionError "hollow __pollination__ info is missing the enetry_point key.".
Proof. vm_compute. reflexivity. Qed.

Lemma recipe_dependencies_unique_witness :
  exists obj w',
    sys_modules (imported "daylight" recipe_info) !! "daylight" = Some (Some recipe_info)
    /\ recipe_info !! "entry_point"
       = Some (VCallable (Returns (Some (dsl_dag_of daylight_graph))))
    /\ @_load_recipe qb_accepting sample_host "daylight" false
         (imported "daylight" recipe_info) = (Ok obj, w')
    /\ exists recipe,
         NoDup (List.map identity (dependencies recipe))
         /\ List.map identity (dependencies recipe)
            = (List.map (pair kind_plugin)
                 (List.map package_ref_name (plugins (collect daylight_graph)))
               ++ List.map (pair kind_recipe)
                    (List.map package_ref_name (recipes (collect daylight_graph))))%list
         /\ (false = false -> obj = IsRecipe recipe)
         /\ (false = true ->
             exists b config,
               @BakedRecipe_from_recipe qb_accepting recipe config = Ok b
               /\ obj = IsBakedRecipe b).
Proof.
  eexists _, _.
  split; [vm_compute; reflexivity|]. split; [vm_compute; reflexivity|].
  split; [vm_compute; reflexivity|].
  eapply (@recipe_dependencies_unique qb_accepting sample_host "daylight" false
            (imported "daylight" recipe_info) _ _ daylight_graph recipe_info).
  - vm_compute; reflexivity.
  - vm_compute; reflexivity.
  - vm_compute; reflexivity.
Defined.

(** The plugin "radiance", used directly and inside the nested graph, is one
    dependency of the recipe "daylight". *)
Example daylight_dependencies :
  match fst (@load qb_accepting sample_host "daylight" false fresh_world) with
  | Ok (IsRecipe recipe) =>
      List.map identity (dependencies recipe) = [(kind_plugin, "radiance")]
  | _ => False
  end.
Proof. vm_compute. reflexivity. Qed.

Lemma load_consumes_pollination_witness :
  exists obj w',
    @load qb_accepting sample_host "weather-plugin" false fresh_world = (Ok obj, w')
    /\ exists module qb_info',
         sys_modules w' !! module = Some (Some qb_info')
         /\ match obj with
            | IsPlugin _ =>
                qb_info' !! "config" = None
                /\ forall baked',
                     @load qb_accepting sample_host "weather-plugin" baked' w'
                     = @_load_recipe qb_accepting sample_host module baked' w'
            | _ =>
                qb_info' !! "entry_point" = None
                /\ qb_info' !! "config" = None
                /\ forall baked',
                     @load qb_accepting sample_host "weather-plugin" baked' w'
                     = (raise TypeError "'NoneType' object is not callable", w')
            end.
Proof.
  eexists _, _. split; [vm_compute; reflexivity|].
  eapply (@load_consumes_pollination qb_accepting sample_host "weather-plugin" false
            fresh_world).
  vm_compute; reflexivity.
Defined.

(** Loading the plugin package a second time in the same process fails: the
    recipe branch is taken and finds no entry point. *)
Example load_plugin_twice :
  let first := @load qb_accepting sample_host "weather-plugin" false fresh_world in
  (exists plugin, fst first = Ok (IsPlugin plugin))
  /\ fst (@load qb_accepting sample_host "weather-plugin" false (snd first))
     = raise TypeError "'NoneType' object is not callable".
Proof. split; [eexists|]; vm_compute; reflexivity. Qed.

(** * Further properties *)

(** ** Splitting and joining at one character *)

Lemma startswith_char (c a : ascii) (s : string) :
  PyStr.startswith (String c "") (String a s) = Ascii.eqb a c.
Proof.
  unfold PyStr.startswith.
  change (String.prefix (String c "") (String a s))
    with (if ascii_dec c a then String.prefix "" s else false).
  destruct (ascii_dec c a) as [<-|Hne].
  - rewrite Ascii.eqb_refl. by destruct s.
  - symmetry. apply Ascii.eqb_neq. congruence.
Qed.

Lemma contains_char_cons (c a : ascii) (s : string) :
  PyStr.contains (String c "") (String a s)
  = Ascii.eqb a c || PyStr.contains (String c "") s.
Proof.
  change (PyStr.contains (String c "") (String a s))
    with (PyStr.startswith (String c "") (String a s) || PyStr.contains (String c "") s).
  by rewrite startswith_char.
Qed.

Lemma contains_char_count (c : ascii) (s : string) :
  PyStr.contains (String c "") s = negb (count_char c s =? 0)%nat.
Proof.
  induction s as [|a s IH]; [done|].
  rewrite contains_char_cons, IH. cbn [count_char].
  by destruct (Ascii.eqb a c).
Qed.

Lemma join_cons (sep x : string) (l : list string) :
  l <> [] -> PyStr.join sep (x :: l) = x ++ sep ++ PyStr.join sep l.
Proof. by destruct l. Qed.

Lemma rev_cons (a : ascii) (s : string) :
  String.rev (String a s) = String.rev s ++ String a "".
Proof. unfold String.rev. simpl. by rewrite rev_app_spec. Qed.

(** Joining the pieces of a split gives the string back. *)
Lemma join_split_go (c : ascii) (s cur : string) :
  PyStr.join (String c "") (PyStr.split_go (String c "") 0 cur s) = String.rev cur ++ s.
Proof.
  revert cur. induction s as [|a s IH]; intros cur.
  - cbn [PyStr.split_go PyStr.join]. by rewrite str_app_nil_r.
  - cbn [PyStr.split_go]. rewrite startswith_char.
    destruct (Ascii.eqb a c) eqn:Ha.
    + apply Ascii.eqb_eq in Ha as ->.
      change (String.length (String c "") - 1) with 0.
      rewrite join_cons by apply split_go_nonempty. by rewrite IH.
    + rewrite IH, rev_cons, str_app_assoc. done.
Qed.

Lemma join_split (c : ascii) (s : string) :
  PyStr.join (String c "") (PyStr.split (String c "") s) = s.
Proof. unfold PyStr.split. by rewrite join_split_go. Qed.

(** A split at one character has one piece more than the string has
    occurrences of the character. *)
Lemma length_split_go (c : ascii) (s cur : string) :
  length (PyStr.split_go (String c "") 0 cur s) = S (count_char c s).
Proof.
  revert cur. induction s as [|a s IH]; intros cur; [done|].
  cbn [PyStr.split_go count_char]. rewrite startswith_char.
  destruct (Ascii.eqb a c).
  - change (String.length (String c "") - 1) with 0. cbn [length]. by rewrite IH.
  - by rewrite IH.
Qed.

Lemma length_split (c : ascii) (s : string) :
  length (PyStr.split (String c "") s) = S (count_char c s).
Proof. apply length_split_go. Qed.

Lemma split_go_char (c : ascii) (x rest cur : string) :
  PyStr.contains (String c "") x = false ->
  PyStr.split_go (String c "") 0 cur (x ++ String c rest)
  = (String.rev cur ++ x) :: PyStr.split (String c "") rest.
Proof.
  revert cur. induction x as [|a x IH]; intros cur Hx.
  - rewrite str_app_nil_l, str_app_nil_r.
    cbn [PyStr.split_go]. by rewrite startswith_char, Ascii.eqb_refl.
  - rewrite contains_char_cons in Hx. apply orb_false_iff in Hx as [Ha Hx].
    rewrite str_app_cons. cbn [PyStr.split_go].
    rewrite startswith_char, Ha, (IH _ Hx). by rewrite rev_cons, str_app_assoc.
Qed.

Lemma split_char (c : ascii) (x rest : string) :
  PyStr.contains (String c "") x = false ->
  PyStr.split (String c "") (x ++ String c rest) = x :: PyStr.split (String c "") rest.
Proof. intros Hx. unfold PyStr.split. by rewrite (split_go_char c x rest "" Hx). Qed.

Lemma split_go_no_char (c : ascii) (s cur : string) :
  PyStr.contains (String c "") s = false ->
  PyStr.split_go (String c "") 0 cur s = [String.rev cur ++ s].
Proof.
  revert cur. induction s as [|a s IH]; intros cur Hs.
  - cbn [PyStr.split_go]. by rewrite str_app_nil_r.
  - rewrite contains_char_cons in Hs. apply orb_false_iff in Hs as [Ha Hs].
    cbn [PyStr.split_go]. rewrite startswith_char, Ha, (IH _ Hs).
    by rewrite rev_cons, str_app_assoc.
Qed.

Lemma split_no_char (c : ascii) (s : string) :
  PyStr.contains (String c "") s = false -> PyStr.split (String c "") s = [s].
Proof. intros Hs. unfold PyStr.split. by rewrite (split_go_no_char c s "" Hs). Qed.

(** ** Counting characters *)

Lemma count_char_app (c : ascii) (s t : string) :
  count_char c (s ++ t) = count_char c s + count_char c t.
Proof.
  induction s as [|a s IH]; [done|].
  rewrite str_app_cons. cbn [count_char]. rewrite IH. lia.
Qed.

Lemma count_char_lstrip (c : ascii) (s : string) :
  PyStr.is_space c = false -> count_char c (PyStr.lstrip s) = count_char c s.
Proof.
  intros Hc. induction s as [|a s IH]; [done|].
  cbn [PyStr.lstrip]. destruct (PyStr.is_space a) eqn:Ha; [|done].
  rewrite IH. cbn [count_char].
  destruct (Ascii.eqb a c) eqn:Hac; [|done].
  apply Ascii.eqb_eq in Hac as ->. congruence.
Qed.

Lemma count_char_rstrip (c : ascii) (s : string) :
  PyStr.is_space c = false -> count_char c (PyStr.rstrip s) = count_char c s.
Proof.
  intros Hc. induction s as [|a s IH]; [done|].
  cbn [PyStr.rstrip count_char]. rewrite <- IH.
  destruct (PyStr.rstrip s) as [|b r]; [|done].
  destruct (PyStr.is_space a) eqn:Ha; [|done].
  destruct (Ascii.eqb a c) eqn:Hac; [|done].
  apply Ascii.eqb_eq in Hac as ->. congruence.
Qed.

(** Stripping keeps every character that is not white space. *)
Lemma count_char_strip (c : ascii) (s : string) :
  PyStr.is_space c = false -> count_char c (PyStr.strip s) = count_char c s.
Proof.
  intros Hc. unfold PyStr.strip. by rewrite count_char_rstrip, count_char_lstrip.
Qed.

(** ** Replacing *)

Lemma replace_go_no_occurrence (old new s : string) :
  PyStr.contains old s = false -> PyStr.replace_go old new 0 s = s.
Proof.
  induction s as [|a s IH]; [done|].
  change (PyStr.contains old (String a s))
    with (PyStr.startswith old (String a s) || PyStr.contains old s).
  intros Hc. apply orb_false_iff in Hc as [Hs Hc].
  cbn [PyStr.replace_go]. by rewrite Hs, (IH Hc).
Qed.

(** Replacing in a string without an occurrence changes nothing. *)
Lemma replace_no_occurrence (old new s : string) :
  PyStr.contains old s = false -> PyStr.replace old new s = s.
Proof. apply replace_go_no_occurrence. Qed.

(** Replacing one character: what is left of the character is what the
    replacement brings in. *)
Lemma count_char_replace_same (c : ascii) (new s : string) :
  count_char c (PyStr.replace (String c "") new s) = count_char c s * count_char c new.
Proof.
  unfold PyStr.replace. induction s as [|a s IH]; [done|].
  cbn [PyStr.replace_go count_char]. rewrite startswith_char.
  change (String.length (String c "") - 1) with 0.
  destruct (Ascii.eqb a c) eqn:Hac.
  - rewrite count_char_app, IH. cbn [Nat.add]. rewrite Nat.mul_succ_l. lia.
  - cbn [count_char]. by rewrite Hac, IH.
Qed.

Lemma count_char_replace_other (c d : ascii) (new s : string) :
  d <> c ->
  count_char d (PyStr.replace (String c "") new s)
  = count_char d s + count_char c s * count_char d new.
Proof.
  intros Hd. unfold PyStr.replace. induction s as [|a s IH]; [done|].
  cbn [PyStr.replace_go count_char]. rewrite startswith_char.
  change (String.length (String c "") - 1) with 0.
  destruct (Ascii.eqb a c) eqn:Hac.
  - apply Ascii.eqb_eq in Hac as ->.
    assert (Ascii.eqb c d = false) as -> by (apply Ascii.eqb_neq; congruence).
    rewrite count_char_app, IH. cbn [Nat.add]. rewrite Nat.mul_succ_l. lia.
  - cbn [count_char]. rewrite IH. cbn [Nat.add]. lia.
Qed.

Lemma replace_char_idempotent (c : ascii) (new s : string) :
  count_char c new = 0 ->
  PyStr.replace (String c "") new (PyStr.replace (String c "") new s)
  = PyStr.replace (String c "") new s.
Proof.
  intros Hnew. apply replace_no_occurrence.
  rewrite contains_char_count, count_char_replace_same, Hnew.
  by rewrite Nat.mul_0_r.
Qed.

(** ** The version of a requirement *)

Lemma strip_comparators_free (version : string) :
  comparator_free (strip_comparators version).
Proof.
  unfold comparator_free, strip_comparators. split_and!.
  - rewrite !count_char_replace_other by done.
    rewrite count_char_replace_same. cbn [count_char]. lia.
  - rewrite count_char_replace_same. cbn [count_char]. lia.
  - rewrite count_char_replace_other by done.
    rewrite count_char_replace_same. cbn [count_char]. lia.
Qed.

Lemma comparator_free_metadata_version (version : string) :
  comparator_free (PyStr.strip (PyStr.replace ")" "" (strip_comparators version))).
Proof.
  destruct (strip_comparators_free version) as (He & Hl & Hg).
  unfold comparator_free.
  rewrite !count_char_strip by done.
  rewrite !count_char_replace_other by done.
  cbn [count_char]. lia.
Qed.

Lemma requirements_from_requires_free (req : list Requirement) (acc : gmap string string) :
  map_Forall (fun _ v => comparator_free v) acc ->
  map_Forall (fun _ v => comparator_free v) (requirements_from_requires req acc).
Proof.
  unfold requirements_from_requires. revert acc.
  induction req as [|r req IH]; intros acc Hacc; [done|].
  cbn [fold_left]. apply IH. apply map_Forall_insert_2; [|done].
  apply strip_comparators_free.
Qed.

Lemma requirements_from_metadata_free (req_dists : list string)
    (acc requirements : gmap string string) :
  map_Forall (fun _ v => comparator_free v) acc ->
  requirements_from_metadata req_dists acc = Ok requirements ->
  map_Forall (fun _ v => comparator_free v) requirements.
Proof.
  revert acc. induction req_dists as [|package rest IH]; intros acc Hacc.
  - by intros [= <-].
  - cbn [requirements_from_metadata].
    destruct (PyStr.split " (" package) as [|name [|version [|? ?]]]; try done.
    apply IH. apply map_Forall_insert_2; [|done].
    apply comparator_free_metadata_version.
Qed.

Lemma in_handler_ok {A} (handled : Exn) (r : Result A) (a : A) :
  in_handler handled r = Ok a -> r = Ok a.
Proof. destruct r as [b|[k m [c|]]]; by intros [= <-]. Qed.

(** A version that [get_requirement_version] returns has none of the
    characters [=], [<] and [>] in it. *)
Theorem requirement_version_comparator_free (h : Host)
    (package_name dependency_name version : string) :
  get_requirement_version h package_name dependency_name = Ok version ->
  comparator_free version.
Proof.
  unfold get_requirement_version.
  destruct (get_distribution h _) as [dist|]; [|done]. cbn [mbind Result_bind].
  destruct (requires_txt dist) as [req|].
  - cbn [mbind Result_bind].
    destruct (requirements_from_requires req ∅ !! _) as [v|] eqn:Hv; [|done].
    intros [= <-].
    by apply (requirements_from_requires_free req ∅ (map_Forall_empty _) _ _ Hv).
  - destruct (in_handler _ _) as [requirements|e] eqn:Hr; [|done].
    cbn [mbind Result_bind]. apply in_handler_ok in Hr.
    destruct (metadata h _) as [pd|]; [|done]. cbn [mbind Result_bind] in Hr.
    destruct (requirements !! _) as [v|] eqn:Hv; [|done].
    intros [= <-].
    by apply (requirements_from_metadata_free _ ∅ _ (map_Forall_empty _) Hr _ _ Hv).
Qed.

Lemma requirement_version_comparator_free_witness :
  get_requirement_version sample_host "weather_plugin" "honeybee_radiance" = Ok "0.5.2"
  /\ comparator_free "0.5.2".
Proof.
  split; [vm_compute; reflexivity|].
  apply (requirement_version_comparator_free sample_host "weather_plugin"
           "honeybee_radiance").
  vm_compute; reflexivity.
Defined.

(** Underscores in the name of the dependency count as hyphens: asking for
    the hyphenated name gives the same answer. *)
Theorem requirement_version_underscores (h : Host) (package_name dependency_name : string) :
  get_requirement_version h package_name (PyStr.replace "_" "-" dependency_name)
  = get_requirement_version h package_name dependency_name.
Proof.
  unfold get_requirement_version.
  by rewrite (replace_char_idempotent "_" "-" dependency_name eq_refl).
Qed.

Lemma requirements_from_requires_app (before after : list Requirement)
    (acc : gmap string string) :
  requirements_from_requires (before ++ after) acc
  = requirements_from_requires after (requirements_from_requires before acc).
Proof. unfold requirements_from_requires. apply fold_left_app. Qed.

(** When [requires.txt] lists the dependency several times, the last entry
    decides, and the version is its specifier without the comparison
    characters. *)
Theorem requirement_version_last_entry (h : Host) (package_name dependency_name : string)
    (dist : Distribution) (before after : list Requirement) (r : Requirement) :
  get_distribution h (PyStr.replace "pollination." "pollination_" package_name) = Some dist ->
  requires_txt dist = Some (before ++ r :: after)%list ->
  project_name r = PyStr.replace "_" "-" dependency_name ->
  PyStr.replace "_" "-" dependency_name ∉ List.map project_name after ->
  get_requirement_version h package_name dependency_name
  = Ok (strip_comparators (specifier r)).
Proof.
  intros Hd Hr Hn Hafter. unfold get_requirement_version.
  rewrite Hd. cbn [mbind Result_bind]. rewrite Hr. cbn [mbind Result_bind].
  rewrite requirements_from_requires_app.
  change (requirements_from_requires (r :: after) ?acc)
    with (requirements_from_requires after
            (<[project_name r := strip_comparators (specifier r)]> acc)).
  rewrite (requirements_from_requires_other _ _ _ Hafter).
  by rewrite <- Hn, lookup_insert_eq.
Qed.

Lemma requirement_version_last_entry_witness :
  get_requirement_version twice_listed_host "weather_plugin" "honeybee_radiance"
  = Ok "0.6.0".
Proof.
  apply (requirement_version_last_entry twice_listed_host "weather_plugin"
           "honeybee_radiance"
           {| requires_txt :=
                Some [ {| project_name := "honeybee-radiance"; specifier := "==0.5.2" |};
                       {| project_name := "queenbee"; specifier := ">=1.0" |};
                       {| project_name := "honeybee-radiance"; specifier := "==0.6.0" |} ] |}
           [ {| project_name := "honeybee-radiance"; specifier := "==0.5.2" |};
             {| project_name := "queenbee"; specifier := ">=1.0" |} ]
           []
           {| project_name := "honeybee-radiance"; specifier := "==0.6.0" |}).
  - reflexivity.
  - reflexivity.
  - reflexivity.
  - apply not_elem_of_nil.
Defined.

(** ** The docker image, case by case *)



(** ** Importing a module *)









(** ** The readme and the owner of a package *)


Lemma startswith_split (p s : string) :
  PyStr.startswith p s = true -> exists rest, s = p ++ rest.
Proof.
  unfold PyStr.startswith. revert s. induction p as [|a p IH]; intros s Hs.
  - by exists s.
  - destruct s as [|b s]; [done|]. cbn [String.prefix] in Hs.
    destruct (ascii_dec a b) as [<-|]; [|done].
    destruct (IH s Hs) as [rest ->]. by exists rest.
Qed.



Lemma count_char_rev_app (c : ascii) (s t : string) :
  count_char c (String.rev_app s t) = count_char c s + count_char c t.
Proof.
  revert t. induction s as [|a s IH]; intros t; [done|].
  cbn [String.rev_app]. rewrite IH. cbn [count_char]. lia.
Qed.

(** No piece of a split has the separator in it. *)
Lemma split_go_pieces (c : ascii) (s cur : string) :
  count_char c cur = 0 ->
  Forall (fun x => count_char c x = 0) (PyStr.split_go (String c "") 0 cur s).
Proof.
  revert cur. induction s as [|a s IH]; intros cur Hcur.
  - cbn [PyStr.split_go]. apply Forall_singleton.
    unfold String.rev. rewrite count_char_rev_app. cbn [count_char]. lia.
  - cbn [PyStr.split_go]. rewrite startswith_char.
    destruct (Ascii.eqb a c) eqn:Ha.
    + apply Forall_cons. split; [|by apply IH].
      unfold String.rev. rewrite count_char_rev_app. cbn [count_char]. lia.
    + apply IH. cbn [count_char]. by rewrite Ha.
Qed.

Lemma split_pieces (c : ascii) (s : string) :
  Forall (fun x => count_char c x = 0) (PyStr.split (String c "") s).
Proof. by apply split_go_pieces. Qed.

Lemma no_occurrence (c : ascii) (s : string) :
  count_char c s = 0 -> PyStr.contains (String c "") s = false.
Proof. intros Hs. by rewrite contains_char_count, Hs. Qed.

(** Splitting what was joined gives the pieces back, when no piece has the
    separator in it. *)
Lemma split_join (c : ascii) (l : list string) :
  l <> [] ->
  Forall (fun x => count_char c x = 0) l ->
  PyStr.split (String c "") (PyStr.join (String c "") l) = l.
Proof.
  induction l as [|x l IH]; [done|]. intros _ Hl.
  apply Forall_cons in Hl as [Hx Hl].
  destruct l as [|y l].
  - cbn [PyStr.join]. by apply split_no_char, no_occurrence.
  - rewrite join_cons by done.
    change (String c "" ++ PyStr.join (String c "") (y :: l))
      with (String c (PyStr.join (String c "") (y :: l))).
    rewrite split_char by by apply no_occurrence. by rewrite IH.
Qed.



Example readme_from_description :
  _get_package_readme described_host "any"
  = Ok ("Title" ++ nl ++ "indented" ++ nl ++ "  kept").
Proof. vm_compute. reflexivity. Qed.

(** The owner of a package is its Author header without the white space
    around it (for an author in ASCII, on which the stripping of this model
    is Python's), and only an author without a comma is accepted: a missing
    or empty header and an author with a comma make the function raise an
    [AssertionError]. *)
Theorem package_owner_cases (h : Host) (package_name : string) (package_data : Message) :
  metadata h (PyStr.replace "-" "_" package_name) = Some package_data ->
  (forall author,
     Message_get package_data "Author" = Some author ->
     author <> "" ->
     ascii_only author = true ->
     count_char "," author = 0 ->
     _get_package_owner h package_name = Ok (PyStr.strip author))
  /\ (forall author,
        Message_get package_data "Author" = Some author ->
        count_char "," author <> 0 ->
        exists msg, _get_package_owner h package_name = raise AssertionError msg)
  /\ (Message_get package_data "Author" = None
      \/ Message_get package_data "Author" = Some "" ->
      exists msg, _get_package_owner h package_name = raise AssertionError msg)
  /\ (forall owner,
        _get_package_owner h package_name = Ok owner -> count_char "," owner = 0).
Proof.
  intros Hm. unfold _get_package_owner. rewrite Hm. cbn [mbind Result_bind].
  split_and!.
  - intros author -> Hne _ Hc. destruct author as [|a author]; [done|].
    rewrite length_split, count_char_strip, Hc by done. done.
  - intros author -> Hc. destruct author as [|a author]; [done|].
    rewrite length_split, count_char_strip by done.
    destruct (count_char "," (String a author)); [done|]. by eexists.
  - intros [-> | ->]; by eexists.
  - intros owner. destruct (Message_get package_data "Author") as [[|a author]|]; try done.
    rewrite length_split.
    destruct (count_char "," (PyStr.strip (String a author))) eqn:Hc; [|done].
    by intros [= <-].
Qed.

Lemma package_owner_cases_witness :
  _get_package_owner described_host "any" = Ok "ladybug-tools".
Proof.
  apply (proj1 (package_owner_cases described_host "any" described_metadata eq_refl)
               " ladybug-tools ").
  - reflexivity.
  - discriminate.
  - reflexivity.
  - reflexivity.
Defined.

(** ** License, maintainers and icon *)

Lemma split_two (c : ascii) (s : string) :
  count_char c s = 1 ->
  exists a b, PyStr.split (String c "") s = [a; b] /\ s = a ++ String c b.
Proof.
  intros Hc. pose proof (length_split c s) as Hlen. rewrite Hc in Hlen.
  destruct (PyStr.split (String c "") s) as [|a [|b [|? ?]]] eqn:Hs; try done.
  exists a, b. split; [done|].
  rewrite <- (join_split c s) at 1. by rewrite Hs.
Qed.

(** The license of a package is always a dictionary with the keys 'name' and
    'url'.  Without a License header both are [None]; a license without a
    comma is the name, stripped; a license [name,url] gives both, stripped;
    and a license with more than one comma makes the function raise a
    [ValueError].  The stripped values are given for a license in ASCII, on
    which the stripping of this model is Python's. *)
Theorem package_license_cases (package_data : Message) :
  (Message_get package_data "License" = None
   \/ Message_get package_data "License" = Some "" ->
   _get_package_license package_data = Ok (DDict [("name", DNone); ("url", DNone)]))
  /\ (forall license_info,
        Message_get package_data "License" = Some license_info ->
        license_info <> "" ->
        ascii_only license_info = true ->
        count_char "," license_info = 0 ->
        _get_package_license package_data
        = Ok (DDict [("name", DStr (PyStr.strip license_info)); ("url", DNone)]))
  /\ (forall license link,
        Message_get package_data "License" = Some (license ++ "," ++ link) ->
        ascii_only license = true ->
        ascii_only link = true ->
        count_char "," license = 0 ->
        count_char "," link = 0 ->
        _get_package_license package_data
        = Ok (DDict [("name", DStr (PyStr.strip license));
                     ("url", DStr (PyStr.strip link))]))
  /\ (forall license_info,
        Message_get package_data "License" = Some license_info ->
        2 <= count_char "," license_info ->
        _get_package_license package_data
        = raise ValueError "too many values to unpack (expected 2)").
Proof.
  unfold _get_package_license. split_and!.
  - by intros [-> | ->].
  - intros license_info -> Hne _ Hc. destruct license_info as [|a l]; [done|].
    by rewrite (no_occurrence "," _ Hc).
  - intros license link -> _ _ Hl Hk.
    assert (count_char "," (license ++ "," ++ link) = 1) as Hc.
    { rewrite !count_char_app, Hl, Hk. done. }
    assert (PyStr.contains "," (license ++ "," ++ link) = true) as Hin.
    { by rewrite contains_char_count, Hc. }
    change ("," ++ link) with (String "," link) in *.
    destruct (license ++ String "," link) as [|a l] eqn:E.
    { by destruct license. }
    rewrite Hin, <- E. rewrite (split_char "," license link (no_occurrence _ _ Hl)).
    by rewrite (split_no_char "," link (no_occurrence _ _ Hk)).
  - intros license_info -> Hc. destruct license_info as [|a l]; [cbn in Hc; lia|].
    assert (PyStr.contains "," (String a l) = true) as ->.
    { rewrite contains_char_count.
      destruct (count_char "," (String a l)) eqn:E; [lia|done]. }
    pose proof (length_split "," (String a l)) as Hlen.
    rewrite <- (length_map PyStr.strip) in Hlen.
    destruct (List.map PyStr.strip (PyStr.split "," (String a l)))
      as [|x [|y [|z rest]]]; cbn [length] in Hlen; try lia. done.
Qed.

Lemma package_license_cases_witness :
  _get_package_license described_metadata
  = Ok (DDict [("name", DStr "PolyForm Shield");
               ("url", DStr "https://polyformproject.org/licenses/shield")]).
Proof.
  apply (proj1 (proj2 (proj2 (package_license_cases described_metadata)))
               "PolyForm Shield" " https://polyformproject.org/licenses/shield");
    reflexivity.
Defined.

(** How many maintainers are returned: one for every name when there are no
    e-mail addresses, and otherwise as many as there are names with an
    address at the same place, so that a name without an address is
    dropped. *)
Theorem package_maintainers_count (package_data : Message)
    (maintainer : string) :
  Message_get package_data "Maintainer" = Some maintainer ->
  maintainer <> "" ->
  (Message_get package_data "Maintainer-email" = None
   \/ Message_get package_data "Maintainer-email" = Some "" ->
   exists l,
     _get_package_maintainers package_data = DList l
     /\ length l = S (count_char "," maintainer))
  /\ (forall maintainer_email,
        Message_get package_data "Maintainer-email" = Some maintainer_email ->
        maintainer_email <> "" ->
        exists l,
          _get_package_maintainers package_data = DList l
          /\ length l
             = Nat.min (S (count_char "," maintainer))
                       (S (count_char "," maintainer_email))).
Proof.
  intros Hm Hne. unfold _get_package_maintainers. rewrite Hm.
  destruct maintainer as [|a m]; [done|]. split.
  - intros [-> | ->]; eexists; (split; [reflexivity|]);
      by rewrite !length_map, length_split.
  - intros maintainer_email -> Hne'. destruct maintainer_email as [|b e]; [done|].
    eexists. split; [reflexivity|].
    by rewrite length_map, length_combine, !length_map, !length_split.
Qed.

Lemma package_maintainers_count_witness :
  exists l,
    _get_package_maintainers described_metadata = DList l /\ length l = 2.
Proof.
  destruct (proj2 (package_maintainers_count described_metadata "ada, grace, edsger"
                     eq_refl ltac:(discriminate))
                  "ada@example.com, grace@example.com" eq_refl ltac:(discriminate))
    as (l & Hl & Hlen).
  exists l. split; [exact Hl|exact Hlen].
Defined.

Lemma startswith_app (p rest : string) : PyStr.startswith p (p ++ rest) = true.
Proof.
  unfold PyStr.startswith. induction p as [|a p IH].
  - by destruct rest.
  - rewrite str_app_cons. cbn [String.prefix]. by destruct (ascii_dec a a).
Qed.

(** The icon of a package is the value, stripped, of the first Project-URL
    whose key is "icon" (for a value in ASCII, on which the stripping of
    this model is Python's); every Project-URL before it must have one
    comma, or the function raises a [ValueError]; without an icon the result
    is [None]; and without any Project-URL the function raises a
    [TypeError]. *)
Theorem package_icon_cases (package_data : Message) :
  (Message_get_all package_data "Project-URL" = None ->
   _get_package_icon package_data = raise TypeError "'NoneType' object is not iterable")
  /\ (forall before value after,
        Message_get_all package_data "Project-URL"
        = Some (before ++ ("icon" ++ "," ++ value)%string :: after)%list ->
        Forall (fun url => count_char "," url = 1 /\ PyStr.startswith "icon," url = false)
               before ->
        ascii_only value = true ->
        count_char "," value = 0 ->
        _get_package_icon package_data = Ok (DStr (PyStr.strip value)))
  /\ (forall urls,
        Message_get_all package_data "Project-URL" = Some urls ->
        Forall (fun url => count_char "," url = 1 /\ PyStr.startswith "icon," url = false)
               urls ->
        _get_package_icon package_data = Ok DNone)
  /\ (forall before url after,
        Message_get_all package_data "Project-URL" = Some (before ++ url :: after)%list ->
        Forall (fun url => count_char "," url = 1 /\ PyStr.startswith "icon," url = false)
               before ->
        count_char "," url <> 1 ->
        exists msg, _get_package_icon package_data = raise ValueError msg).
Proof.
  assert (forall url rest,
            count_char "," url = 1 -> PyStr.startswith "icon," url = false ->
            icon_of (url :: rest) = icon_of rest) as Hskip.
  { intros url rest Hc Hs. cbn [icon_of].
    destruct (split_two "," url Hc) as (k & v & -> & ->).
    destruct (String.eqb k "icon") eqn:Hk; [|done].
    apply String.eqb_eq in Hk as ->.
    change ("icon" ++ String "," v) with ("icon," ++ v) in Hs.
    by rewrite startswith_app in Hs. }
  assert (forall before rest,
            Forall (fun url => count_char "," url = 1
                               /\ PyStr.startswith "icon," url = false) before ->
            icon_of (before ++ rest) = icon_of rest) as Hbefore.
  { intros before rest Hall. induction Hall as [|url before [Hc Hs] _ IH]; [done|].
    cbn [app]. by rewrite Hskip. }
  unfold _get_package_icon. split_and!.
  - by intros ->.
  - intros before value after -> Hall _ Hv. rewrite (Hbefore _ _ Hall). cbn [icon_of].
    change ("icon" ++ "," ++ value) with ("icon" ++ String "," value).
    rewrite (split_char "," "icon" value eq_refl).
    by rewrite (split_no_char "," value (no_occurrence _ _ Hv)).
  - intros urls -> Hall. rewrite <- (app_nil_r urls). by rewrite (Hbefore _ _ Hall).
  - intros before url after -> Hall Hc. rewrite (Hbefore _ _ Hall). cbn [icon_of].
    pose proof (length_split "," url) as Hlen.
    destruct (PyStr.split "," url) as [|x [|y [|z rest]]]; cbn [length] in Hlen;
      [done|by eexists|lia|by eexists].
Qed.

Lemma package_icon_cases_witness :
  _get_package_icon described_metadata = Ok (DStr "https://example.com/icon.png").
Proof.
  apply (proj1 (proj2 (package_icon_cases described_metadata))
               ["docs, https://example.com/docs"] " https://example.com/icon.png" []).
  - reflexivity.
  - apply Forall_singleton. split; reflexivity.
  - reflexivity.
  - reflexivity.
Defined.

(** ** Names of classes and of packages *)

Lemma lower_char_not_upper (c : ascii) : PyStr.is_upper (PyStr.lower_char c) = false.
Proof. destruct c as [[] [] [] [] [] [] [] []]; reflexivity. Qed.

Lemma has_upper_app (s t : string) : has_upper (s ++ t) = has_upper s || has_upper t.
Proof.
  induction s as [|a s IH]; [done|].
  rewrite str_app_cons. cbn [has_upper]. rewrite IH. apply orb_assoc.
Qed.

Lemma join_empty_cons (x : string) (l : list string) :
  PyStr.join "" (x :: l) = x ++ PyStr.join "" l.
Proof. destruct l; [by rewrite str_app_nil_r|done]. Qed.

Lemma str_length_app (s t : string) :
  String.length (s ++ t) = String.length s + String.length t.
Proof. induction s as [|a s IH]; [done|]. rewrite str_app_cons. cbn. by rewrite IH. Qed.

Lemma snake_pieces_lower (s : string) :
  has_upper (PyStr.join "" (List.map snake_piece (list_ascii_of_string s))) = false.
Proof.
  induction s as [|a s IH]; [done|].
  cbn [list_ascii_of_string List.map]. rewrite join_empty_cons, has_upper_app, IH.
  unfold snake_piece. destruct (PyStr.is_upper a) eqn:E; cbn [has_upper].
  - by rewrite lower_char_not_upper.
  - by rewrite E.
Qed.

Lemma snake_pieces_length (s : string) :
  String.length (PyStr.join "" (List.map snake_piece (list_ascii_of_string s)))
  = String.length s + count_upper s.
Proof.
  induction s as [|a s IH]; [done|].
  cbn [list_ascii_of_string List.map]. rewrite join_empty_cons, str_length_app, IH.
  unfold snake_piece. cbn [count_upper]. destruct (PyStr.is_upper a); cbn; lia.
Qed.

Lemma snake_pieces_fixed (s : string) :
  has_upper s = false ->
  PyStr.join "" (List.map snake_piece (list_ascii_of_string s)) = s.
Proof.
  induction s as [|a s IH]; [done|]. cbn [has_upper]. intros Hs.
  apply orb_false_iff in Hs as [Ha Hs].
  cbn [list_ascii_of_string List.map]. rewrite join_empty_cons, (IH Hs).
  unfold snake_piece. by rewrite Ha.
Qed.

(** [camel_to_snake] fails on the empty name only.  On any other name the
    result has no upper-case character, is one character longer for every
    upper-case character after the first one, and is left as it is by a
    second application. *)
Theorem camel_to_snake_shape (c : ascii) (rest : string) :
  camel_to_snake "" = None
  /\ exists snake,
       camel_to_snake (String c rest) = Some snake
       /\ has_upper snake = false
       /\ String.length snake = S (String.length rest + count_upper rest)
       /\ camel_to_snake snake = Some snake.
Proof.
  split; [done|]. eexists. split; [reflexivity|].
  cbn [list_ascii_of_string List.map tail]. rewrite str_app_cons, str_app_nil_l.
  split_and!.
  - cbn [has_upper]. by rewrite lower_char_not_upper, snake_pieces_lower.
  - cbn [String.length]. by rewrite snake_pieces_length.
  - unfold camel_to_snake.
    cbn [list_ascii_of_string List.map tail]. rewrite str_app_cons, str_app_nil_l.
    unfold PyStr.lower_char at 1. rewrite lower_char_not_upper.
    by rewrite (snake_pieces_fixed _ (snake_pieces_lower rest)).
Qed.

Example camel_to_snake_class_name :
  camel_to_snake "DaylightFactor" = Some "daylight-factor".
Proof. reflexivity. Qed.

Lemma startswith_before (q p rest : string) (c : ascii) :
  count_char c q = 0 ->
  PyStr.startswith q (p ++ String c rest) = true ->
  PyStr.startswith q p = true.
Proof.
  unfold PyStr.startswith. revert p. induction q as [|a q IH]; intros p Hq Hs.
  - by destruct p.
  - cbn [count_char] in Hq. destruct (Ascii.eqb a c) eqn:Hac; [done|].
    destruct p as [|b p].
    + rewrite str_app_nil_l in Hs. cbn [String.prefix] in Hs.
      destruct (ascii_dec a c) as [->|]; [|done]. by rewrite Ascii.eqb_refl in Hac.
    + rewrite str_app_cons in Hs. cbn [String.prefix] in Hs |- *.
      destruct (ascii_dec a b); [|done]. by apply IH.
Qed.

Lemma startswith_longer (q p rest : string) :
  PyStr.startswith q p = true -> PyStr.startswith q (p ++ rest) = true.
Proof.
  intros Hs. apply startswith_split in Hs as [r ->].
  rewrite str_app_assoc. apply startswith_app.
Qed.

(** The Python package of a DSL object is a dotted prefix of the module the
    object is defined in: the first segment of the module, or the first two
    for a module of the namespace "pollination".  It has a dot only in the
    second case, and then only one; and the Python package of a class defined
    in the package itself is that package. *)
Theorem python_package_prefix (self : DslObject) (cached : option string) :
  let package := _python_package self in
  (__module__ self = package
   \/ exists rest, __module__ self = package ++ "." ++ rest)
  /\ count_char "." package
     <= (if PyStr.startswith "pollination" (__module__ self) then 1 else 0)
  /\ _python_package {| __module__ := package; _cached_package := cached |} = package.
Proof.
  destruct self as [module cache]. unfold _python_package. cbn [__module__].
  pose proof (join_split "." module) as Hjoin.
  pose proof (split_pieces "." module) as Hpieces.
  pose proof (length_split "." module) as Hlen.
  destruct (PyStr.split "." module) as [|x l] eqn:Hsplit; [done|]. clear Hlen.
  apply Forall_cons in Hpieces as [Hx Hl].
  assert (module = x \/ exists rest, module = x ++ "." ++ rest) as Hfirst.
  { destruct l as [|y l]; [by left|]. right. rewrite <- Hjoin. by eexists. }
  destruct (PyStr.startswith "pollination" module) eqn:Hstart.
  - assert (PyStr.startswith "pollination" x = true) as Hstartx.
    { destruct Hfirst as [<-|[rest ->]]; [done|].
      by apply (startswith_before "pollination" x rest "."). }
    destruct l as [|y l].
    + cbn [firstn PyStr.join] in *. subst x. rewrite Hstart, Hsplit.
      split_and!; [by left|lia|done].
    + apply Forall_cons in Hl as [Hy Hl].
      assert (PyStr.join "." (firstn 2 (x :: y :: l)) = x ++ "." ++ y) as -> by done.
      assert (PyStr.startswith "pollination" (x ++ "." ++ y) = true) as ->
          by (by apply startswith_longer).
      assert (PyStr.split "." (x ++ "." ++ y) = [x; y]) as ->.
      { apply (split_join "." [x; y]); [done|]. by repeat constructor. }
      split_and!.
      * destruct l as [|z l]; [by left|]. right. exists (PyStr.join "." (z :: l)).
        rewrite <- Hjoin.
        change (PyStr.join "." (x :: y :: z :: l))
          with (x ++ "." ++ y ++ "." ++ PyStr.join "." (z :: l)).
        by rewrite !str_app_assoc.
      * rewrite !count_char_app, Hx, Hy. cbn. lia.
      * done.
  - cbn [hd].
    assert (PyStr.startswith "pollination" x = false) as Hstartx.
    { destruct (PyStr.startswith "pollination" x) eqn:E; [|done].
      destruct Hfirst as [<-|[rest ->]]; [congruence|].
      by rewrite (startswith_longer _ _ _ E) in Hstart. }
    rewrite Hstartx, (split_no_char "." x (no_occurrence _ _ Hx)).
    split_and!; [done|lia|done].
Qed.

(** ** The metadata of a package: what is declared and what is installed *)

Section Metadata.
Context `{qb : Queenbee} (h : Host).

Lemma update_info_at (d : gmap string PyVal) (k : string) (v : PyData) :
  update_info d (k, v) !! k
  = match v with
    | DNone => d !! k
    | _ => if String.eqb k "name" && bool_decide (is_Some (d !! k))
           then d !! k else Some (VData v)
    end.
Proof.
  unfold update_info. cbn [fst snd].
  destruct v; try done; (destruct (_ && _); [done|by rewrite lookup_insert_eq]).
Qed.

Lemma fold_update_info_at (items : list (string * PyData)) (d : gmap string PyVal)
    (k : string) (v : PyData) :
  NoDup (List.map fst items) ->
  (k, v) ∈ items ->
  fold_left update_info items d !! k = update_info d (k, v) !! k.
Proof.
  revert d. induction items as [|kv items IH]; intros d Hnd Hin.
  - by apply elem_of_nil in Hin.
  - cbn [List.map] in Hnd. apply NoDup_cons in Hnd as [Hk Hnd]. cbn [fold_left].
    apply elem_of_cons in Hin as [<-|Hin].
    + by apply fold_update_info_other.
    + rewrite (IH _ Hnd Hin), !update_info_at.
      assert (fst kv <> k) as Hne.
      { intros <-. apply Hk. apply list_elem_of_In.
        apply (in_map fst _ (fst kv, v)). by apply list_elem_of_In. }
      by rewrite (update_info_other d kv k Hne).
Qed.

Lemma package_data_keys_NoDup : NoDup package_data_keys.
Proof. apply (bool_decide_unpack _). by vm_compute. Qed.

Lemma _get_meta_data_updated module package_type w metadata w' :
  _get_meta_data h module package_type w = (Ok metadata, w') ->
  exists qb_info package_data,
    sys_modules w !! module = Some (Some qb_info)
    /\ _get_package_data h module = Ok package_data
    /\ meta_info metadata
       = fold_left update_info package_data
           (delete (if String.eqb package_type "plugin" then "config" else "entry_point")
                   qb_info).
Proof.
  unfold _get_meta_data. intros Hm.
  set (key := if String.eqb package_type "plugin" then "config" else "entry_point") in *.
  apply bind_ok_inv in Hm as (qb_info & w1 & Hq & Hm).
  apply get_pollination_inv in Hq as [Hq ->].
  apply bind_ok_inv in Hm as (package_data & w2 & Hd & Hm).
  apply lift_ok_inv in Hd as [Hd ->].
  apply bind_ok_inv in Hm as (popped & w3 & Hp & Hm).
  apply lift_ok_inv in Hp as [Hp ->].
  unfold dict_pop in Hp.
  destruct (qb_info !! key) as [v|] eqn:Hkey; [|done]. injection Hp as <-.
  apply bind_ok_inv in Hm as ([] & w4 & H4 & Hm). injection H4 as <-.
  apply bind_ok_inv in Hm as ([] & w5 & H5 & Hm). injection H5 as <-.
  apply lift_ok_inv in Hm as [Hm ->].
  unfold MetaData_parse_obj in Hm. apply checked_inv in Hm as [-> _].
  by exists qb_info, package_data.
Qed.

(** Which value the metadata of a package gets for a key of the package
    data.  A name declared in [__pollination__] wins over the name of the
    installed package; for every other key the value of the installed
    package wins over a declared one, unless that value is [None], in which
    case the declared value, if any, stays. *)
Theorem meta_data_precedence module package_type w metadata w' :
  _get_meta_data h module package_type w = (Ok metadata, w') ->
  exists qb_info package_data,
    sys_modules w !! module = Some (Some qb_info)
    /\ _get_package_data h module = Ok package_data
    /\ (forall declared,
          qb_info !! "name" = Some declared ->
          meta_info metadata !! "name" = Some declared)
    /\ (forall k v,
          (k, v) ∈ package_data ->
          v <> DNone ->
          k <> "name" \/ qb_info !! "name" = None ->
          meta_info metadata !! k = Some (VData v))
    /\ (forall k,
          (k, DNone) ∈ package_data ->
          meta_info metadata !! k = qb_info !! k).
Proof.
  intros Hm.
  apply _get_meta_data_updated in Hm as (qb_info & package_data & Hq & Hd & ->).
  set (key := if String.eqb package_type "plugin" then "config" else "entry_point").
  pose proof (_get_package_data_keys h _ _ Hd) as Hkeys.
  assert (NoDup (List.map fst package_data)) as Hnd
      by (rewrite Hkeys; apply package_data_keys_NoDup).
  assert (forall k v, (k, v) ∈ package_data -> delete key qb_info !! k = qb_info !! k)
    as Hkept.
  { intros k v Hin. apply lookup_delete_ne. intros <-.
    assert (key ∈ package_data_keys) as Hkey.
    { rewrite <- Hkeys. apply list_elem_of_In.
      apply (in_map fst _ (key, v)). by apply list_elem_of_In. }
    unfold key in Hkey. destruct (String.eqb package_type "plugin").
    - by apply config_not_data_key.
    - by apply entry_point_not_data_key. }
  exists qb_info, package_data. split_and!; try done.
  - intros declared Hname.
    assert (exists v, ("name", v) ∈ package_data) as [v Hin].
    { assert (In "name" (List.map fst package_data)) as Hi
          by (rewrite Hkeys; by left).
      apply in_map_iff in Hi as ([k v] & Hk & Hi). cbn in Hk. subst k.
      exists v. by apply list_elem_of_In. }
    rewrite (fold_update_info_at _ _ _ _ Hnd Hin), update_info_at.
    rewrite (Hkept _ _ Hin), Hname.
    destruct v; try done; by rewrite bool_decide_true by eauto.
  - intros k v Hin Hv Hk.
    rewrite (fold_update_info_at _ _ _ _ Hnd Hin), update_info_at.
    rewrite (Hkept _ _ Hin).
    assert (String.eqb k "name" && bool_decide (is_Some (qb_info !! k)) = false) as Hno.
    { destruct Hk as [Hk|Hk].
      - apply String.eqb_neq in Hk. by rewrite Hk.
      - destruct (String.eqb k "name") eqn:E; [|done].
        apply String.eqb_eq in E as ->. rewrite Hk.
        by rewrite bool_decide_false by (by intros [? ?]). }
    rewrite Hno. by destruct v.
  - intros k Hin.
    rewrite (fold_update_info_at _ _ _ _ Hnd Hin), update_info_at.
    by apply (Hkept _ _ Hin).
Qed.

End Metadata.

Lemma meta_data_precedence_witness :
  let declared := <["name" := VData (DStr "forecast")]> plugin_info in
  exists metadata w',
    @_get_meta_data qb_accepting sample_host "weather_plugin" "plugin"
      (imported "weather_plugin" declared) = (Ok metadata, w')
    /\ meta_info metadata !! "name" = Some (VData (DStr "forecast"))
    /\ meta_info metadata !! "tag" = Some (VData (DStr "1.2.2")).
Proof.
  intros declared.
  assert (gives (fun _ => true)
            (@_get_meta_data qb_accepting sample_host "weather_plugin" "plugin"
               (imported "weather_plugin" declared)) = true) as Hgives
      by (vm_compute; reflexivity).
  destruct (@_get_meta_data qb_accepting sample_host "weather_plugin" "plugin"
              (imported "weather_plugin" declared)) as [[metadata|e] w'] eqn:Hm;
    [clear Hgives|discriminate Hgives].
  destruct (@meta_data_precedence qb_accepting sample_host "weather_plugin" "plugin"
              (imported "weather_plugin" declared) metadata w' Hm)
    as (qb_info & package_data & Hq & Hd & Hname & Hother & _).
  assert (sys_modules (imported "weather_plugin" declared) !! "weather_plugin"
          = Some (Some declared)) as Hq' by (vm_compute; reflexivity).
  rewrite Hq' in Hq. injection Hq as <-.
  assert (declared !! "name" = Some (VData (DStr "forecast"))) as Hdeclared
      by (vm_compute; reflexivity).
  assert (exists rest, package_data = ("name", DStr "weather-plugin") :: ("description", DNone)
                                      :: ("home", DNone) :: ("tag", DStr "1.2.2") :: rest)
    as [rest ->].
  { assert (_get_package_data sample_host "weather_plugin"
            = Ok [ ("name", DStr "weather-plugin"); ("description", DNone);
                   ("home", DNone); ("tag", DStr "1.2.2"); ("keywords", DNone);
                   ("maintainers", DList []);
                   ("license", DDict [("name", DNone); ("url", DNone)]);
                   ("icon", DStr "https://example.com/icon.png") ]) as Hd'
        by (vm_compute; reflexivity).
    rewrite Hd' in Hd. injection Hd as <-. by eexists. }
  exists metadata, w'. split_and!; [reflexivity|exact (Hname _ Hdeclared)|].
  apply (Hother "tag" (DStr "1.2.2")); [|discriminate|left; discriminate].
  apply list_elem_of_In. do 3 right. by left.
Defined.

(** ** Loading and the file system *)

Section Files.
Context `{qb : Queenbee} (h : Host).

Local Abbreviation repo := (repository_path h).
Local Abbreviation index_file := (repository_path h // "index.json").

Lemma leaves_lift {A} (r : Result A) : leaves_files (lift r).
Proof. by intros w r' w' [= _ <-]. Qed.

Lemma leaves_bind {A B} (m : M A) (k : A -> M B) :
  leaves_files m -> (forall a, leaves_files (k a)) -> leaves_files (m ≫= k).
Proof.
  intros Hm Hk w r w'. unfold mbind, M_bind.
  destruct (m w) as [[a|e] w1] eqn:E.
  - intros Hka. rewrite <- (Hm _ _ _ E). by apply (Hk a w1 r w').
  - intros [= _ <-]. by apply (Hm _ _ _ E).
Qed.

Lemma leaves_try_catch {A} (m : M A) (handler : Exn -> M A) :
  leaves_files m -> (forall e, leaves_files (handler e)) ->
  leaves_files (try_catch m handler).
Proof.
  intros Hm Hk w r w'. unfold try_catch.
  destruct (m w) as [[a|e] w1] eqn:E.
  - intros [= _ <-]. by apply (Hm _ _ _ E).
  - intros Hka. rewrite <- (Hm _ _ _ E). by apply (Hk e w1 r w').
Qed.

Lemma leaves_get_pollination module : leaves_files (get_pollination module).
Proof.
  intros w r w'. unfold get_pollination.
  destruct (sys_modules w !! module) as [[d|]|]; by intros [= _ <-].
Qed.

Lemma leaves_set_pollination module d : leaves_files (set_pollination module d).
Proof. by intros w r w' [= _ <-]. Qed.

Lemma leaves_importlib name : leaves_files (importlib_import_module h name).
Proof.
  intros w r w'. unfold importlib_import_module.
  destruct (sys_modules w !! name); [by intros [= _ <-]|].
  destruct (installed h name); by intros [= _ <-].
Qed.

Lemma leaves_import_module name : leaves_files (import_module h name).
Proof.
  unfold import_module. apply leaves_try_catch; [apply leaves_importlib|].
  intros e1. case_match; [apply leaves_lift|].
  apply leaves_try_catch; [apply leaves_importlib|]. intros e2. apply leaves_lift.
Qed.

Lemma leaves__get_meta_data module package_type :
  leaves_files (_get_meta_data h module package_type).
Proof.
  unfold _get_meta_data.
  apply leaves_bind; [apply leaves_get_pollination|]; intros qb_info.
  apply leaves_bind; [apply leaves_lift|]; intros package_data.
  apply leaves_bind; [apply leaves_lift|]; intros popped.
  apply leaves_bind; [apply leaves_set_pollination|]; intros _.
  apply leaves_bind; [apply leaves_set_pollination|]; intros _.
  apply leaves_lift.
Qed.

Lemma leaves__load_plugin module : leaves_files (_load_plugin h module).
Proof.
  unfold _load_plugin.
  apply leaves_bind; [apply leaves_get_pollination|]; intros qb_info.
  apply leaves_bind; [apply leaves_lift|]; intros config_value.
  apply leaves_bind; [apply leaves_lift|]; intros config.
  apply leaves_bind; [apply leaves__get_meta_data|]; intros metadata.
  apply leaves_bind; [apply leaves_lift|]; intros functions.
  apply leaves_lift.
Qed.

(** A run of [load] that returns has imported the module, found its
    dictionary and taken the branch of the package type. *)
Lemma load_ok_inv package_name baked w obj w' :
  load h package_name baked w = (Ok obj, w') ->
  exists module w0 qb_info,
    import_module h package_name w = (Ok module, w0)
    /\ sys_modules w0 !! module = Some (Some qb_info)
    /\ ((is_Some (qb_info !! "config")
         /\ exists plugin,
              _load_plugin h module w0 = (Ok plugin, w') /\ obj = IsPlugin plugin)
        \/ (qb_info !! "config" = None
            /\ _load_recipe h module baked w0 = (Ok obj, w'))).
Proof.
  unfold load. intros Hl.
  apply bind_ok_inv in Hl as (module & w0 & Himp & Hl).
  apply bind_ok_inv in Hl as (qb_info & w1 & Hq & Hl).
  unfold try_catch in Hq.
  destruct (get_pollination module w0) as [[d|e] w1'] eqn:Hg; [|done].
  injection Hq as -> ->. apply get_pollination_inv in Hg as [Hq ->].
  exists module, w0, qb_info. split_and!; try done.
  case_bool_decide as Hconfig.
  - left. split; [done|]. unfold fmap, M_fmap in Hl.
    destruct (_load_plugin h module w0) as [[plugin|e] w2] eqn:Hp; [|done].
    injection Hl as <- <-. by exists plugin.
  - right. split; [|done].
    destruct (qb_info !! "config") eqn:E; [|done]. destruct Hconfig. eauto.
Qed.

(** Loading a plugin package does not touch the file system: no repository
    is set up for it.  And the [baked] flag has no effect on it: with
    either value [load] returns the same plugin and leaves the same state. *)
Theorem load_plugin_leaves_files package_name baked w plugin w' :
  load h package_name baked w = (Ok (IsPlugin plugin), w') ->
  fs w' = fs w
  /\ forall baked', load h package_name baked' w = (Ok (IsPlugin plugin), w').
Proof.
  intros Hl.
  apply load_ok_inv in Hl
    as (module & w0 & qb_info & Himp & Hq & [[Hc (p & Hp & Ho)]|[Hc Hr]]).
  - injection Ho as <-. split.
    + rewrite (leaves__load_plugin _ _ _ _ Hp). by apply (leaves_import_module _ _ _ _ Himp).
    + intros baked'. unfold load, mbind, M_bind. rewrite Himp.
      unfold try_catch. rewrite (get_pollination_present _ _ _ Hq).
      rewrite bool_decide_true by done. unfold fmap, M_fmap. by rewrite Hp.
  - apply _load_recipe_modules in Hr as (? & ? & _ & _ & _ & _ & Hno).
    by destruct (Hno plugin).
Qed.

(** What a run of [_load_recipe] that returns has done to the file system:
    it has set up the repository, and nothing else. *)
Lemma _load_recipe_files module baked w obj w' :
  _load_recipe h module baked w = (Ok obj, w') ->
  exists w4, fs w4 = fs w /\ _init_repo h w4 = (Ok repo, w').
Proof.
  unfold _load_recipe. intros Hl.
  apply bind_ok_inv in Hl as (qb_info & w1 & Hq & Hl).
  apply get_pollination_inv in Hq as [Hq ->].
  apply bind_ok_inv in Hl as (called & w2 & Hc & Hl).
  apply lift_ok_inv in Hc as [_ ->].
  apply bind_ok_inv in Hl as (main_dag & w3 & Hm & Hl).
  apply lift_ok_inv in Hm as [_ ->].
  apply bind_ok_inv in Hl as (metadata & w4 & Hm & Hl).
  apply leaves__get_meta_data in Hm.
  apply bind_ok_inv in Hl as (repo' & w5 & Hi & Hl).
  assert (repo' = repo) as -> by (by apply _init_repo_inv in Hi as [? _]).
  apply bind_ok_inv in Hl as (plugins & w6 & Hp & Hl).
  apply lift_ok_inv in Hp as [_ ->].
  apply bind_ok_inv in Hl as (recipes & w7 & Hr & Hl).
  apply lift_ok_inv in Hr as [_ ->].
  apply bind_ok_inv in Hl as (recipe & w8 & Hk & Hl).
  apply lift_ok_inv in Hk as [_ ->].
  assert (w' = w5) as ->.
  { destruct baked.
    - unfold fmap, M_fmap, lift in Hl.
      destruct (BakedRecipe_from_recipe _ _); by simplify_eq.
    - by injection Hl as _ <-. }
  by exists w4.
Qed.

(** Loading a recipe package sets up the local repository as a side effect:
    after a [load] that returns a recipe, the repository folder, both stores
    and the index file are in place, and no file other than the index file
    was added, removed or changed.  The object is a baked recipe exactly
    when [baked] was set. *)
Theorem load_recipe_sets_up_repository package_name baked w obj w' :
  load h package_name baked w = (Ok obj, w') ->
  (forall plugin, obj <> IsPlugin plugin) ->
  initialised h (fs w')
  /\ (forall q c, q <> index_file ->
        node_at (fs w') q = Some (File c) <-> node_at (fs w) q = Some (File c))
  /\ (forall node, fs w !! index_file = Some node -> fs w' !! index_file = Some node)
  /\ match obj with
     | IsBakedRecipe _ => baked = true
     | _ => baked = false
     end.
Proof.
  intros Hl Hobj.
  apply load_ok_inv in Hl
    as (module & w0 & qb_info & Himp & Hq & [[Hc (p & Hp & Ho)]|[Hc Hr]]).
  { by destruct (Hobj p). }
  apply (leaves_import_module _ _ _ _) in Himp.
  pose proof (_load_recipe_files _ _ _ _ _ Hr) as (w4 & H4 & Hinit).
  apply _init_repo_effect in Hinit
    as (_ & Hrepo & Hplug & Hrec & Hidx & Hkeep & _ & Hfiles & _).
  rewrite H4, Himp in Hkeep, Hfiles. split_and!; try done.
  apply _load_recipe_inv in Hr as (? & ? & ? & ? & ? & ? & _ & _ & _ & _ & _ & _ & Ho).
  destruct baked; [by destruct Ho as (b & ? & _ & ->)|by subst obj].
Qed.

Lemma mapR_Forall2 {A B} (f : A -> Result B) (l : list A) (l' : list B) :
  mapR f l = Ok l' -> Forall2 (fun x y => f x = Ok y) l l'.
Proof.
  revert l'. induction l as [|x l IH]; intros l'; cbn [mapR].
  - intros [= <-]. constructor.
  - destruct (f x) as [y|e] eqn:Hx; [|done]. cbn [mbind Result_bind].
    destruct (mapR f l) as [ys|e]; [|done]. cbn [mbind Result_bind].
    intros [= <-]. constructor; [done|by apply IH].
Qed.

Lemma str_field_inv (d : gmap string PyData) (key s : string) :
  str_field d key = Ok s -> d !! key = Some (DStr s).
Proof.
  unfold str_field, getitem. destruct (d !! key) as [[]|]; try done.
  cbn [mbind Result_bind]. by intros [= ->].
Qed.

Lemma make_dependency_inv k source_uri package d :
  make_dependency k source_uri package = Ok d ->
  kind d = k /\ source d = source_uri
  /\ package !! "name" = Some (DStr (name d))
  /\ package !! "tag" = Some (DStr (tag d)).
Proof.
  unfold make_dependency.
  destruct (str_field package "name") as [n|] eqn:Hn; [|done]. cbn [mbind Result_bind].
  destruct (str_field package "tag") as [t|] eqn:Ht; [|done]. cbn [mbind Result_bind].
  intros [= <-]. cbn. by rewrite (str_field_inv _ _ _ Hn), (str_field_inv _ _ _ Ht).
Qed.

Lemma uri_is_not_posix_url (p : Path) : as_uri p <> "file:///" ++ as_posix p.
Proof.
  intros Heq. apply (f_equal String.length) in Heq.
  unfold as_uri in Heq. rewrite !str_length_app in Heq. cbn in Heq. lia.
Qed.

Lemma Forall2_elem_of_r {A B} (R : A -> B -> Prop) (l : list A) (k : list B) :
  Forall2 R l k -> forall y, y ∈ k -> exists x, x ∈ l /\ R x y.
Proof.
  induction 1 as [|x y l k Hxy _ IH]; intros z Hz.
  - by apply elem_of_nil in Hz.
  - apply elem_of_cons in Hz as [->|Hz].
    + exists x. split; [apply elem_of_cons; by left|done].
    + destruct (IH z Hz) as (x' & Hx' & HR). exists x'.
      split; [apply elem_of_cons; by right|done].
Qed.

Lemma Forall2_elem_of_l {A B} (R : A -> B -> Prop) (l : list A) (k : list B) :
  Forall2 R l k -> forall x, x ∈ l -> exists y, y ∈ k /\ R x y.
Proof.
  induction 1 as [|x y l k Hxy _ IH]; intros z Hz.
  - by apply elem_of_nil in Hz.
  - apply elem_of_cons in Hz as [->|Hz].
    + exists y. split; [apply elem_of_cons; by left|done].
    + destruct (IH z Hz) as (y' & Hy' & HR). exists y'.
      split; [apply elem_of_cons; by right|done].
Qed.

(** The dependencies that [_load_recipe] hands to the [Recipe] constructor
    of Queenbee are made from the dependency lists of the entry graph: every
    entry of the plugin list and of the recipe list gives a dependency of
    its kind with its name and its tag, every dependency comes from such an
    entry, and there are as many dependencies as entries.  Every dependency
    has the URI of the local repository as its source.  A baked recipe is
    baked with one repository reference, "pollination-dsl", whose path is
    "file:///" followed by the POSIX path of the repository, which is not
    the URI the dependencies carry.  The URI is the one of [Path.as_uri] for
    a home directory whose segments need no percent-encoding. *)
Theorem recipe_dependencies_local module baked w obj w' :
  plain_path (home h) = true ->
  _load_recipe h module baked w = (Ok obj, w') ->
  exists qb_info entry main_dag recipe,
    let entries :=
      (List.map (pair kind_plugin) (deps_plugin main_dag)
       ++ List.map (pair kind_recipe) (deps_recipe main_dag))%list in
    sys_modules w !! module = Some (Some qb_info)
    /\ qb_info !! "entry_point" = Some entry
    /\ call entry = Ok (Some main_dag)
    /\ Recipe_check recipe = None
    /\ (forall d, d ∈ dependencies recipe ->
          exists info, info ∈ entries /\ dependency_of (as_uri repo) info d)
    /\ (forall info, info ∈ entries ->
          exists d, d ∈ dependencies recipe /\ dependency_of (as_uri repo) info d)
    /\ length (dependencies recipe) = length entries
    /\ (if baked
        then exists b,
               BakedRecipe_from_recipe recipe
                 {| repositories :=
                      [ {| ref_name := "pollination-dsl";
                           ref_path := "file:///" ++ as_posix repo |} ] |} = Ok b
               /\ obj = IsBakedRecipe b
        else obj = IsRecipe recipe)
    /\ as_uri repo <> "file:///" ++ as_posix repo.
Proof.
  intros _. unfold _load_recipe. intros Hl.
  apply bind_ok_inv in Hl as (qb_info & w1 & Hq & Hl).
  apply get_pollination_inv in Hq as [Hq ->].
  apply bind_ok_inv in Hl as (called & w2 & Hc & Hl).
  apply lift_ok_inv in Hc as [Hc ->].
  apply bind_ok_inv in Hl as (main_dag & w3 & Hm & Hl).
  apply lift_ok_inv in Hm as [Hm ->].
  destruct called as [dag|]; [|done]. injection Hm as ->.
  destruct (qb_info !! "entry_point") as [entry|] eqn:He; [|done].
  cbn [default] in Hc.
  apply bind_ok_inv in Hl as (metadata & w4 & _ & Hl).
  apply bind_ok_inv in Hl as (repo' & w5 & Hi & Hl).
  apply _init_repo_inv in Hi as [-> _].
  apply bind_ok_inv in Hl as (plugins & w6 & Hp & Hl).
  apply lift_ok_inv in Hp as [Hp ->].
  apply bind_ok_inv in Hl as (recipes & w7 & Hr & Hl).
  apply lift_ok_inv in Hr as [Hr ->].
  apply bind_ok_inv in Hl as (recipe & w8 & Hk & Hl).
  apply lift_ok_inv in Hk as [Hk ->].
  apply checked_inv in Hk as [-> Hk].
  assert (Forall2 (dependency_of (as_uri repo))
            (List.map (pair kind_plugin) (deps_plugin main_dag)
             ++ List.map (pair kind_recipe) (deps_recipe main_dag))%list
            (plugins ++ recipes)%list) as Hdeps.
  { apply Forall2_app.
    + apply mapR_Forall2 in Hp. clear -Hp.
      induction Hp as [|x y l l' Hxy _ IH]; cbn [List.map]; constructor; [|done].
      by apply make_dependency_inv in Hxy as (? & ? & ? & ?).
    + apply mapR_Forall2 in Hr. clear -Hr.
      induction Hr as [|x y l l' Hxy _ IH]; cbn [List.map]; constructor; [|done].
      by apply make_dependency_inv in Hxy as (? & ? & ? & ?). }
  exists qb_info, entry, main_dag.
  exists {| metadata_of := metadata; dependencies := (plugins ++ recipes)%list;
            flow := rename "main" (queenbee main_dag)
                    :: List.map queenbee (deps_dag main_dag) |}.
  cbv zeta. cbn [dependencies]. split_and!.
  - exact Hq.
  - exact He.
  - exact Hc.
  - exact Hk.
  - by apply Forall2_elem_of_r.
  - by apply Forall2_elem_of_l.
  - symmetry. by apply (Forall2_length _ _ _ Hdeps).
  - destruct baked.
    + unfold fmap, M_fmap, lift in Hl.
      destruct (BakedRecipe_from_recipe _ _) as [b|e] eqn:Hb; [|done].
      injection Hl as <- <-. by exists b.
    + by injection Hl as <- <-.
  - apply uri_is_not_posix_url.
Qed.

Lemma write_file_not_dir p c f f' :
  write_file p c f = Ok f' -> node_at f p <> Some Dir.
Proof. unfold write_file. by destruct (node_at f p) as [[|c']|]. Qed.

(** A run of [package] that returns, with the two writes it made. *)
Lemma package_ok_writes package_name readme w w' :
  package h package_name readme w = (Ok tt, w') ->
  exists w1 qb_obj w2 plugin_version file_object f4,
    _init_repo h w = (Ok repo, w1)
    /\ load h package_name false w1 = (Ok qb_obj, w2)
    /\ write_file (repo // (qb_type_of qb_obj ++ "s") // url plugin_version)
                  file_object (fs w2) = Ok f4
    /\ write_file index_file
                  (RepositoryIndex_json (RepositoryIndex_from_folder repo f4) 2) f4
       = Ok (fs w').
Proof.
  intros Hp.
  destruct (_init_repo h w) as [[p|e] w1] eqn:Hinit.
  2: { unfold package, mbind, M_bind in Hp. by rewrite Hinit in Hp. }
  destruct (load h package_name false w1) as [[qb_obj|e] w2] eqn:Hload.
  2: { unfold package, mbind at 1, M_bind at 1 in Hp. rewrite Hinit in Hp.
       unfold mbind at 1, M_bind at 1 in Hp. by rewrite Hload in Hp. }
  rewrite (package_after_load h _ _ _ _ _ _ _ Hinit Hload) in Hp.
  assert (p = repo) as -> by (by apply _init_repo_inv in Hinit as [? _]).
  destruct (serialized h package_name qb_obj) as [[plugin_version file_object]|e]; [|done].
  destruct (write_file _ file_object (fs w2)) as [f4|e] eqn:H4; [|done].
  destruct (write_file index_file _ f4) as [f5|e] eqn:H5; [|done].
  injection Hp as <-. cbn [fs set_fs].
  by exists w1, qb_obj, w2, plugin_version, file_object, f4.
Qed.

(** [package] changes two files and nothing else: when it returns, every
    file other than the index file and the artifact, which is in the store
    of its type, is there as it was before, no file was removed and no
    directory either. *)
Theorem package_changes_two_files package_name readme w w' :
  package h package_name readme w = (Ok tt, w') ->
  exists store file_name,
    (store = "plugins" \/ store = "recipes")
    /\ (exists c, fs w' !! (repo // store // file_name) = Some (File c))
    /\ (forall q c,
          q <> index_file -> q <> repo // store // file_name ->
          node_at (fs w') q = Some (File c) <-> node_at (fs w) q = Some (File c))
    /\ (forall q c, node_at (fs w) q = Some (File c) -> exists c', node_at (fs w') q = Some (File c'))
    /\ (forall q, node_at (fs w) q = Some Dir -> node_at (fs w') q = Some Dir).
Proof.
  intros Hp.
  apply package_ok_writes in Hp
    as (w1 & qb_obj & w2 & plugin_version & file_object & f4 & Hinit & Hload & H4 & H5).
  pose proof (write_file_not_dir _ _ _ _ H4) as Hnd4.
  pose proof (write_file_not_dir _ _ _ _ H5) as Hnd5.
  apply write_file_ok in H4 as [Hne4 ->]. apply write_file_ok in H5 as [Hne5 Hfs].
  pose proof (_init_repo_inv h _ _ _ Hinit)
    as (_ & _ & _ & f3 & Hgrow & _ & _ & _ & _ & Hcase).
  pose proof (_init_repo_effect h _ _ _ Hinit)
    as (_ & Hrepo & Hplug & Hrec & Hidx & _ & _ & Hfiles & _).
  assert (fs w2 = fs w1) as Hsame by (by apply (keeps_load h _ _ _ _ _) in Hload).
  rewrite Hsame in *.
  set (artifact := repo // (qb_type_of qb_obj ++ "s") // url plugin_version) in *.
  assert (forall q, q <> index_file -> q <> artifact ->
                    node_at (fs w') q = node_at (fs w1) q) as Hother.
  { intros q Hq1 Hq2. rewrite Hfs, !node_at_insert by done. by rewrite !decide_False. }
  assert (forall q, node_at (fs w) q = Some Dir -> node_at (fs w1) q = Some Dir) as Hdirs.
  { intros q Hq. pose proof (grows_keeps _ _ _ _ Hgrow Hq) as Hq3.
    destruct Hcase as [[_ ->]|[Hno ->]]; [done|].
    rewrite node_at_insert by done. case_decide as Heq; [|done]. subst q.
    unfold path_exists in Hno. by rewrite Hq3 in Hno. }
  exists (qb_type_of qb_obj ++ "s"), (url plugin_version). split_and!.
  - destruct qb_obj; [by left|by right..].
  - exists file_object. rewrite Hfs. rewrite lookup_insert_ne.
    + apply lookup_insert_eq.
    + unfold child. intros Habs. apply (f_equal length) in Habs. simpl in Habs. lia.
  - intros q c Hq1 Hq2. rewrite (Hother q Hq1 Hq2). by apply Hfiles.
  - intros q c Hq.
    destruct (decide (q = index_file)) as [->|Hq1].
    { rewrite Hfs, node_at_insert by done. rewrite decide_True by done. by eexists. }
    destruct (decide (q = artifact)) as [->|Hq2].
    { rewrite Hfs, !node_at_insert by done. rewrite decide_False by done.
      rewrite decide_True by done. by eexists. }
    exists c. rewrite (Hother q Hq1 Hq2). by apply Hfiles.
  - intros q Hq. apply Hdirs in Hq.
    destruct (decide (q = index_file)) as [->|Hq1].
    { exfalso. apply Hnd5. rewrite node_at_insert by done.
      rewrite decide_False; [done|].
      unfold artifact, child. intros Habs. apply (f_equal length) in Habs.
      simpl in Habs. lia. }
    destruct (decide (q = artifact)) as [->|Hq2]; [by destruct Hnd4|].
    by rewrite (Hother q Hq1 Hq2).
Qed.

End Files.

Lemma load_plugin_leaves_files_witness :
  exists plugin w',
    @load qb_accepting sample_host "weather-plugin" true fresh_world
    = (Ok (IsPlugin plugin), w')
    /\ fs w' = fs fresh_world
    /\ forall baked',
         @load qb_accepting sample_host "weather-plugin" baked' fresh_world
         = (Ok (IsPlugin plugin), w').
Proof.
  assert (gives is_plugin (@load qb_accepting sample_host "weather-plugin" true fresh_world)
          = true) as Hgives by (vm_compute; reflexivity).
  destruct (@load qb_accepting sample_host "weather-plugin" true fresh_world)
    as [[[plugin|r|b]|e] w'] eqn:Hl; try discriminate Hgives. clear Hgives.
  exists plugin, w'. split; [reflexivity|].
  exact (@load_plugin_leaves_files qb_accepting sample_host "weather-plugin" true
           fresh_world plugin w' Hl).
Defined.

Lemma load_recipe_sets_up_repository_witness :
  exists b w',
    @load qb_accepting sample_host "daylight" true fresh_world = (Ok (IsBakedRecipe b), w')
    /\ initialised sample_host (fs w').
Proof.
  assert (gives is_baked (@load qb_accepting sample_host "daylight" true fresh_world)
          = true) as Hgives by (vm_compute; reflexivity).
  destruct (@load qb_accepting sample_host "daylight" true fresh_world)
    as [[[plugin|r|b]|e] w'] eqn:Hl; try discriminate Hgives. clear Hgives.
  exists b, w'. split; [reflexivity|].
  refine (proj1 (@load_recipe_sets_up_repository qb_accepting sample_host "daylight" true
                   fresh_world (IsBakedRecipe b) w' Hl _)).
  intros plugin. discriminate.
Defined.

Lemma recipe_dependencies_local_witness :
  exists obj w' recipe,
    @_load_recipe qb_accepting sample_host "daylight" false (imported "daylight" recipe_info)
    = (Ok obj, w')
    /\ obj = IsRecipe recipe
    /\ length (dependencies recipe) = 1
    /\ forall d, d ∈ dependencies recipe ->
         source d = as_uri (repository_path sample_host).
Proof.
  assert (gives (fun _ => true)
            (@_load_recipe qb_accepting sample_host "daylight" false
               (imported "daylight" recipe_info)) = true) as Hgives
      by (vm_compute; reflexivity).
  destruct (@_load_recipe qb_accepting sample_host "daylight" false
              (imported "daylight" recipe_info)) as [[obj|e] w'] eqn:Hl;
    [clear Hgives|discriminate Hgives].
  destruct (@recipe_dependencies_local qb_accepting sample_host "daylight" false
              (imported "daylight" recipe_info) obj w' eq_refl Hl)
    as (qb_info & entry & main_dag & recipe
        & Hq & He & Hc & _ & Hfrom & _ & Hlen & Hobj & _).
  assert (sys_modules (imported "daylight" recipe_info) !! "daylight"
          = Some (Some recipe_info)) as Hq' by (vm_compute; reflexivity).
  rewrite Hq' in Hq. injection Hq as <-.
  assert (recipe_info !! "entry_point"
          = Some (VCallable (Returns (Some (dsl_dag_of daylight_graph))))) as He'
      by (vm_compute; reflexivity).
  rewrite He' in He. injection He as <-.
  cbn [call] in Hc. injection Hc as <-.
  assert (length (List.map (pair kind_plugin) (deps_plugin (dsl_dag_of daylight_graph))
                  ++ List.map (pair kind_recipe)
                       (deps_recipe (dsl_dag_of daylight_graph)))%list = 1) as Hone
      by (vm_compute; reflexivity).
  exists obj, w', recipe. split_and!; [reflexivity|exact Hobj|by rewrite Hlen|].
  intros d Hd. destruct (Hfrom d Hd) as (info & _ & _ & _ & _ & Hsource). exact Hsource.
Defined.

Lemma package_changes_two_files_witness :
  exists w' c,
    @package qb_accepting sample_host "weather-plugin" None unindexed_world = (Ok tt, w')
    /\ node_at (fs w') (repository_path sample_host // "plugins" // "a-1.0.0.tgz")
       = Some (File c).
Proof.
  assert (gives (fun _ => true)
            (@package qb_accepting sample_host "weather-plugin" None unindexed_world)
          = true) as Hgives by (vm_compute; reflexivity).
  destruct (@package qb_accepting sample_host "weather-plugin" None unindexed_world)
    as [[[]|e] w'] eqn:Hp; [clear Hgives|discriminate Hgives].
  destruct (@package_changes_two_files qb_accepting sample_host "weather-plugin" None
              unindexed_world w' Hp)
    as (store & file_name & _ & _ & _ & Hkept & _).
  assert (node_at (fs unindexed_world)
                  (repository_path sample_host // "plugins" // "a-1.0.0.tgz")
          = Some (File "bytes")) as Hbefore by (vm_compute; reflexivity).
  destruct (Hkept _ _ Hbefore) as [c Hc].
  exists w', c. split; [reflexivity|exact Hc].
Defined.

(** ** The package information of a DSL object *)

Section PackageProperty.
Context (h : Host).

Local Abbreviation overwrite :=
  (fun (d : gmap string PyVal) (kv : string * PyData) => <[fst kv := VData (snd kv)]> d).

Lemma fold_overwrite_other (items : list (string * PyData)) (d : gmap string PyVal)
    (k : string) :
  k ∉ List.map fst items -> fold_left overwrite items d !! k = d !! k.
Proof.
  revert d. induction items as [|kv items IH]; intros d Hk; [done|].
  cbn [fold_left]. cbn [List.map] in Hk. apply not_elem_of_cons in Hk as [Hne Hk].
  rewrite (IH _ Hk). by apply lookup_insert_ne.
Qed.

Lemma fold_overwrite_at (items : list (string * PyData)) (d : gmap string PyVal)
    (k : string) (v : PyData) :
  NoDup (List.map fst items) ->
  (k, v) ∈ items ->
  fold_left overwrite items d !! k = Some (VData v).
Proof.
  revert d. induction items as [|kv items IH]; intros d Hnd Hin.
  - by apply elem_of_nil in Hin.
  - cbn [List.map] in Hnd. apply NoDup_cons in Hnd as [Hk Hnd]. cbn [fold_left].
    apply elem_of_cons in Hin as [<-|Hin]; [|by apply IH].
    rewrite fold_overwrite_other by done. apply lookup_insert_eq.
Qed.

(** The first read of [_package] imports the Python package of the object
    and writes every entry of the package data into the [__pollination__]
    dictionary of the module itself, also an entry that is [None] and also
    the name over a declared one; the other keys of the dictionary stay.
    The object then refers to that dictionary, and a second read returns it
    again without changing anything. *)
Theorem package_property_overwrites (self : DslObject) w module self' w' :
  cached_is_true (_cached_package self) w = false ->
  _package h self w = (Ok (module, self'), w') ->
  exists w0 pollination_data package_data updated,
    import_module h (_python_package self) w = (Ok module, w0)
    /\ sys_modules w0 !! module = Some (Some pollination_data)
    /\ _get_package_data h module = Ok package_data
    /\ sys_modules w' = <[module := Some updated]> (sys_modules w0)
    /\ (forall k v, (k, v) ∈ package_data -> updated !! k = Some (VData v))
    /\ (forall k, k ∉ package_data_keys -> updated !! k = pollination_data !! k)
    /\ self' = {| __module__ := __module__ self; _cached_package := Some module |}
    /\ _package h self' w' = (Ok (module, self'), w').
Proof.
  intros Hcache Hp. unfold _package in Hp.
  unfold mbind at 1, M_bind at 1, gets in Hp. rewrite Hcache in Hp.
  destruct (import_module h (_python_package self) w) as [[m|e] w0] eqn:Himp.
  2: { unfold mbind, M_bind in Hp. by rewrite Himp in Hp. }
  unfold mbind at 1, M_bind at 1 in Hp. rewrite Himp in Hp.
  unfold mbind at 1, M_bind at 1, try_catch in Hp.
  destruct (get_pollination m w0) as [[pollination_data|e] w1] eqn:Hg; [|done].
  apply get_pollination_inv in Hg as [Hq ->].
  unfold mbind at 1, M_bind at 1, lift in Hp.
  destruct (_get_package_data h m) as [package_data|e] eqn:Hd; [|done].
  unfold mbind, M_bind, set_pollination, mret, M_ret in Hp.
  injection Hp as <- <- <-.
  pose proof (_get_package_data_keys h _ _ Hd) as Hkeys.
  assert (NoDup (List.map fst package_data)) as Hnd
      by (rewrite Hkeys; apply package_data_keys_NoDup).
  set (updated := fold_left overwrite package_data pollination_data).
  exists w0, pollination_data, package_data, updated. split_and!; try done.
  - intros k v Hin. by apply fold_overwrite_at.
  - intros k Hk. apply fold_overwrite_other. by rewrite Hkeys.
  - unfold _package, mbind at 1, M_bind at 1, gets.
    assert (updated <> ∅) as Hne.
    { intros Hempty.
      assert (is_Some (updated !! "name")) as [x Hx].
      { assert (In "name" (List.map fst package_data)) as Hi
            by (rewrite Hkeys; by left).
        apply in_map_iff in Hi as ([k v] & Hk & Hi). cbn in Hk. subst k.
        exists (VData v). apply fold_overwrite_at; [done|by apply list_elem_of_In]. }
      by rewrite Hempty, lookup_empty in Hx. }
    unfold cached_is_true. cbn [_cached_package sys_modules set_sys_modules].
    rewrite lookup_insert_eq. by rewrite bool_decide_false.
Qed.

End PackageProperty.

Lemma package_property_overwrites_witness :
  let self := {| __module__ := "weather_plugin.forecast"; _cached_package := None |} in
  let declared := <["name" := VData (DStr "forecast")]> plugin_info in
  exists module self' w' updated,
    _package sample_host self (imported "weather_plugin" declared)
    = (Ok (module, self'), w')
    /\ sys_modules w' !! module = Some (Some updated)
    /\ updated !! "name" = Some (VData (DStr "weather-plugin"))
    /\ updated !! "description" = Some (VData DNone).
Proof.
  intros self declared.
  assert (gives (fun _ => true)
            (_package sample_host self (imported "weather_plugin" declared)) = true)
    as Hgives by (vm_compute; reflexivity).
  destruct (_package sample_host self (imported "weather_plugin" declared))
    as [[[module self']|e] w'] eqn:Hp; [clear Hgives|discriminate Hgives].
  destruct (package_property_overwrites sample_host self
              (imported "weather_plugin" declared) module self' w' eq_refl Hp)
    as (w0 & pollination_data & package_data & updated
        & Himp & Hq & Hd & Hs & Hdata & _).
  assert (import_module sample_host (_python_package self)
            (imported "weather_plugin" declared)
          = (Ok "weather_plugin", imported "weather_plugin" declared)) as Himp'
      by (vm_compute; reflexivity).
  rewrite Himp' in Himp. injection Himp as <- <-.
  assert (_get_package_data sample_host "weather_plugin"
          = Ok [ ("name", DStr "weather-plugin"); ("description", DNone);
                 ("home", DNone); ("tag", DStr "1.2.2"); ("keywords", DNone);
                 ("maintainers", DList []);
                 ("license", DDict [("name", DNone); ("url", DNone)]);
                 ("icon", DStr "https://example.com/icon.png") ]) as Hd'
      by (vm_compute; reflexivity).
  rewrite Hd' in Hd. injection Hd as <-.
  exists "weather_plugin", self', w', updated. split_and!.
  - reflexivity.
  - rewrite Hs. apply lookup_insert_eq.
  - apply Hdata. apply list_elem_of_In. by left.
  - apply Hdata. apply list_elem_of_In. right. by left.
Defined.

(** ** Failures that leave their mark *)

Section Failures.
Context `{qb : Queenbee} (h : Host).

Local Abbreviation repo := (repository_path h).

(** When the metadata of a package is rejected by the validation of
    Queenbee, the key of the package type has been popped from the
    [__pollination__] dictionary of the module all the same, and the package
    data has been written into it.  A second call therefore does not get to
    the validation again: it raises a [KeyError] for the popped key. *)
Theorem meta_data_failure_consumes_key module package_type w qb_info package_data e w' :
  let key := if String.eqb package_type "plugin" then "config" else "entry_point" in
  sys_modules w !! module = Some (Some qb_info) ->
  is_Some (qb_info !! key) ->
  _get_package_data h module = Ok package_data ->
  _get_meta_data h module package_type w = (Raise e, w') ->
  let updated := fold_left update_info package_data (delete key qb_info) in
  MetaData_check updated = Some e
  /\ sys_modules w' !! module = Some (Some updated)
  /\ updated !! key = None
  /\ _get_meta_data h module package_type w' = (raise KeyError ("'" ++ key ++ "'"), w').
Proof.
  intros key Hq [v Hkey] Hd Hm updated.
  assert (updated !! key = None) as Hgone.
  { unfold updated. rewrite fold_update_info_other; [apply lookup_delete_eq|].
    rewrite (_get_package_data_keys h _ _ Hd). unfold key.
    destruct (String.eqb package_type "plugin");
      [apply config_not_data_key|apply entry_point_not_data_key]. }
  unfold _get_meta_data in Hm. fold key in Hm.
  unfold mbind at 1, M_bind at 1 in Hm. rewrite (get_pollination_present _ _ _ Hq) in Hm.
  unfold mbind at 1, M_bind at 1, lift in Hm. rewrite Hd in Hm.
  unfold mbind at 1, M_bind at 1, dict_pop in Hm. rewrite Hkey in Hm.
  unfold mbind, M_bind, set_pollination, lift, MetaData_parse_obj, checked in Hm.
  cbn [sys_modules set_sys_modules meta_info] in Hm. fold updated in Hm.
  destruct (MetaData_check updated) as [e'|] eqn:Hcheck; [|done].
  injection Hm as <- <-. split_and!; try done.
  - cbn [sys_modules set_sys_modules]. apply lookup_insert_eq.
  - unfold _get_meta_data. fold key.
    unfold mbind at 1, M_bind at 1.
    rewrite (get_pollination_present _ _ updated)
      by (cbn [sys_modules set_sys_modules]; apply lookup_insert_eq).
    unfold mbind at 1, M_bind at 1, lift. rewrite Hd.
    unfold mbind at 1, M_bind at 1, dict_pop. by rewrite Hgone.
Qed.

(** An error of [load] leaves [package] as it is: only a failure of the
    serialization is wrapped in a [ValueError].  The repository that was set
    up at the start of the call stays, also for a package that cannot be
    loaded. *)
Theorem package_load_failure_propagates package_name readme w p w1 e w2 :
  _init_repo h w = (Ok p, w1) ->
  load h package_name false w1 = (Raise e, w2) ->
  package h package_name readme w = (Raise e, w2)
  /\ fs w2 = fs w1
  /\ initialised h (fs w2).
Proof.
  intros Hinit Hload.
  pose proof (_init_repo_effect h _ _ _ Hinit)
    as (_ & Hrepo & Hplug & Hrec & Hidx & _).
  assert (initialised h (fs w1)) as Hset by done.
  assert (fs w2 = fs w1) as Hsame by (by apply (keeps_load h _ _ _ _ _ Hset) in Hload).
  split_and!; [|done|by rewrite Hsame].
  unfold package, mbind at 1, M_bind at 1. rewrite Hinit.
  unfold mbind at 1, M_bind at 1. by rewrite Hload.
Qed.

End Failures.

Lemma meta_data_failure_consumes_key_witness :
  exists e w',
    @_get_meta_data qb_strict sample_host "weather_plugin" "plugin"
      (imported "weather_plugin" plugin_info) = (Raise e, w')
    /\ @_get_meta_data qb_strict sample_host "weather_plugin" "plugin" w'
       = (raise KeyError "'config'", w').
Proof.
  assert (gives (fun _ => true)
            (@_get_meta_data qb_strict sample_host "weather_plugin" "plugin"
               (imported "weather_plugin" plugin_info)) = false) as Hgives
      by (vm_compute; reflexivity).
  destruct (@_get_meta_data qb_strict sample_host "weather_plugin" "plugin"
              (imported "weather_plugin" plugin_info)) as [[metadata|e] w'] eqn:Hm;
    [discriminate Hgives|clear Hgives].
  assert (sys_modules (imported "weather_plugin" plugin_info) !! "weather_plugin"
          = Some (Some plugin_info)) as Hq by (vm_compute; reflexivity).
  assert (is_Some (plugin_info !! "config")) as Hconfig
      by (eexists; vm_compute; reflexivity).
  assert (_get_package_data sample_host "weather_plugin"
          = Ok [ ("name", DStr "weather-plugin"); ("description", DNone);
                 ("home", DNone); ("tag", DStr "1.2.2"); ("keywords", DNone);
                 ("maintainers", DList []);
                 ("license", DDict [("name", DNone); ("url", DNone)]);
                 ("icon", DStr "https://example.com/icon.png") ]) as Hd
      by (vm_compute; reflexivity).
  destruct (@meta_data_failure_consumes_key qb_strict sample_host "weather_plugin"
              "plugin" _ _ _ e w' Hq Hconfig Hd Hm) as (_ & _ & _ & Hagain).
  exists e, w'. split; [reflexivity|exact Hagain].
Defined.

Lemma package_load_failure_propagates_witness :
  exists e w2,
    @package qb_accepting sample_host "no-such-package" None fresh_world = (Raise e, w2)
    /\ initialised sample_host (fs w2).
Proof.
  assert (gives (fun _ => true) (@_init_repo qb_accepting sample_host fresh_world) = true)
    as Hgives by (vm_compute; reflexivity).
  destruct (@_init_repo qb_accepting sample_host fresh_world) as [[p|e0] w1] eqn:Hinit;
    [clear Hgives|discriminate Hgives].
  assert (gives (fun _ => true)
            (@load qb_accepting sample_host "no-such-package" false w1) = false) as Hgives.
  { assert (w1 = snd (@_init_repo qb_accepting sample_host fresh_world)) as ->
        by (by rewrite Hinit).
    vm_compute; reflexivity. }
  destruct (@load qb_accepting sample_host "no-such-package" false w1)
    as [[obj|e] w2] eqn:Hload; [discriminate Hgives|clear Hgives].
  destruct (@package_load_failure_propagates qb_accepting sample_host "no-such-package"
              None fresh_world p w1 e w2 Hinit Hload) as (Hp & _ & Hset).
  exists e, w2. split; [exact Hp|exact Hset].
Defined.

(** ** What the package data needs *)

(** The package data of a package can be read only when the package has
    metadata with a Name, a Version and at least one Project-URL header: a
    package without a Project-URL fails in the search for its icon.  The
    data has the eight keys of the package data, in their order, and its tag
    is the version as [_get_package_version] returns it. *)
Theorem package_data_needs_headers (h : Host) (package_name : string)
    (data : list (string * PyData)) :
  _get_package_data h package_name = Ok data ->
  exists package_data name version urls tag,
    metadata h package_name = Some package_data
    /\ Message_get package_data "Name" = Some name
    /\ Message_get package_data "Version" = Some version
    /\ Message_get_all package_data "Project-URL" = Some urls
    /\ _get_package_version package_data = Ok tag
    /\ List.map fst data = package_data_keys
    /\ (("tag", DStr tag) ∈ data)
    /\ (("name", DStr (PyStr.replace "pollination-" "" name)) ∈ data).
Proof.
  unfold _get_package_data. intros Hd.
  destruct (metadata h package_name) as [pd|]; [|done]. cbn [mbind Result_bind] in Hd.
  destruct (Message_get pd "Name") as [n|] eqn:Hn; [|done].
  cbn [mbind Result_bind] in Hd.
  destruct (_get_package_version pd) as [tag|] eqn:Hv; [|done].
  cbn [mbind Result_bind] in Hd.
  destruct (_get_package_license pd); [|done]. cbn [mbind Result_bind] in Hd.
  destruct (_get_package_icon pd) as [icon|] eqn:Hi; [|done].
  cbn [mbind Result_bind] in Hd. injection Hd as <-.
  unfold _get_package_icon in Hi.
  destruct (Message_get_all pd "Project-URL") as [urls|] eqn:Hu; [|done].
  unfold _get_package_version in Hv.
  destruct (Message_get pd "Version") as [version|] eqn:Hversion; [|done].
  exists pd, n, version, urls, tag. split_and!; try done.
  - unfold _get_package_version. by rewrite Hversion.
  - apply list_elem_of_In. do 3 right. by left.
  - apply list_elem_of_In. by left.
Qed.

Lemma package_data_needs_headers_witness :
  exists data,
    _get_package_data described_host "pollination_honeybee_radiance" = Ok data
    /\ (("tag", DStr "0.5.2") ∈ data)
    /\ (("name", DStr "honeybee-radiance") ∈ data).
Proof.
  assert (match _get_package_data described_host "pollination_honeybee_radiance" with
          | Ok _ => true
          | Raise _ => false
          end = true) as Hgives by (vm_compute; reflexivity).
  destruct (_get_package_data described_host "pollination_honeybee_radiance")
    as [data|e] eqn:Hd; [clear Hgives|discriminate Hgives].
  destruct (package_data_needs_headers described_host "pollination_honeybee_radiance"
              data Hd)
    as (package_data & name & version & urls & tag
        & Hm & Hn & Hv & _ & Ht & _ & Htag & Hname).
  injection Hm as <-.
  assert (Message_get described_metadata "Name" = Some "pollination-honeybee-radiance")
    as Hn' by (vm_compute; reflexivity).
  rewrite Hn' in Hn. injection Hn as <-.
  assert (_get_package_version described_metadata = Ok "0.5.2") as Ht'
      by (vm_compute; reflexivity).
  rewrite Ht' in Ht. injection Ht as <-.
  assert (PyStr.replace "pollination-" "" "pollination-honeybee-radiance"
          = "honeybee-radiance") as Hr by (vm_compute; reflexivity).
  rewrite Hr in Hname.
  exists data. split_and!; [reflexivity|exact Htag|exact Hname].
Defined.
